(** * mini-webui: streaming client, optimistic transcript and reconciliation

    A shallow embedding of the TypeScript/Svelte sources

      - [src/lib/stores/index.ts]                 the auth stores
      - [src/lib/apis/client.ts]                  [getToken], [apiFetch]
      - [$lib/apis/chats]                         [streamMessage], [guestChat],
                                                  [guestChatStream]
      - [$lib/components/chat/MessageInput.svelte]
      - [$lib/components/chat/GuestMessageInput.svelte]
      - [src/routes/(app)/+page.svelte]           the transcript and its handlers
      - [$lib/components/chat/MessageList.svelte] [docSnippet]
      - the application layout and the sign-in page, for the two ways to
        log in

    How the code is read:

      - A JavaScript string is a [string] holding the UTF-8 bytes of the text;
        an array is a list; [null]/[undefined] is [None].
      - The variables of a component are the fields of a record that every
        handler takes and returns.  Transcript entries are values: the only
        in-place write of the sources, [messages[i].content = ...], becomes a
        list update, and the one place where two names share an array (the
        [push] in [handleGuestSent]) is written out where it matters.
      - An asynchronous function is cut at its [await]s: one definition for
        the part that runs before the suspension, one for what runs after it,
        and a definition that chains them for a send that no other event
        interrupts.
      - What the network does is an input: the reads of a response body, the
        answer to a request, the clock.  What the handlers do to the outside
        is a list of effects: requests, alerts, console errors.
      - A thrown exception is a result, [Threw] or [Raised], never a stuck
        computation.  Where a function calls a callback inside a [try], the
        values on which the callback throws are a parameter.
      - The state a handler of an input component returns is that of the
        instance that ran it.  The page creates the input anew when the
        transcript becomes empty or stops being empty; [input_kept] and
        [shown_after] tell which instance is on screen.
      - [JSON.parse] is a parameter of the frame decoder; a reader of the JSON
        grammar is provided to run it. *)

From Stdlib Require Import String Ascii NArith ZArith QArith Qround Qminmax.
From stdpp Require Import base option list strings numbers pretty relations.

Local Open Scope string_scope.
Local Open Scope list_scope.
Local Set Warnings "-register-all".

(* ================================================================== *)
(** * Part I. The embedding *)
(* ================================================================== *)

(** ** JavaScript string primitives used by the sources *)

Definition LF : ascii := "010"%char.
Definition CR : ascii := "013"%char.
Definition DQUOTE : ascii := "034"%char.

(** [s.startsWith(p)] *)
Definition startsWith (s p : string) : bool := String.prefix p s.

(** [s.slice(n)] for a non-negative [n] *)
Fixpoint slice_from (n : nat) (s : string) : string :=
  match n, s with
  | 0, _ => s
  | S n', String _ r => slice_from n' r
  | S _, EmptyString => EmptyString
  end.

(** [x || ''] on a string: the empty string is the only falsy one *)
Definition or_empty (o : option string) : string := default "" o.

(** [s.split(/\r?\n/)]: every LF, together with a CR right before it, is a
    separator; the result always has at least one piece. *)
Fixpoint split_lines (s : string) : list string :=
  match s with
  | EmptyString => [EmptyString]
  | String c r =>
      if Ascii.eqb c LF then EmptyString :: split_lines r
      else if Ascii.eqb c CR && startsWith r (String LF EmptyString)
      then split_lines r
      else match split_lines r with
           | l :: ls => String c l :: ls
           | [] => [String c EmptyString]
           end
  end.

(** White space as removed by [String.prototype.trim]: the ECMAScript
    WhiteSpace and LineTerminator code points, in their UTF-8 encoding
    (one, two or three bytes). *)
Definition ws1 (c : ascii) : bool :=
  let n := nat_of_ascii c in
  (Nat.leb 9 n && Nat.leb n 13) || Nat.eqb n 32.

(** U+00A0 *)
Definition ws2 (c1 c2 : ascii) : bool :=
  Nat.eqb (nat_of_ascii c1) 194 && Nat.eqb (nat_of_ascii c2) 160.

(** U+1680, U+2000..U+200A, U+2028, U+2029, U+202F, U+205F, U+3000, U+FEFF *)
Definition ws3 (c1 c2 c3 : ascii) : bool :=
  let a := nat_of_ascii c1 in
  let b := nat_of_ascii c2 in
  let c := nat_of_ascii c3 in
  (Nat.eqb a 225 && Nat.eqb b 154 && Nat.eqb c 128)
  || (Nat.eqb a 226 && Nat.eqb b 128
      && ((Nat.leb 128 c && Nat.leb c 138) || Nat.eqb c 168 || Nat.eqb c 169
          || Nat.eqb c 175))
  || (Nat.eqb a 226 && Nat.eqb b 129 && Nat.eqb c 159)
  || (Nat.eqb a 227 && Nat.eqb b 128 && Nat.eqb c 128)
  || (Nat.eqb a 239 && Nat.eqb b 187 && Nat.eqb c 191).

(** Strip leading white space.  With [back = true] the bytes are read in
    reverse order, so multi-byte characters arrive last byte first. *)
Fixpoint strip_ws (back : bool) (s : string) : string :=
  match s with
  | EmptyString => EmptyString
  | String c1 r1 =>
      if ws1 c1 then strip_ws back r1
      else match r1 with
           | EmptyString => s
           | String c2 r2 =>
               if (if back then ws2 c2 c1 else ws2 c1 c2) then strip_ws back r2
               else match r2 with
                    | EmptyString => s
                    | String c3 r3 =>
                        if (if back then ws3 c3 c2 c1 else ws3 c1 c2 c3)
                        then strip_ws back r3
                        else s
                    end
           end
  end.

Definition trimStart (s : string) : string := strip_ws false s.
Definition trimEnd (s : string) : string :=
  String.rev (strip_ws true (String.rev s)).

(** [s.trim()] *)
Definition trim (s : string) : string := trimEnd (trimStart s).

(** Truthiness of a string: [!s] is [true] exactly for the empty string. *)
Definition truthy (s : string) : bool := negb (String.eqb s "").

(** ** JSON values and [JSON.parse]

    The platform's [JSON.parse] is modelled by a recursive-descent reader of
    the JSON grammar (ECMA-404).  Numbers keep their lexeme; [\uXXXX] escapes
    are re-encoded as UTF-8. *)

Inductive Json : Type :=
| JNull
| JBool (b : bool)
| JNum (lexeme : string)
| JStr (s : string)
| JArr (elems : list Json)
| JObj (members : list (string * Json)).

(** Property read [o.k] on an object built by [JSON.parse]: for duplicate
    keys the last member wins. *)
Fixpoint get_member (k : string) (ms : list (string * Json)) : option Json :=
  match ms with
  | [] => None
  | (k', v) :: r =>
      match get_member k r with
      | Some v' => Some v'
      | None => if String.eqb k k' then Some v else None
      end
  end.

Definition json_ws (c : ascii) : bool :=
  let n := nat_of_ascii c in
  Nat.eqb n 32 || Nat.eqb n 9 || Nat.eqb n 10 || Nat.eqb n 13.

Fixpoint skip_ws (s : string) : string :=
  match s with
  | String c r => if json_ws c then skip_ws r else s
  | EmptyString => EmptyString
  end.

Definition is_digit (c : ascii) : bool :=
  let n := nat_of_ascii c in Nat.leb 48 n && Nat.leb n 57.

Fixpoint take_digits (s : string) : string * string :=
  match s with
  | String c r =>
      if is_digit c then let '(d, r') := take_digits r in (String c d, r')
      else (EmptyString, s)
  | EmptyString => (EmptyString, EmptyString)
  end.

(** An optional leading [c]. *)
Definition take_char (c : ascii) (s : string) : string * string :=
  match s with
  | String x r => if Ascii.eqb x c then (String c "", r) else ("", s)
  | EmptyString => ("", s)
  end.

(** Does [s] start with the character [c]?  If so, what follows it. *)
Definition after_char (c : ascii) (s : string) : option string :=
  match s with
  | String x r => if Ascii.eqb x c then Some r else None
  | EmptyString => None
  end.

Definition parse_int_part (s : string) : option (string * string) :=
  match s with
  | String c r =>
      if Ascii.eqb c "0" then Some ("0", r)
      else if is_digit c then
        let '(d, r') := take_digits r in Some (String c d, r')
      else None
  | EmptyString => None
  end.

Definition parse_frac_part (s : string) : option (string * string) :=
  match take_char "." s with
  | (EmptyString, _) => Some ("", s)
  | (dot, r) =>
      let '(d, r') := take_digits r in
      if String.eqb d "" then None else Some (dot +:+ d, r')
  end.

Definition parse_exp_part (s : string) : option (string * string) :=
  match s with
  | String c r =>
      if Ascii.eqb c "e" || Ascii.eqb c "E" then
        let '(sg, r1) :=
          match take_char "+" r with
          | (EmptyString, _) => take_char "-" r
          | plus => plus
          end in
        let '(d, r2) := take_digits r1 in
        if String.eqb d "" then None
        else Some (String c (sg +:+ d), r2)
      else Some ("", s)
  | EmptyString => Some ("", s)
  end.

Definition parse_number (s : string) : option (string * string) :=
  let '(sg, s1) := take_char "-" s in
  '(i, s2) ← parse_int_part s1;
  '(f, s3) ← parse_frac_part s2;
  '(e, s4) ← parse_exp_part s3;
  Some (sg +:+ i +:+ f +:+ e, s4).

(** One piece of a string literal: a raw byte, or the UTF-16 code unit of a
    [\uXXXX] escape. *)
Inductive StrItem : Type :=
| Raw (c : ascii)
| Unit16 (u : N).

Definition hex_digit (c : ascii) : option N :=
  let n := N_of_ascii c in
  if (N.leb 48 n && N.leb n 57)%N then Some (n - 48)%N
  else if (N.leb 65 n && N.leb n 70)%N then Some (n - 55)%N
  else if (N.leb 97 n && N.leb n 102)%N then Some (n - 87)%N
  else None.

Definition hex4 (a b c d : ascii) : option N :=
  x1 ← hex_digit a; x2 ← hex_digit b; x3 ← hex_digit c; x4 ← hex_digit d;
  Some (((x1 * 16 + x2) * 16 + x3) * 16 + x4)%N.

Definition simple_escape (c : ascii) : option ascii :=
  if Ascii.eqb c DQUOTE then Some DQUOTE
  else if Ascii.eqb c "\" then Some "\"%char
  else if Ascii.eqb c "/" then Some "/"%char
  else if Ascii.eqb c "b" then Some "008"%char
  else if Ascii.eqb c "f" then Some "012"%char
  else if Ascii.eqb c "n" then Some "010"%char
  else if Ascii.eqb c "r" then Some "013"%char
  else if Ascii.eqb c "t" then Some "009"%char
  else None.

(** The characters of a string literal after its opening quote, up to and
    including the closing quote. *)
Fixpoint parse_chars (s : string) : option (list StrItem * string) :=
  match s with
  | EmptyString => None
  | String c r =>
      if Ascii.eqb c DQUOTE then Some ([], r)
      else if Ascii.eqb c "\" then
        match r with
        | String e r1 =>
            if Ascii.eqb e "u" then
              match r1 with
              | String h1 (String h2 (String h3 (String h4 r5))) =>
                  u ← hex4 h1 h2 h3 h4;
                  '(items, rest) ← parse_chars r5;
                  Some (Unit16 u :: items, rest)
              | _ => None
              end
            else
              x ← simple_escape e;
              '(items, rest) ← parse_chars r1;
              Some (Raw x :: items, rest)
        | EmptyString => None
        end
      else if Nat.ltb (nat_of_ascii c) 32 then None
      else
        '(items, rest) ← parse_chars r;
        Some (Raw c :: items, rest)
  end.

Definition byte (n : N) : ascii := ascii_of_N n.

(** UTF-8 encoding of a code point (surrogates are encoded like any other
    three-byte value). *)
Definition utf8 (cp : N) : string :=
  if (cp <? 128)%N then String (byte cp) ""
  else if (cp <? 2048)%N then
    String (byte (192 + cp / 64)) (String (byte (128 + cp mod 64)) "")
  else if (cp <? 65536)%N then
    String (byte (224 + cp / 4096))
      (String (byte (128 + (cp / 64) mod 64))
         (String (byte (128 + cp mod 64)) ""))
  else
    String (byte (240 + cp / 262144))
      (String (byte (128 + (cp / 4096) mod 64))
         (String (byte (128 + (cp / 64) mod 64))
            (String (byte (128 + cp mod 64)) ""))).

Definition is_high (u : N) : bool := (55296 <=? u)%N && (u <=? 56319)%N.
Definition is_low (u : N) : bool := (56320 <=? u)%N && (u <=? 57343)%N.

Fixpoint encode_items (l : list StrItem) : string :=
  match l with
  | [] => ""
  | Raw c :: r => String c (encode_items r)
  | Unit16 hi :: r =>
      match r with
      | Unit16 lo :: r' =>
          if is_high hi && is_low lo
          then utf8 (65536 + (hi - 55296) * 1024 + (lo - 56320))%N
                 +:+ encode_items r'
          else utf8 hi +:+ encode_items r
      | _ => utf8 hi +:+ encode_items r
      end
  end.

Definition parse_string_lit (s : string) : option (string * string) :=
  '(items, rest) ← parse_chars s;
  Some (encode_items items, rest).

Definition parse_keyword (kw : string) (v : Json) (s : string)
  : option (Json * string) :=
  if startsWith s kw then Some (v, slice_from (String.length kw) s) else None.

(** The values that need no recursion: literals, strings and numbers. *)
Definition parse_atom (c : ascii) (r : string) : option (Json * string) :=
  let s := String c r in
  if Ascii.eqb c "n" then parse_keyword "null" JNull s
  else if Ascii.eqb c "t" then parse_keyword "true" (JBool true) s
  else if Ascii.eqb c "f" then parse_keyword "false" (JBool false) s
  else if Ascii.eqb c DQUOTE then
    '(str, rest) ← parse_string_lit r; Some (JStr str, rest)
  else '(lex, rest) ← parse_number s; Some (JNum lex, rest).

Fixpoint parse_value (fuel : nat) (s : string) {struct fuel}
  : option (Json * string) :=
  match fuel with
  | 0 => None
  | S n =>
      match s with
      | EmptyString => None
      | String c r =>
          if Ascii.eqb c "[" then
            match after_char "]" (skip_ws r) with
            | Some rest => Some (JArr [], rest)
            | None =>
                '(es, rest) ← parse_elements n (skip_ws r); Some (JArr es, rest)
            end
          else if Ascii.eqb c "{" then
            match after_char "}" (skip_ws r) with
            | Some rest => Some (JObj [], rest)
            | None =>
                '(ms, rest) ← parse_members n (skip_ws r); Some (JObj ms, rest)
            end
          else parse_atom c r
      end
  end
with parse_elements (fuel : nat) (s : string) {struct fuel}
  : option (list Json * string) :=
  match fuel with
  | 0 => None
  | S n =>
      '(v, r) ← parse_value n s;
      match after_char "," (skip_ws r) with
      | Some r1 =>
          '(vs, rest) ← parse_elements n (skip_ws r1);
          Some (v :: vs, rest)
      | None =>
          rest ← after_char "]" (skip_ws r);
          Some ([v], rest)
      end
  end
with parse_members (fuel : nat) (s : string) {struct fuel}
  : option (list (string * Json) * string) :=
  match fuel with
  | 0 => None
  | S n =>
      r ← after_char DQUOTE s;
      '(k, r1) ← parse_string_lit r;
      r2 ← after_char ":" (skip_ws r1);
      '(v, r3) ← parse_value n (skip_ws r2);
      match after_char "," (skip_ws r3) with
      | Some r4 =>
          '(ms, rest) ← parse_members n (skip_ws r4);
          Some ((k, v) :: ms, rest)
      | None =>
          rest ← after_char "}" (skip_ws r3);
          Some ([(k, v)], rest)
      end
  end.

(** [JSON.parse(text)]: [None] stands for the thrown [SyntaxError].  The
    fuel is enough for every text ([JSON_parse_fuel_enough]). *)
Definition JSON_parse (text : string) : option Json :=
  '(v, rest) ← parse_value (2 * String.length text + 2) (skip_ws text);
  if String.eqb (skip_ws rest) "" then Some v else None.

(** A JavaScript [number] that the client only stores, compares with bounds
    or passes on. *)
Definition Number : Type := Q.

(** ** Auth stores: [src/lib/stores/index.ts] *)

Record User : Type := mkUser {
  user_id : option string;
  user_name : option string;
  user_email : option string;
  user_role : option string;
  user_profile_image_url : option (option string)
}.

Record Stores : Type := mkStores {
  isAuthenticated : bool;
  user : option User;
  isGuest : bool;
  token : option string
}.

(** The initial values of the four [writable] stores. *)
Definition initial_stores : Stores :=
  {| isAuthenticated := false; user := None; isGuest := false; token := None |}.

Definition guestUser : User :=
  {| user_id := Some "guest";
     user_name := Some "Guest";
     user_email := Some "guest@example.com";
     user_role := Some "guest";
     user_profile_image_url := None |}.

Definition set_isAuthenticated (b : bool) (s : Stores) : Stores :=
  {| isAuthenticated := b; user := user s; isGuest := isGuest s; token := token s |}.
Definition set_user (u : option User) (s : Stores) : Stores :=
  {| isAuthenticated := isAuthenticated s; user := u; isGuest := isGuest s;
     token := token s |}.
Definition set_isGuest (b : bool) (s : Stores) : Stores :=
  {| isAuthenticated := isAuthenticated s; user := user s; isGuest := b;
     token := token s |}.
Definition set_token (t : option string) (s : Stores) : Stores :=
  {| isAuthenticated := isAuthenticated s; user := user s; isGuest := isGuest s;
     token := t |}.

Definition setGuestMode (s : Stores) : Stores :=
  set_token None
    (set_user (Some guestUser) (set_isGuest true (set_isAuthenticated true s))).

(** The stores together with the one [localStorage] item the client uses. *)
Record Session : Type := mkSession {
  stores : Stores;
  localStorage_token : option string
}.

Definition clearAuth (b : Session) : Session :=
  {| stores := set_token None (set_user None (set_isGuest false
                 (set_isAuthenticated false (stores b))));
     localStorage_token := None |}.

(** [getToken()] of [src/lib/apis/client.ts] *)
Definition getToken (b : Session) : option string := localStorage_token b.

(** A stored token counts only when it is a non-empty string ([if (token)],
    [if (!token)]). *)
Definition token_truthy (t : option string) : bool :=
  match t with
  | Some s => truthy s
  | None => false
  end.

(** [onMount] of the application layout; [me_result] is the outcome of the
    [me()] call ([None] when it throws). *)
Definition layout_onMount (me_result : option User) (b : Session) : Session :=
  if negb (token_truthy (localStorage_token b)) then
    {| stores := setGuestMode (stores b);
       localStorage_token := localStorage_token b |}
  else
    match me_result with
    | Some u =>
        {| stores := set_isAuthenticated true (set_user (Some u) (stores b));
           localStorage_token := localStorage_token b |}
    | None =>
        {| stores := setGuestMode (stores b); localStorage_token := None |}
    end.

(** The success path of [handleSubmit] on the sign-in page. *)
Definition auth_handleSubmit_ok (access_token : string) (u : User) (b : Session)
  : Session :=
  {| stores := set_isGuest false (set_isAuthenticated true (set_user (Some u)
                 (set_token (Some access_token) (stores b))));
     localStorage_token := Some access_token |}.

(** [logout] of the sidebar. *)
Definition logout (b : Session) : Session :=
  {| stores := set_isAuthenticated false (set_user None (stores b));
     localStorage_token := None |}.

(** [handleGuestMode] of the sign-in page: [setGuestMode(); goto('/')].  The
    stored token is left where it is. *)
Definition auth_handleGuestMode (b : Session) : Session :=
  {| stores := setGuestMode (stores b);
     localStorage_token := localStorage_token b |}.

(** ** Transcript entries *)

Record ChatMessage : Type := mkMsg {
  role : string;
  content : string;
  timestamp : option Number;
  data : option Json;
  placeholder : bool;          (* the [__placeholder] marker *)
  cid : option string
}.

Definition set_content (c : string) (m : ChatMessage) : ChatMessage :=
  {| role := role m; content := c; timestamp := timestamp m; data := data m;
     placeholder := placeholder m; cid := cid m |}.

(** An entry as the backend sends it:
    [{ role: string; content: string; timestamp?: number; data?: ... }]. *)
Record WireMessage : Type := mkWire {
  w_role : string;
  w_content : string;
  w_timestamp : option Number;
  w_data : option Json
}.

(** A received entry read as a transcript entry: it has neither the
    [__placeholder] marker nor a [cid]. *)
Definition of_wire (w : WireMessage) : ChatMessage :=
  {| role := w_role w; content := w_content w; timestamp := w_timestamp w;
     data := w_data w; placeholder := false; cid := None |}.

(** The value of a JSON number lexeme, as an exact rational (the double
    that JavaScript computes is not modelled; the client never calculates
    with these numbers). *)
Fixpoint digits_value (acc : Z) (s : string) : Z :=
  match s with
  | String c r => digits_value (10 * acc + (Z.of_nat (nat_of_ascii c) - 48)) r
  | EmptyString => acc
  end.

Definition number_of_lexeme (lex : string) : Number :=
  let '(sg, s1) := take_char "-" lex in
  let '(i, s2) := take_digits s1 in
  let '(_, s3) := take_char "." s2 in
  let '(f, s4) := take_digits s3 in
  let mantissa :=
    (inject_Z (digits_value 0 (i +:+ f))
     / inject_Z (10 ^ Z.of_nat (String.length f)))%Q in
  let exponent :=
    match s4 with
    | String _ r =>
        let '(esg, r1) :=
          match take_char "+" r with
          | (EmptyString, _) => take_char "-" r
          | plus => plus
          end in
        let '(d, _) := take_digits r1 in
        if String.eqb esg "-" then (- digits_value 0 d)%Z else digits_value 0 d
    | EmptyString => 0%Z
    end in
  let q := (mantissa * Qpower (inject_Z 10) exponent)%Q in
  if String.eqb sg "" then q else (- q)%Q.

(** A parsed object read at the declared type of a message; [None] when it
    does not have that type (a missing or non-string [role] or [content], a
    non-numeric [timestamp], or one of the client's own properties). *)
Definition wire_of_json (j : Json) : option WireMessage :=
  match j with
  | JObj ms =>
      match get_member "role" ms, get_member "content" ms,
            get_member "__placeholder" ms, get_member "cid" ms with
      | Some (JStr r), Some (JStr c), None, None =>
          match get_member "timestamp" ms with
          | None =>
              Some {| w_role := r; w_content := c; w_timestamp := None;
                      w_data := get_member "data" ms |}
          | Some (JNum lex) =>
              Some {| w_role := r; w_content := c;
                      w_timestamp := Some (number_of_lexeme lex);
                      w_data := get_member "data" ms |}
          | Some _ => None
          end
      | _, _, _, _ => None
      end
  | _ => None
  end.

(** [a.slice(0, -k)] and [a.slice(-k)] on arrays *)
Definition slice_to_neg {A} (k : nat) (l : list A) : list A :=
  take (length l - k) l.
Definition slice_neg {A} (k : nat) (l : list A) : list A :=
  drop (length l - k) l.

(** ** HTTP requests issued through [fetch] *)

(** A value put into the query string or the body, before its rendering by
    [String(...)] or [JSON.stringify(...)]. *)
Inductive Param : Type :=
| PText (s : string)
| PNumber (n : Number)
| PBool (b : bool)
| PMessages (ms : list ChatMessage).

Record Request : Type := mkRequest {
  req_path : string;                      (* appended to [API_BASE] *)
  req_method : string;
  req_query : list (string * Param);
  req_headers : list (string * string);
  req_cache : option string;
  req_mode : option string;
  req_body : list (string * Param)
}.

(** [headers[name]] *)
Fixpoint header (name : string) (hs : list (string * string)) : option string :=
  match hs with
  | [] => None
  | (k, v) :: r => if String.eqb k name then Some v else header name r
  end.

Record StreamMessageOptions : Type := mkOpts {
  opt_model : option string;
  opt_temperature : option Number;
  opt_api_base : option string;
  opt_use_rag : option bool;
  opt_rag_top_k : option Number;
  opt_rag_temperature : option Number
}.

Definition no_options : StreamMessageOptions :=
  {| opt_model := None; opt_temperature := None; opt_api_base := None;
     opt_use_rag := None; opt_rag_top_k := None; opt_rag_temperature := None |}.

Definition when_text (k : string) (o : option string) : list (string * Param) :=
  match o with
  | Some s => if truthy s then [(k, PText s)] else []
  | None => []
  end.

Definition when_number (k : string) (o : option Number) : list (string * Param) :=
  match o with
  | Some n => [(k, PNumber n)]
  | None => []
  end.

(** The optional [searchParams.set] calls shared by both stream functions,
    in source order. *)
Definition option_params (opts : StreamMessageOptions) : list (string * Param) :=
  when_text "model" (opt_model opts)
  ++ when_number "temperature" (opt_temperature opts)
  ++ (if default false (opt_use_rag opts) then [("use_rag", PText "true")] else [])
  ++ when_number "rag_top_k" (opt_rag_top_k opts)
  ++ when_number "rag_temperature" (opt_rag_temperature opts)
  ++ when_text "api_base" (opt_api_base opts).

(** The [fetch] call of [streamMessage]. *)
Definition streamMessage_request (tok : option string) (id text : string)
    (opts : StreamMessageOptions) : Request :=
  {| req_path := "/api/chats/" +:+ id +:+ "/stream";
     req_method := "GET";
     req_query := ("content", PText text) :: option_params opts;
     req_headers :=
       ("Accept", "text/event-stream")
       :: match tok with
          | Some t => if truthy t then [("Authorization", "Bearer " +:+ t)] else []
          | None => []
          end;
     req_cache := Some "no-store";
     req_mode := Some "cors";
     req_body := [] |}.

(** The [fetch] call of [guestChatStream]. *)
Definition guestChatStream_request (text : string) (history : list ChatMessage)
    (opts : StreamMessageOptions) : Request :=
  {| req_path := "/api/chats/guest/stream";
     req_method := "GET";
     req_query :=
       ("content", PText text) :: ("messages", PMessages history)
       :: option_params opts;
     req_headers := [("Accept", "text/event-stream")];
     req_cache := Some "no-store";
     req_mode := Some "cors";
     req_body := [] |}.

(** [apiFetch(path, init)] with the default [auth = true]: the headers it
    sets on the request. *)
Definition apiFetch_headers (tok : option string) : list (string * string) :=
  ("Content-Type", "application/json")
  :: match tok with
     | Some t => if truthy t then [("Authorization", "Bearer " +:+ t)] else []
     | None => []
     end.

Record GuestChatRequest : Type := mkGuestReq {
  gr_content : string;
  gr_messages : list ChatMessage;
  gr_use_rag : bool;
  gr_rag_top_k : Number;
  gr_rag_temperature : Number
}.

(** The [fetch] call behind [guestChat(request)]. *)
Definition guestChat_request (tok : option string) (r : GuestChatRequest) : Request :=
  {| req_path := "/api/chats/guest/chat";
     req_method := "POST";
     req_query := [];
     req_headers := apiFetch_headers tok;
     req_cache := None;
     req_mode := None;
     req_body :=
       [("content", PText (gr_content r)); ("messages", PMessages (gr_messages r));
        ("use_rag", PBool (gr_use_rag r)); ("rag_top_k", PNumber (gr_rag_top_k r));
        ("rag_temperature", PNumber (gr_rag_temperature r))] |}.

(** The [fetch] call behind [sendMessage(id, content, options)]; [undefined]
    options are dropped by [JSON.stringify]. *)
Definition sendMessage_request (tok : option string) (id text : string)
    (use_rag : option bool) (top_k temp : option Number) : Request :=
  {| req_path := "/api/chats/" +:+ id +:+ "/messages";
     req_method := "POST";
     req_query := [];
     req_headers := apiFetch_headers tok;
     req_cache := None;
     req_mode := None;
     req_body :=
       ("content", PText text)
       :: match use_rag with Some b => [("use_rag", PBool b)] | None => [] end
       ++ when_number "rag_top_k" top_k
       ++ when_number "rag_temperature" temp |}.

(** A request is a streaming request when it asks for an event stream. *)
Definition is_stream_request (r : Request) : bool :=
  match header "Accept" (req_headers r) with
  | Some v => String.eqb v "text/event-stream"
  | None => false
  end.

(** ** Frame decoding: the read loops of [streamMessage] and [guestChatStream] *)

(** What a stream function hands to its caller: [onChunk(text)] or
    [onMessages(data)]; [data] is [parsed.data], [None] when the property is
    missing. *)
Inductive StreamEvent : Type :=
| TextChunk (text : string)
| Control (data : option Json).

(** [onChunk?.(data)] *)
Definition emit_chunk (has_onChunk : bool) (payload : string) : list StreamEvent :=
  if has_onChunk then [TextChunk payload] else [].

(** [streamMessage]: every payload other than the terminal marker goes to
    [onChunk]. *)
Definition stream_payload (has_onChunk : bool) (payload : string)
  : list StreamEvent :=
  emit_chunk has_onChunk payload.

(** [guestChatStream]: the [try { JSON.parse ... } catch { onChunk }] block,
    for any reading [parse] of [JSON.parse] ([None] is the thrown
    [SyntaxError]).  Reading [.type] of [null] throws inside the [try];
    reading it on any other non-object value gives [undefined].  The call
    [onMessages(parsed.data)] is made inside the [try] as well: when the
    callback throws, the [catch] clause hands the payload to [onChunk] too.
    [onMessages_throws] tells on which data the caller's callback throws. *)
Definition guest_payload (parse : string -> option Json)
    (has_onChunk has_onMessages : bool)
    (onMessages_throws : option Json -> bool) (payload : string)
  : list StreamEvent :=
  match parse payload with
  | None => emit_chunk has_onChunk payload
  | Some JNull => emit_chunk has_onChunk payload
  | Some (JObj ms) =>
      match get_member "type" ms with
      | Some (JStr t) =>
          if String.eqb t "messages" && has_onMessages
          then
            let data := get_member "data" ms in
            Control data
            :: (if onMessages_throws data then emit_chunk has_onChunk payload
                else [])
          else []
      | _ => []
      end
  | Some _ => []
  end.

(** A callback that returns on every value. *)
Definition never_throws : option Json -> bool := fun _ => false.

(** One complete line: [None] is the [return] taken at [data: [DONE]]. *)
Definition decode_line (on_payload : string -> list StreamEvent) (line : string)
  : option (list StreamEvent) :=
  if startsWith line "data: " then
    let payload := slice_from 6 line in
    if String.eqb payload "[DONE]" then None else Some (on_payload payload)
  else Some [].

(** The [for (const line of lines)] loop; the flag tells whether the terminal
    marker was met. *)
Fixpoint decode_lines (on_payload : string -> list StreamEvent)
    (lines : list string) : list StreamEvent * bool :=
  match lines with
  | [] => ([], false)
  | line :: rest =>
      match decode_line on_payload line with
      | None => ([], true)
      | Some evs =>
          let '(evs', stop) := decode_lines on_payload rest in
          (evs ++ evs', stop)
      end
  end.

(** How the body ends after the reads that delivered data: the reader reports
    [done], or a [read()] rejects. *)
Inductive BodyEnd : Type :=
| EndOfBody
| ReadFails (err : string).

(** How a stream function finishes. *)
Inductive Completion : Type :=
| Returned
| Threw (err : string).

(** The [while (true)] loop; [reads] are the decoded texts of the successive
    [reader.read()] results. *)
Fixpoint read_loop (on_payload : string -> list StreamEvent) (buf : string)
    (reads : list string) (ending : BodyEnd) : list StreamEvent * Completion :=
  match reads with
  | [] =>
      match ending with
      | EndOfBody => ([], Returned)
      | ReadFails e => ([], Threw e)
      end
  | value :: rest =>
      let pieces := split_lines (buf +:+ value) in
      let buf' := or_empty (last pieces) in
      let '(evs, stop) := decode_lines on_payload (removelast pieces) in
      if stop then (evs, Returned)
      else
        let '(evs', c) := read_loop on_payload buf' rest ending in
        (evs ++ evs', c)
  end.

Record Response : Type := mkResponse {
  res_ok : bool;
  res_status : N;
  res_statusText : string;
  res_text : option string;                     (* [None]: [res.text()] rejects *)
  res_body : option (list string * BodyEnd)
}.

Inductive FetchResult : Type :=
| FetchRejects (err : string)
| FetchResolves (res : Response).

(** [text || res.statusText] *)
Definition error_text (res : Response) : string :=
  let text := default "" (res_text res) in
  if truthy text then text else res_statusText res.

(** Everything after the [fetch] call of a stream function. *)
Definition consume (on_payload : string -> list StreamEvent) (fr : FetchResult)
  : list StreamEvent * Completion :=
  match fr with
  | FetchRejects e => ([], Threw e)
  | FetchResolves res =>
      match res_ok res, res_body res with
      | true, Some (reads, ending) => read_loop on_payload "" reads ending
      | _, _ => ([], Threw (error_text res))
      end
  end.

Definition streamMessage (has_onChunk : bool) (fr : FetchResult)
  : list StreamEvent * Completion :=
  consume (stream_payload has_onChunk) fr.

Definition guestChatStream (parse : string -> option Json)
    (has_onChunk has_onMessages : bool)
    (onMessages_throws : option Json -> bool) (fr : FetchResult)
  : list StreamEvent * Completion :=
  consume (guest_payload parse has_onChunk has_onMessages onMessages_throws) fr.

(** ** Observable effects *)

Inductive Effect : Type :=
| Fetch (r : Request)
| Alert (msg : string)
| ConsoleError (msg : string).

(** The requests among the effects, and whether any of them is a stream. *)
Definition fetched (es : list Effect) : list Request :=
  omap (fun e => match e with Fetch r => Some r | _ => None end) es.

Definition opens_stream (es : list Effect) : bool :=
  existsb is_stream_request (fetched es).

Definition alerts (es : list Effect) : list string :=
  omap (fun e => match e with Alert m => Some m | _ => None end) es.

(** A callback either finishes or throws; the state reached is kept in both
    cases. *)
Inductive Step (S : Type) : Type :=
| Next (s : S)
| Raised (err : string) (s : S).
Arguments Next {S} s.
Arguments Raised {S} err s.

Definition step_state {S} (r : Step S) : S :=
  match r with
  | Next s => s
  | Raised _ s => s
  end.

(** ** The chat page: [src/routes/(app)/+page.svelte] *)

Record Page : Type := mkPage {
  chats : list string;                      (* the ids of the listed chats *)
  selectedChatId : option string;
  messages : list ChatMessage;
  streaming : bool;
  useRag : bool;
  ragTopK : Number;
  ragTemperature : Number;
  pendingAssistantIndex : option nat;
  isGuestMode : bool;
  ignoreFinalGuestSse : bool;
  cidCounter : nat
}.

Definition initial_page : Page :=
  {| chats := []; selectedChatId := None; messages := []; streaming := true;
     useRag := false; ragTopK := inject_Z 4; ragTemperature := (3 # 10)%Q;
     pendingAssistantIndex := None; isGuestMode := false;
     ignoreFinalGuestSse := false; cidCounter := 0 |}.

Definition with_chats (x : list string) (p : Page) : Page :=
  mkPage x (selectedChatId p) (messages p) (streaming p) (useRag p) (ragTopK p)
    (ragTemperature p) (pendingAssistantIndex p) (isGuestMode p)
    (ignoreFinalGuestSse p) (cidCounter p).
Definition with_selectedChatId (x : option string) (p : Page) : Page :=
  mkPage (chats p) x (messages p) (streaming p) (useRag p) (ragTopK p)
    (ragTemperature p) (pendingAssistantIndex p) (isGuestMode p)
    (ignoreFinalGuestSse p) (cidCounter p).
Definition with_messages (x : list ChatMessage) (p : Page) : Page :=
  mkPage (chats p) (selectedChatId p) x (streaming p) (useRag p) (ragTopK p)
    (ragTemperature p) (pendingAssistantIndex p) (isGuestMode p)
    (ignoreFinalGuestSse p) (cidCounter p).
Definition with_streaming (x : bool) (p : Page) : Page :=
  mkPage (chats p) (selectedChatId p) (messages p) x (useRag p) (ragTopK p)
    (ragTemperature p) (pendingAssistantIndex p) (isGuestMode p)
    (ignoreFinalGuestSse p) (cidCounter p).
Definition with_useRag (x : bool) (p : Page) : Page :=
  mkPage (chats p) (selectedChatId p) (messages p) (streaming p) x (ragTopK p)
    (ragTemperature p) (pendingAssistantIndex p) (isGuestMode p)
    (ignoreFinalGuestSse p) (cidCounter p).
Definition with_pendingAssistantIndex (x : option nat) (p : Page) : Page :=
  mkPage (chats p) (selectedChatId p) (messages p) (streaming p) (useRag p)
    (ragTopK p) (ragTemperature p) x (isGuestMode p) (ignoreFinalGuestSse p)
    (cidCounter p).
Definition with_ignoreFinalGuestSse (x : bool) (p : Page) : Page :=
  mkPage (chats p) (selectedChatId p) (messages p) (streaming p) (useRag p)
    (ragTopK p) (ragTemperature p) (pendingAssistantIndex p) (isGuestMode p) x
    (cidCounter p).
Definition with_cidCounter (x : nat) (p : Page) : Page :=
  mkPage (chats p) (selectedChatId p) (messages p) (streaming p) (useRag p)
    (ragTopK p) (ragTemperature p) (pendingAssistantIndex p) (isGuestMode p)
    (ignoreFinalGuestSse p) x.

Definition with_isGuestMode (x : bool) (p : Page) : Page :=
  mkPage (chats p) (selectedChatId p) (messages p) (streaming p) (useRag p)
    (ragTopK p) (ragTemperature p) (pendingAssistantIndex p) x
    (ignoreFinalGuestSse p) (cidCounter p).

(** [$: if ($isGuest !== isGuestMode) { ... }], up to the request that the
    switch to authenticated mode starts. *)
Definition sync_guest_mode (isGuest_store : bool) (p : Page) : Page :=
  if bool_decide (isGuest_store = isGuestMode p) then p
  else if isGuest_store then
    with_selectedChatId None
      (with_chats [] (with_messages [] (with_isGuestMode true p)))
  else with_isGuestMode false p.

(** [$: if (useRag) { streaming = false; }] *)
Definition rag_reactive (p : Page) : Page :=
  if useRag p then with_streaming false p else p.

(** The two check boxes.  The streaming box carries [disabled={useRag}], so
    it changes [streaming] only while [useRag] is off; the reactive statement
    reads [useRag] alone and runs after a change of that variable, not after
    a change of [streaming]. *)
Definition toggle_streaming (b : bool) (p : Page) : Page :=
  if useRag p then p else with_streaming b p.
Definition toggle_useRag (b : bool) (p : Page) : Page :=
  rag_reactive (with_useRag b p).

(** [{ use_rag: useRag, rag_top_k: ragTopK, rag_temperature: ragTemperature }] *)
Definition page_options (p : Page) : StreamMessageOptions :=
  {| opt_model := None; opt_temperature := None; opt_api_base := None;
     opt_use_rag := Some (useRag p); opt_rag_top_k := Some (ragTopK p);
     opt_rag_temperature := Some (ragTemperature p) |}.

Definition user_entry (text : string) (nowSec : Z) (c : option string)
  : ChatMessage :=
  {| role := "user"; content := text; timestamp := Some (inject_Z nowSec);
     data := None; placeholder := false; cid := c |}.

Definition assistant_entry (marker : bool) (c : option string) : ChatMessage :=
  {| role := "assistant"; content := ""; timestamp := None; data := None;
     placeholder := marker; cid := c |}.

(** [messages[pendingAssistantIndex].content = text; messages = [...messages]];
    the write throws when there is no entry at the index. *)
Definition write_pending (text : string) (p : Page) : Step Page :=
  match pendingAssistantIndex p with
  | Some i =>
      match messages p !! i with
      | Some m => Next (with_messages (<[i := set_content text m]> (messages p)) p)
      | None => Raised "TypeError" p
      end
  | None => Next p
  end.

(** [pendingAssistantIndex != null && messages[pendingAssistantIndex]?.__placeholder] *)
Definition placeholder_pending (p : Page) : bool :=
  match pendingAssistantIndex p with
  | Some i =>
      match messages p !! i with
      | Some m => placeholder m
      | None => false
      end
  | None => false
  end.

(** [a.role === b.role && a.content === b.content] *)
Definition same_entry (a b : ChatMessage) : bool :=
  String.eqb (role a) (role b) && String.eqb (content a) (content b).

(** Do the last two entries exist and carry the same role and content? *)
Definition tail_duplicated (l : list ChatMessage) : bool :=
  Nat.leb 2 (length l)
  && match l !! (length l - 1), l !! (length l - 2) with
     | Some a, Some b => same_entry a b
     | _, _ => false
     end.

(** The tail de-duplication of the snapshot callback. *)
Definition dedup_tail (l : list ChatMessage) : list ChatMessage :=
  if tail_duplicated l then slice_to_neg 1 l else l.

(** The replacement made by the snapshot callback: with the placeholder
    still in place the last two entries give way to the last two of the
    snapshot, otherwise the snapshot is taken whole. *)
Definition reconcile_replace (updatedMessages : list WireMessage) (p : Page)
  : list ChatMessage :=
  if placeholder_pending p
  then slice_to_neg 2 (messages p) ++ map of_wire (slice_neg 2 updatedMessages)
  else map of_wire updatedMessages.

(** *** Guest sends: [handleGuestSent] *)

(** The variables captured by the callbacks of one send.
    [sc_currentMessages] is the array named [currentMessages]; in the
    streaming branch [messages] was the same array when the placeholder was
    pushed, so the array holds the placeholder as well. *)
Record SendCtx : Type := mkCtx {
  sc_content : string;
  sc_currentMessages : list ChatMessage;
  sc_acc : string
}.

Definition with_acc (a : string) (c : SendCtx) : SendCtx :=
  {| sc_content := sc_content c; sc_currentMessages := sc_currentMessages c;
     sc_acc := a |}.

(** Where [handleGuestSent] stands after its synchronous prefix. *)
Inductive Started : Type :=
| NotStarted                       (* [if (!content) return] *)
| AwaitStream (ctx : SendCtx)      (* [await guestChatStream(...)] *)
| AwaitReply (ctx : SendCtx).      (* [await guestChat(...)], non-streaming *)

(** The request object handed to [guestChat]. *)
Definition guest_request (ctx : SendCtx) (p : Page) : GuestChatRequest :=
  {| gr_content := sc_content ctx;
     gr_messages := slice_to_neg 1 (sc_currentMessages ctx);
     gr_use_rag := useRag p;
     gr_rag_top_k := ragTopK p;
     gr_rag_temperature := ragTemperature p |}.

(** [handleGuestSent] up to its first [await]. *)
Definition handleGuestSent_start (tok : option string) (text : string)
    (nowSec : Z) (p : Page) : Page * list Effect * Started :=
  if negb (truthy text) then (p, [], NotStarted)
  else if streaming p && negb (useRag p) then
    let c1 := S (cidCounter p) in
    let c2 := S c1 in
    let currentMessages :=
      messages p ++ [user_entry text nowSec (Some (pretty c1))]
                 ++ [assistant_entry true (Some (pretty c2))] in
    let p' :=
      with_ignoreFinalGuestSse false
        (with_pendingAssistantIndex (Some (length currentMessages - 1))
           (with_messages currentMessages (with_cidCounter c2 p))) in
    let ctx := {| sc_content := text; sc_currentMessages := currentMessages;
                  sc_acc := "" |} in
    (p',
     [Fetch (guestChatStream_request text (slice_to_neg 1 currentMessages)
               (page_options p'))],
     AwaitStream ctx)
  else
    let c1 := S (cidCounter p) in
    let currentMessages :=
      messages p ++ [user_entry text nowSec (Some (pretty c1))] in
    let p' := with_messages currentMessages (with_cidCounter c1 p) in
    let ctx := {| sc_content := text; sc_currentMessages := currentMessages;
                  sc_acc := "" |} in
    (p', [Fetch (guestChat_request tok (guest_request ctx p'))], AwaitReply ctx).

(** The [(chunk) => { ... }] callback. *)
Definition guest_onChunk (chunk : string) (st : SendCtx * Page)
  : Step (SendCtx * Page) :=
  let ctx' := with_acc (sc_acc st.1 +:+ chunk) st.1 in
  match write_pending (sc_acc ctx') st.2 with
  | Next p' => Next (ctx', p')
  | Raised e p' => Raised e (ctx', p')
  end.

(** The [(updatedMessages) => { ... }] callback. *)
Definition guest_onMessages (updatedMessages : list WireMessage) (p : Page)
  : Page :=
  if ignoreFinalGuestSse p then
    with_ignoreFinalGuestSse false (with_pendingAssistantIndex None p)
  else
    with_ignoreFinalGuestSse false
      (with_pendingAssistantIndex None
         (with_messages (dedup_tail (reconcile_replace updatedMessages p)) p)).

(** The callbacks as the page sees them: text chunks, and snapshots typed as
    arrays of messages. *)
Inductive PageEvent : Type :=
| EvChunk (text : string)
| EvMessages (updatedMessages : list WireMessage).

Definition guest_callback (ev : PageEvent) (st : SendCtx * Page)
  : Step (SendCtx * Page) :=
  match ev with
  | EvChunk c => guest_onChunk c st
  | EvMessages ms => Next (st.1, guest_onMessages ms st.2)
  end.

(** Callbacks run in delivery order; a throwing callback ends the stream
    call. *)
Fixpoint deliver {E S} (cb : E -> S -> Step S) (evs : list E) (st : S)
  : Step S :=
  match evs with
  | [] => Next st
  | ev :: rest =>
      match cb ev st with
      | Next st' => deliver cb rest st'
      | Raised e st' => Raised e st'
      end
  end.

(** The answer of the [guestChat] request. *)
Inductive Reply : Type :=
| ReplyOk (response : string) (reply_messages : list WireMessage)
| ReplyFails (err : string).

(** The [catch (error)] block up to [await guestChat(...)]. *)
Definition handleGuestSent_catch (tok : option string) (err : string)
    (ctx : SendCtx) (p : Page) : list Effect :=
  [ConsoleError ("Guest streaming error: " +:+ err);
   Fetch (guestChat_request tok (guest_request ctx p))].

(** What follows [await guestChat(...)] in the [catch] block. *)
Definition handleGuestSent_fallback (r : Reply) (p : Page)
  : Page * list Effect * Completion :=
  match r with
  | ReplyOk _ ms =>
      (with_ignoreFinalGuestSse true
         (with_pendingAssistantIndex None (with_messages (map of_wire ms) p)),
       [], Returned)
  | ReplyFails e => (p, [ConsoleError ("Guest chat API error: " +:+ e)], Threw e)
  end.

(** What follows [await guestChat(...)] in the non-streaming branch. *)
Definition handleGuestSent_reply (r : Reply) (p : Page)
  : Page * list Effect * Completion :=
  match r with
  | ReplyOk _ ms => (with_messages (map of_wire ms) p, [], Returned)
  | ReplyFails e => (p, [ConsoleError ("Guest chat API error: " +:+ e)], Threw e)
  end.

(** What the network does during one guest send. *)
Record GuestScript : Type := mkScript {
  gs_events : list PageEvent;       (* callbacks made by [guestChatStream] *)
  gs_stream : Completion;           (* how [guestChatStream] finishes *)
  gs_reply : Reply                  (* the answer to [guestChat], if asked *)
}.

(** What follows the synchronous prefix in the streaming branch. *)
Definition handleGuestSent_stream (tok : option string) (sc : GuestScript)
    (ctx : SendCtx) (p : Page) : Page * list Effect * Completion :=
  let run :=
    match deliver guest_callback (gs_events sc) (ctx, p) with
    | Next st => (st, gs_stream sc)
    | Raised e st => (st, Threw e)
    end in
  match run with
  | (st, Returned) => (st.2, [], Returned)
  | (st, Threw e) =>
      let es := handleGuestSent_catch tok e st.1 st.2 in
      let '(p', es', c) := handleGuestSent_fallback (gs_reply sc) st.2 in
      (p', es ++ es', c)
  end.

(** A decoded event as the page's callbacks receive it; [None] when a
    snapshot is not an array of messages. *)
Definition page_event (ev : StreamEvent) : option PageEvent :=
  match ev with
  | TextChunk t => Some (EvChunk t)
  | Control (Some (JArr js)) => EvMessages <$> mapM wire_of_json js
  | Control _ => None
  end.

(** [handleGuestSent], from the event to the settling of its promise. *)
Definition handleGuestSent (tok : option string) (text : string) (nowSec : Z)
    (sc : GuestScript) (p : Page) : Page * list Effect * Completion :=
  let '(p1, es1, started) := handleGuestSent_start tok text nowSec p in
  match started with
  | NotStarted => (p1, es1, Returned)
  | AwaitStream ctx =>
      let '(p2, es2, c) := handleGuestSent_stream tok sc ctx p1 in
      (p2, es1 ++ es2, c)
  | AwaitReply ctx =>
      let '(p2, es2, c) := handleGuestSent_reply (gs_reply sc) p1 in
      (p2, es1 ++ es2, c)
  end.

(** [console.error('Guest streaming API error:', res.status, text)]: what
    [guestChatStream] writes to the console before it throws on a response
    that is not ok or has no body. *)
Definition guestChatStream_console (fr : FetchResult) : list Effect :=
  match fr with
  | FetchRejects _ => []
  | FetchResolves res =>
      match res_ok res, res_body res with
      | true, Some _ => []
      | _, _ =>
          [ConsoleError ("Guest streaming API error: " +:+ pretty (res_status res)
                         +:+ " " +:+ default "" (res_text res))]
      end
  end.

(** [handleGuestSent] fed by the HTTP exchange itself: the answer to the
    stream request, which is made in the streaming branch only, and the
    answer to [guestChat].  [None] when the stream carries a snapshot that is
    not an array of messages: the page's callback is written for arrays of
    messages, the declared type of its parameter, and on those it returns,
    which is why the stream is decoded with [never_throws]. *)
Definition handleGuestSent_http (parse : string -> option Json)
    (tok : option string) (text : string) (nowSec : Z) (fr : FetchResult)
    (reply : Reply) (p : Page) : option (Page * list Effect * Completion) :=
  let '(p1, es1, started) := handleGuestSent_start tok text nowSec p in
  match started with
  | NotStarted => Some (p1, es1, Returned)
  | AwaitStream ctx =>
      let '(evs, c) := guestChatStream parse true true never_throws fr in
      pevs ← mapM page_event evs;
      let '(p2, es2, c') :=
        handleGuestSent_stream tok
          {| gs_events := pevs; gs_stream := c; gs_reply := reply |} ctx p1 in
      Some (p2, es1 ++ guestChatStream_console fr ++ es2, c')
  | AwaitReply ctx =>
      let '(p2, es2, c) := handleGuestSent_reply reply p1 in
      Some (p2, es1 ++ es2, c)
  end.

(** *** Authenticated sends: the handlers bound to [MessageInput] *)

(** Truthiness of a chat id ([string | null]). *)
Definition id_truthy (o : option string) : bool :=
  match o with
  | Some s => truthy s
  | None => false
  end.

(** [a ?? b] *)
Definition coalesce {A} (a b : option A) : option A :=
  match a with
  | Some _ => a
  | None => b
  end.

(** [on:streamstart] *)
Definition on_streamstart (detail_content : string)
    (detail_chatId : option string) (nowSec : Z) (p : Page) : Page :=
  let targetId := coalesce detail_chatId (selectedChatId p) in
  if negb (id_truthy targetId) then p
  else
    let p1 :=
      if bool_decide (selectedChatId p = targetId) then p
      else with_messages [] (with_selectedChatId targetId p) in
    if id_truthy (selectedChatId p1) then
      let p2 :=
        if truthy detail_content
        then with_messages (messages p1 ++ [user_entry detail_content nowSec None]) p1
        else p1 in
      with_messages (messages p2 ++ [assistant_entry false None])
        (with_pendingAssistantIndex (Some (length (messages p2))) p2)
    else p1.

(** [on:stream] *)
Definition on_stream (partial : string) (detail_chatId : option string)
    (p : Page) : Step Page :=
  let targetId := coalesce detail_chatId (selectedChatId p) in
  if negb (id_truthy targetId) || negb (bool_decide (targetId = selectedChatId p))
  then Next p
  else write_pending partial p.

(** [on:streamend], up to [await refreshChats(targetId)]; the second
    component is the chat to refresh, when that call is reached. *)
Definition on_streamend (detail_content : string)
    (detail_chatId : option string) (p : Page) : Step Page * option string :=
  let targetId := coalesce detail_chatId (selectedChatId p) in
  if negb (id_truthy targetId) || negb (bool_decide (targetId = selectedChatId p))
  then (Next p, None)
  else
    match write_pending detail_content p with
    | Next p' => (Next (with_pendingAssistantIndex None p'), targetId)
    | Raised e p' => (Raised e p', None)
    end.

(** [handleSent]: the chat to refresh, if any. *)
Definition handleSent (detail_chatId : option string) (p : Page)
  : option string :=
  let id := coalesce detail_chatId (selectedChatId p) in
  if id_truthy id then id else None.

(** What the persistence API answers at one moment: [listChats()] and, for
    each id, the [chat] field of [getChat(id)]. *)
Record ServerView : Type := mkView {
  sv_chats : list string;
  sv_chat : string -> list WireMessage
}.

Definition loadChat (id : string) (sv : ServerView) (p : Page) : Page :=
  with_pendingAssistantIndex None
    (with_messages (map of_wire (sv_chat sv id)) (with_selectedChatId (Some id) p)).

Definition listed (sv : ServerView) (o : option string) : bool :=
  match o with
  | Some i => truthy i && bool_decide (i ∈ sv_chats sv)
  | None => false
  end.

Definition refreshChats (preferId : option string) (sv : ServerView) (p : Page)
  : Page :=
  let p1 := with_chats (sv_chats sv) p in
  match sv_chats sv with
  | [] =>
      with_selectedChatId None
        (with_pendingAssistantIndex None (with_messages [] p1))
  | first :: _ =>
      let nextId :=
        if listed sv preferId then default first preferId
        else if listed sv (selectedChatId p1) then default first (selectedChatId p1)
        else first in
      loadChat nextId sv (with_selectedChatId (Some nextId) p1)
  end.

(** [getOrCreateChat]; [created] is the id answered by [createChat]. *)
Definition getOrCreateChat (created : string) (sv : ServerView) (p : Page)
  : Page * option string :=
  if id_truthy (selectedChatId p) then (p, selectedChatId p)
  else if isGuestMode p then (p, None)
  else (refreshChats (Some created) sv p, Some created).

(** [e.message || fallback] *)
Definition message_or (e fallback : string) : string :=
  if truthy e then e else fallback.

(** *** Mounting the page and deleting a chat *)

(** The [onMount] callback of the page; [sv] is what the server answers to
    [refreshChats()], [created] and [sv'] what it answers when a chat has to
    be created.  The requests are taken to succeed. *)
Definition page_onMount (isGuest_store : bool) (sv : ServerView)
    (created : string) (sv' : ServerView) (p : Page) : Page :=
  let p0 := with_isGuestMode isGuest_store p in
  if isGuest_store then
    with_selectedChatId None (with_chats [] (with_messages [] p0))
  else
    let p1 := refreshChats None sv p0 in
    if id_truthy (selectedChatId p1) then p1
    else (getOrCreateChat created sv' p1).1.

(** [handleDeleteChat]; [confirmed] is the answer to [confirm(...)],
    [deleted] is [None] when [deleteChat] succeeds and the error message
    otherwise; the second component is the text of the alert, if one is
    raised.  The requests that follow a successful [deleteChat] are taken to
    succeed. *)
Definition handleDeleteChat (id : option string) (confirmed : bool)
    (deleted : option string) (sv : ServerView) (created : string)
    (sv' : ServerView) (p : Page) : Page * option string :=
  if negb (id_truthy id) then (p, None)
  else if negb confirmed then (p, None)
  else
    match deleted with
    | Some e => (p, Some (message_or e "Failed to delete"))
    | None =>
        let p1 := refreshChats None sv p in
        (if id_truthy (selectedChatId p1) then p1
         else (getOrCreateChat created sv' p1).1,
         None)
    end.

(** How far a [handleSend] got before its first suspension. *)
Inductive Begun : Type :=
| Ignored                    (* the guard returned *)
| Begin (text : string).

(** *** The two layouts of the page

    The template holds an input component in each branch of
    [{#if messages.length === 0}] and, inside each, of [{#if isGuestMode}].
    When an update changes the branch shown, the instance on screen is
    destroyed and a new one is created, with its variables at their initial
    values.  A handler still running in the destroyed instance goes on, and
    the events it dispatches still reach the page. *)
Definition transcript_empty (p : Page) : bool :=
  match messages p with
  | [] => true
  | _ :: _ => false
  end.

Definition same_input (p q : Page) : bool :=
  Bool.eqb (transcript_empty p) (transcript_empty q)
  && Bool.eqb (isGuestMode p) (isGuestMode q).

(** Whether the instance shown with [p] is still on screen when the page has
    gone through [updates]. *)
Fixpoint input_kept (p : Page) (updates : list Page) : bool :=
  match updates with
  | [] => true
  | q :: rest => same_input p q && input_kept q rest
  end.

(** How a call of the [resolveChat] prop ends: with an id or [null], or by
    rejecting. *)
Inductive Resolution : Type :=
| Resolved (id : option string)
| Rejected (err : string).

(** A page function that answers without rejecting, as [resolveChat]. *)
Definition resolving (f : Page -> Page * option string) (p : Page)
  : Page * Resolution :=
  let '(p', id) := f p in (p', Resolved id).

(** ** [MessageInput.svelte] *)
Module MessageInput.

Record State : Type := mkState {
  content : string;
  sending : bool
}.

(** [let content = ''; let sending = false;]: a newly created instance. *)
Definition initial : State := {| content := ""; sending := false |}.

(** [if (!content.trim() || sending) return; sending = true;
     const text = content;] *)
Definition handleSend_begin (st : State) : State * Begun :=
  if negb (truthy (trim (content st))) || sending st then (st, Ignored)
  else ({| content := content st; sending := true |}, Begin (content st)).

(** The callback given to [streamMessage]; the first component is [acc]. *)
Definition stream_callback (target : string) (ev : StreamEvent)
    (st : string * Page) : Step (string * Page) :=
  match ev with
  | TextChunk chunk =>
      let acc := st.1 +:+ chunk in
      match on_stream acc (Some target) st.2 with
      | Next p => Next (acc, p)
      | Raised e p => Raised e (acc, p)
      end
  | Control _ => Next st
  end.

(** The [catch (e)] and [finally] blocks. *)
Definition handleSend_catch (text e : string) : State * list Effect :=
  ({| content := text; sending := false |},
   [ConsoleError e; Alert (message_or e "Failed to send")]).

(** The branch [if (streaming && !useRag)]. *)
Definition handleSend_streaming (tok : option string) (text target : string)
    (nowSec : Z) (fr : FetchResult) (p : Page)
  : State * Page * list Effect * option string :=
  let p1 := on_streamstart text (Some target) nowSec p in
  let req := Fetch (streamMessage_request tok target text no_options) in
  let '(evs, completion) := streamMessage true fr in
  let run :=
    match deliver (stream_callback target) evs ("", p1) with
    | Next s => (s, completion)
    | Raised e s => (s, Threw e)
    end in
  match run with
  | (s, Returned) =>
      let '(r, refresh) := on_streamend s.1 (Some target) s.2 in
      ({| content := ""; sending := false |}, step_state r, [req], refresh)
  | (s, Threw e) =>
      let '(st', es) := handleSend_catch text e in
      (st', s.2, req :: es, None)
  end.

(** The [else] branch; [reply] is [None] when [sendMessage] succeeds. *)
Definition handleSend_direct (tok : option string) (text target : string)
    (reply : option string) (p : Page)
  : State * Page * list Effect * option string :=
  let topK :=
    if useRag p then Some (inject_Z (Z.max 1 (Qfloor (ragTopK p)))) else None in
  let temp :=
    if useRag p then Some (Qmin (inject_Z 2) (Qmax (inject_Z 0) (ragTemperature p)))
    else None in
  let req :=
    Fetch (sendMessage_request tok target text
             (if useRag p then Some true else None) topK temp) in
  match reply with
  | None =>
      ({| content := ""; sending := false |}, p, [req], handleSent (Some target) p)
  | Some e =>
      let '(st', es) := handleSend_catch text e in
      (st', p, req :: es, None)
  end.

(** [let targetChatId = chatId;
     if (!targetChatId && resolveChat) targetChatId = await resolveChat();]
    [resolveChat] is the callback prop, [chatId] is bound to the page's
    [selectedChatId]. *)
Definition handleSend_resolve
    (resolveChat : option (Page -> Page * Resolution)) (p : Page)
  : Page * Resolution :=
  match resolveChat with
  | Some resolve =>
      if id_truthy (selectedChatId p) then (p, Resolved (selectedChatId p))
      else resolve p
  | None => (p, Resolved (selectedChatId p))
  end.

(** [handleSend] from the click to the end of its [finally] block, in the
    instance that runs it; [streaming] and [useRag] are bound to the page's
    variables.  The last component is the chat the page goes on to
    refresh. *)
Definition handleSend (tok : option string)
    (resolveChat : option (Page -> Page * Resolution)) (nowSec : Z)
    (fr : FetchResult) (reply : option string) (st : State) (p : Page)
  : State * Page * list Effect * option string :=
  match handleSend_begin st with
  | (st1, Ignored) => (st1, p, [], None)
  | (st1, Begin text) =>
      let '(p1, target) := handleSend_resolve resolveChat p in
      match target with
      | Rejected e =>
          let '(st', es) := handleSend_catch text e in
          (st', p1, es, None)
      | Resolved (Some t) =>
          if truthy t then
            if streaming p1 && negb (useRag p1)
            then handleSend_streaming tok text t nowSec fr p1
            else handleSend_direct tok text t reply p1
          else
            let '(st', es) := handleSend_catch text "Unable to determine chat room" in
            (st', p1, es, None)
      | Resolved None =>
          let '(st', es) := handleSend_catch text "Unable to determine chat room" in
          (st', p1, es, None)
      end
  end.

(** The page at the updates made while [handleSend] runs, in order: after
    the chat resolution and, in the streaming branch, after
    [on:streamstart].  The events that follow in the same send leave the
    transcript non-empty. *)
Definition handleSend_updates
    (resolveChat : option (Page -> Page * Resolution)) (nowSec : Z)
    (st : State) (p : Page) : list Page :=
  match handleSend_begin st with
  | (_, Ignored) => []
  | (_, Begin text) =>
      let '(p1, target) := handleSend_resolve resolveChat p in
      p1 :: match target with
            | Resolved (Some t) =>
                if truthy t && (streaming p1 && negb (useRag p1))
                then [on_streamstart text (Some t) nowSec p1]
                else []
            | _ => []
            end
  end.

(** The input on screen when [handleSend] has finished: the instance that
    ran it or, when the page has replaced that one on the way, a new one. *)
Definition shown_after (tok : option string)
    (resolveChat : option (Page -> Page * Resolution)) (nowSec : Z)
    (fr : FetchResult) (reply : option string) (st : State) (p : Page)
  : State :=
  if input_kept p (handleSend_updates resolveChat nowSec st p)
  then (handleSend tok resolveChat nowSec fr reply st p).1.1.1
  else initial.

End MessageInput.

(** ** [GuestMessageInput.svelte] *)
Module GuestMessageInput.

Record State : Type := mkState {
  content : string;
  sending : bool
}.

(** [handleSend] up to [await tick()]. *)
Definition handleSend_begin (st : State) : State * Begun :=
  if negb (truthy (trim (content st))) || sending st then (st, Ignored)
  else ({| content := ""; sending := true |}, Begin (content st)).

(** [handleSend] after [await tick()]: [dispatch('sent', ...)] runs the
    page's [handleGuestSent] up to its first [await] and returns; the
    [finally] block follows at once. *)
Definition handleSend_resume (tok : option string) (text : string) (nowSec : Z)
    (st : State) (p : Page) : State * Page * list Effect * Started :=
  let '(p', es, started) := handleGuestSent_start tok text nowSec p in
  ({| content := content st; sending := false |}, p', es, started).

(** One click on Send, up to the point where the component is idle again. *)
Definition handleSend (tok : option string) (nowSec : Z) (st : State) (p : Page)
  : State * Page * list Effect * Started :=
  match handleSend_begin st with
  | (st1, Ignored) => (st1, p, [], NotStarted)
  | (st1, Begin text) => handleSend_resume tok text nowSec st1 p
  end.

(** The text area is bound to [content]. *)
Definition type_text (text : string) (st : State) : State :=
  {| content := text; sending := sending st |}.

End GuestMessageInput.

(** ** [MessageList.svelte] *)

Definition DOC_SNIPPET_LEN : nat := 120.

(** [docSnippet(content)]: a string is taken as the list of its code units,
    so that [length] and [slice] count what JavaScript counts; [None] is
    [undefined], and [ellipsis] is the one unit of the horizontal-ellipsis
    character. *)
Definition docSnippet {A} (ellipsis : A) (content : option (list A)) : list A :=
  match content with
  | None => []
  | Some c =>
      if Nat.ltb DOC_SNIPPET_LEN (length c)
      then take DOC_SNIPPET_LEN c ++ [ellipsis]
      else c
  end.

(** ** Notions used to state the properties *)

(** [s] between double quotes, to write JSON texts. *)
Definition quoted (s : string) : string :=
  String DQUOTE (s +:+ String DQUOTE "").

(** The JSON text [{"type":"messages","data":[]}]. *)
Definition empty_snapshot_text : string :=
  "{" +:+ quoted "type" +:+ ":" +:+ quoted "messages" +:+ ","
      +:+ quoted "data" +:+ ":[]}".

(** The JSON text [{"type":"messages"}]: a snapshot object without [data]. *)
Definition bare_snapshot_text : string :=
  "{" +:+ quoted "type" +:+ ":" +:+ quoted "messages" +:+ "}".

(** A callback that throws when it is handed [undefined]; the page's does,
    unless [ignoreFinalGuestSse] is set, when it reads
    [updatedMessages.slice] or the length of the value it has stored. *)
Definition throws_on_undefined (data : option Json) : bool :=
  match data with
  | None => true
  | Some _ => false
  end.

(** [c1 + c2 + ... + cN] *)
Definition join (chunks : list string) : string :=
  foldr String.append "" chunks.

(** The classification of a payload as the specification words it: a
    structured object with the full-transcript discriminator is a control
    event, anything else is a text chunk. *)
Definition spec_classify (parse : string -> option Json) (payload : string)
  : list StreamEvent :=
  match parse payload with
  | Some (JObj ms) =>
      match get_member "type" ms with
      | Some (JStr t) =>
          if String.eqb t "messages" then [Control (get_member "data" ms)]
          else [TextChunk payload]
      | _ => [TextChunk payload]
      end
  | _ => [TextChunk payload]
  end.

(** The two optimistic entries a streaming guest send appends to [p]. *)
Definition optimistic_user (text : string) (nowSec : Z) (p : Page) : ChatMessage :=
  user_entry text nowSec (Some (pretty (S (cidCounter p)))).
Definition optimistic_placeholder (p : Page) : ChatMessage :=
  assistant_entry true (Some (pretty (S (S (cidCounter p))))).

(** The page as a guest first sees it. *)
Definition guest_page : Page := sync_guest_mode true initial_page.

(** Every stream request among [rs] asks for [cache: 'no-store']. *)
Definition streams_uncached (rs : list Request) : bool :=
  forallb (fun r => implb (is_stream_request r)
                      (bool_decide (req_cache r = Some "no-store"))) rs.

(** [s.includes('\n')] *)
Fixpoint includes_LF (s : string) : bool :=
  match s with
  | EmptyString => false
  | String c r => Ascii.eqb c LF || includes_LF r
  end.

(** [s.includes('\n') || s.includes('\r')] *)
Fixpoint includes_break (s : string) : bool :=
  match s with
  | EmptyString => false
  | String c r => Ascii.eqb c LF || Ascii.eqb c CR || includes_break r
  end.

(** A payload that fits on one [data: ] line and is not the terminal
    marker. *)
Definition payload_ok (payload : string) : bool :=
  negb (includes_break payload) && negb (String.eqb payload "[DONE]").

(** One server-sent event: the line [data: <payload>] and a blank line. *)
Definition sse_event (payload : string) : string :=
  "data: " +:+ payload +:+ String LF (String LF "").

(** The body made of one event for each payload. *)
Definition sse_body (payloads : list string) : string :=
  join (map sse_event payloads).

(** How a read loop that met no terminal marker finishes. *)
Definition end_completion (ending : BodyEnd) : Completion :=
  match ending with
  | EndOfBody => Returned
  | ReadFails e => Threw e
  end.

(** [JSON.parse] throws on the payload. *)
Definition unparsed (parse : string -> option Json) (payload : string) : bool :=
  match parse payload with
  | None => true
  | Some _ => false
  end.

(** [pendingAssistantIndex] is [null] or the index of an entry of the
    transcript. *)
Definition pending_in_range (p : Page) : bool :=
  match pendingAssistantIndex p with
  | Some i => Nat.ltb i (length (messages p))
  | None => true
  end.

(** The [cid]s of the entries that have one. *)
Definition cids (l : list ChatMessage) : list string := omap cid l.

(** Pairwise different texts of numbers from 1 to [n]: what [nextCid] has
    given out when [cidCounter] is [n]. *)
Definition cids_below (n : nat) (cs : list string) : Prop :=
  NoDup cs
  /\ Forall (fun c => exists k : nat, c = pretty k /\ 1 <= k <= n) cs.

Definition cids_fresh (p : Page) : Prop :=
  cids_below (cidCounter p) (cids (messages p)).

(** The streaming flag is off whenever the retrieval flag is on. *)
Definition rag_excludes_streaming (p : Page) : Prop :=
  useRag p = true -> streaming p = false.

(** [q] has the retrieval and streaming flags of [p]. *)
Definition same_flags (p q : Page) : Prop :=
  useRag q = useRag p /\ streaming q = streaming p.

(** What can happen to the page, one step at a time: a check box is
    changed, the mode is synchronised, the page mounts, a chat is loaded,
    the list is refreshed, a chat is created or deleted; in guest mode a send
    starts, a chunk or a snapshot arrives, the answer to a fallback or to a
    non-streaming request arrives; in authenticated mode the events of
    [MessageInput] arrive.  Steps of different sends may interleave. *)
Inductive page_step : Page -> Page -> Prop :=
| step_streaming b p : page_step p (toggle_streaming b p)
| step_useRag b p : page_step p (toggle_useRag b p)
| step_mode b p : page_step p (sync_guest_mode b p)
| step_mount b sv created sv' p :
    page_step p (page_onMount b sv created sv' p)
| step_loadChat id sv p : page_step p (loadChat id sv p)
| step_refreshChats preferId sv p : page_step p (refreshChats preferId sv p)
| step_getOrCreateChat created sv p :
    page_step p (getOrCreateChat created sv p).1
| step_deleteChat id confirmed deleted sv created sv' p :
    page_step p (handleDeleteChat id confirmed deleted sv created sv' p).1
| step_send tok text nowSec p :
    page_step p (handleGuestSent_start tok text nowSec p).1.1
| step_chunk text p :
    page_step p (step_state (write_pending text p))
| step_snapshot updatedMessages p :
    page_step p (guest_onMessages updatedMessages p)
| step_fallback r p :
    page_step p (handleGuestSent_fallback r p).1.1
| step_reply r p :
    page_step p (handleGuestSent_reply r p).1.1
| step_streamstart text id nowSec p :
    page_step p (on_streamstart text id nowSec p)
| step_stream partial id p :
    page_step p (step_state (on_stream partial id p))
| step_streamend text id p :
    page_step p (step_state (on_streamend text id p).1).

(* ================================================================== *)
(** * Part II. Properties *)
(* ================================================================== *)

(** ** Strings and lists *)

Lemma str_app_cons (c : ascii) (s t : string) :
  String c s +:+ t = String c (s +:+ t).
Proof. reflexivity. Qed.

Lemma str_app_nil_r (s : string) : s +:+ "" = s.
Proof.
  induction s as [|c s IH]; [reflexivity |].
  rewrite str_app_cons. f_equal. exact IH.
Qed.

Lemma str_app_assoc (a b c : string) : (a +:+ b) +:+ c = a +:+ (b +:+ c).
Proof.
  induction a as [|x a IH]; [reflexivity |].
  rewrite !str_app_cons. f_equal. exact IH.
Qed.

Lemma join_cons (c : string) (cs : list string) : join (c :: cs) = c +:+ join cs.
Proof. reflexivity. Qed.

Lemma join_app (xs ys : list string) : join (xs ++ ys) = join xs +:+ join ys.
Proof.
  induction xs as [|x xs IH]; [reflexivity |].
  change ((x :: xs) ++ ys) with (x :: (xs ++ ys)).
  rewrite !join_cons, IH. now rewrite str_app_assoc.
Qed.

Lemma truthy_nonempty (s : string) : truthy s = true <-> s <> "".
Proof.
  unfold truthy. rewrite negb_true_iff. apply String.eqb_neq.
Qed.

Lemma slice_to_neg_app {A} (l k : list A) :
  slice_to_neg (length k) (l ++ k) = l.
Proof.
  unfold slice_to_neg. rewrite length_app.
  replace (length l + length k - length k) with (length l) by lia.
  apply take_app_length.
Qed.

Lemma slice_neg_app {A} (l k : list A) :
  slice_neg (length k) (l ++ k) = k.
Proof.
  unfold slice_neg. rewrite length_app.
  replace (length l + length k - length k) with (length l) by lia.
  apply drop_app_length.
Qed.

Lemma slice_split {A} (k : nat) (l : list A) :
  slice_to_neg k l ++ slice_neg k l = l.
Proof. unfold slice_to_neg, slice_neg. apply take_drop. Qed.

(** ** The JSON reader: fuel *)

Lemma skip_ws_le (s : string) : String.length (skip_ws s) <= String.length s.
Proof.
  induction s as [|c s IH]; cbn [skip_ws]; [lia |].
  destruct (json_ws c); cbn [String.length]; lia.
Qed.

Lemma take_digits_le (s : string) :
  String.length (take_digits s).2 <= String.length s.
Proof.
  induction s as [|c s IH]; cbn [take_digits]; [cbn; lia |].
  destruct (is_digit c); [|cbn; lia].
  destruct (take_digits s) as [d r]. cbn [snd String.length] in *. lia.
Qed.

Lemma take_char_le (c : ascii) (s : string) :
  String.length (take_char c s).2 <= String.length s.
Proof.
  destruct s as [|x r]; cbn [take_char]; [cbn; lia |].
  destruct (Ascii.eqb x c); cbn [snd String.length]; lia.
Qed.

Lemma after_char_len (c : ascii) (s r : string) :
  after_char c s = Some r -> String.length s = S (String.length r).
Proof.
  destruct s as [|x t]; cbn [after_char]; [discriminate |].
  destruct (Ascii.eqb x c); [|discriminate].
  intros H. injection H as ->. reflexivity.
Qed.

Lemma parse_int_part_lt (s i r : string) :
  parse_int_part s = Some (i, r) -> String.length r < String.length s.
Proof.
  destruct s as [|c t]; cbn [parse_int_part]; [discriminate |].
  destruct (Ascii.eqb c "0").
  - intros H. injection H as _ <-. cbn; lia.
  - destruct (is_digit c); [|discriminate].
    pose proof (take_digits_le t) as Hle.
    destruct (take_digits t) as [d r']. cbn [snd] in Hle.
    intros H. injection H as _ <-. cbn [String.length]. lia.
Qed.

Lemma parse_frac_part_le (s f r : string) :
  parse_frac_part s = Some (f, r) -> String.length r <= String.length s.
Proof.
  unfold parse_frac_part. pose proof (take_char_le "." s) as H1.
  destruct (take_char "." s) as [dot t]. cbn [snd] in H1.
  destruct dot.
  - intros H. injection H as _ <-. lia.
  - pose proof (take_digits_le t) as H2.
    destruct (take_digits t) as [d r']. cbn [snd] in H2.
    destruct (String.eqb d ""); [discriminate |].
    intros H. injection H as _ <-. lia.
Qed.

Lemma parse_exp_part_le (s e r : string) :
  parse_exp_part s = Some (e, r) -> String.length r <= String.length s.
Proof.
  destruct s as [|c t]; cbn [parse_exp_part].
  - intros H. injection H as _ <-. lia.
  - destruct (Ascii.eqb c "e" || Ascii.eqb c "E").
    + assert (H1 : String.length (match take_char "+" t with
                        | (EmptyString, _) => take_char "-" t
                        | plus => plus
                        end).2 <= String.length t).
      { pose proof (take_char_le "+" t) as Hp.
        pose proof (take_char_le "-" t) as Hm.
        destruct (take_char "+" t) as [[|x y] z]; cbn [snd] in *; lia. }
      destruct (match take_char "+" t with
                | (EmptyString, _) => take_char "-" t
                | plus => plus
                end) as [sg r1]. cbn [snd] in H1.
      pose proof (take_digits_le r1) as H2.
      destruct (take_digits r1) as [d r2]. cbn [snd] in H2.
      destruct (String.eqb d ""); [discriminate |].
      intros H. injection H as _ <-. cbn [String.length]. lia.
    + intros H. injection H as _ <-. lia.
Qed.

Lemma parse_number_lt (s l r : string) :
  parse_number s = Some (l, r) -> String.length r < String.length s.
Proof.
  unfold parse_number. pose proof (take_char_le "-" s) as H0.
  destruct (take_char "-" s) as [sg s1]. cbn [snd] in H0.
  destruct (parse_int_part s1) as [[i s2]|] eqn:Hi; [|discriminate].
  apply parse_int_part_lt in Hi. cbn [mbind option_bind].
  destruct (parse_frac_part s2) as [[f s3]|] eqn:Hf; [|discriminate].
  apply parse_frac_part_le in Hf. cbn [mbind option_bind].
  destruct (parse_exp_part s3) as [[e s4]|] eqn:He; [|discriminate].
  apply parse_exp_part_le in He. cbn [mbind option_bind].
  intros H. injection H as _ <-. lia.
Qed.

Lemma parse_chars_lt_aux (n : nat) :
  forall s items r,
    String.length s <= n ->
    parse_chars s = Some (items, r) ->
    String.length r < String.length s.
Proof.
  induction n as [|n IH]; intros s items r Hn.
  - destruct s; [discriminate | cbn in Hn; lia].
  - destruct s as [|c t]; [discriminate |]. cbn [String.length] in Hn.
    cbn [parse_chars].
    destruct (Ascii.eqb c DQUOTE).
    { intros H. injection H as _ <-. cbn [String.length]. lia. }
    destruct (Ascii.eqb c "\").
    + destruct t as [|e r1]; [discriminate |]. cbn [String.length] in Hn.
      destruct (Ascii.eqb e "u").
      * destruct r1 as [|h1 [|h2 [|h3 [|h4 r5]]]]; try discriminate.
        cbn [String.length] in Hn.
        destruct (hex4 h1 h2 h3 h4); [|discriminate]. cbn [mbind option_bind].
        destruct (parse_chars r5) as [[its rest]|] eqn:E; [|discriminate].
        apply IH in E; [|lia]. cbn [mbind option_bind].
        intros H. injection H as _ <-. cbn [String.length]. lia.
      * destruct (simple_escape e); [|discriminate]. cbn [mbind option_bind].
        destruct (parse_chars r1) as [[its rest]|] eqn:E; [|discriminate].
        apply IH in E; [|lia]. cbn [mbind option_bind].
        intros H. injection H as _ <-. cbn [String.length]. lia.
    + destruct (Nat.ltb (nat_of_ascii c) 32); [discriminate |].
      destruct (parse_chars t) as [[its rest]|] eqn:E; [|discriminate].
      apply IH in E; [|lia]. cbn [mbind option_bind].
      intros H. injection H as _ <-. cbn [String.length]. lia.
Qed.

Lemma parse_string_lit_lt (s str r : string) :
  parse_string_lit s = Some (str, r) -> String.length r < String.length s.
Proof.
  unfold parse_string_lit.
  destruct (parse_chars s) as [[its rest]|] eqn:E; [|discriminate].
  apply (parse_chars_lt_aux (String.length s)) in E; [|lia]. cbn [mbind option_bind].
  intros H. injection H as _ <-. exact E.
Qed.

Lemma startsWith_slice (kw : string) :
  forall s, startsWith s kw = true ->
            String.length (slice_from (String.length kw) s) + String.length kw
            = String.length s.
Proof.
  unfold startsWith.
  induction kw as [|k kw IH]; intros s H.
  - cbn. lia.
  - destruct s as [|c t]; [discriminate |].
    cbn [String.prefix] in H. destruct (ascii_dec k c); [|discriminate].
    cbn [String.length slice_from]. specialize (IH t H). lia.
Qed.

Lemma parse_keyword_len (kw : string) (v v' : Json) (s r : string) :
  parse_keyword kw v s = Some (v', r) ->
  String.length r + String.length kw = String.length s.
Proof.
  unfold parse_keyword. destruct (startsWith s kw) eqn:E; [|discriminate].
  intros H. injection H as _ <-. now apply startsWith_slice.
Qed.

Lemma parse_atom_lt (c : ascii) (r : string) (v : Json) (rest : string) :
  parse_atom c r = Some (v, rest) -> String.length rest < S (String.length r).
Proof.
  unfold parse_atom.
  destruct (Ascii.eqb c "n");
    [intros H; apply parse_keyword_len in H; cbn in H; lia |].
  destruct (Ascii.eqb c "t");
    [intros H; apply parse_keyword_len in H; cbn in H; lia |].
  destruct (Ascii.eqb c "f");
    [intros H; apply parse_keyword_len in H; cbn in H; lia |].
  destruct (Ascii.eqb c DQUOTE).
  - destruct (parse_string_lit r) as [[str t]|] eqn:E; [|discriminate].
    apply parse_string_lit_lt in E. cbn [mbind option_bind].
    intros H. injection H as _ <-. lia.
  - destruct (parse_number (String c r)) as [[lex t]|] eqn:E; [|discriminate].
    apply parse_number_lt in E. cbn [mbind option_bind String.length] in *.
    intros H. injection H as _ <-. lia.
Qed.

Lemma parse_value_S (n : nat) (s : string) :
  parse_value (S n) s =
  match s with
  | EmptyString => None
  | String c r =>
      if Ascii.eqb c "[" then
        match after_char "]" (skip_ws r) with
        | Some rest => Some (JArr [], rest)
        | None =>
            '(es, rest) ← parse_elements n (skip_ws r); Some (JArr es, rest)
        end
      else if Ascii.eqb c "{" then
        match after_char "}" (skip_ws r) with
        | Some rest => Some (JObj [], rest)
        | None =>
            '(ms, rest) ← parse_members n (skip_ws r); Some (JObj ms, rest)
        end
      else parse_atom c r
  end.
Proof. reflexivity. Qed.

Lemma parse_elements_S (n : nat) (s : string) :
  parse_elements (S n) s =
  ('(v, r) ← parse_value n s;
   match after_char "," (skip_ws r) with
   | Some r1 =>
       '(vs, rest) ← parse_elements n (skip_ws r1);
       Some (v :: vs, rest)
   | None =>
       rest ← after_char "]" (skip_ws r);
       Some ([v], rest)
   end).
Proof. reflexivity. Qed.

Lemma parse_members_S (n : nat) (s : string) :
  parse_members (S n) s =
  (r ← after_char DQUOTE s;
   '(k, r1) ← parse_string_lit r;
   r2 ← after_char ":" (skip_ws r1);
   '(v, r3) ← parse_value n (skip_ws r2);
   match after_char "," (skip_ws r3) with
   | Some r4 =>
       '(ms, rest) ← parse_members n (skip_ws r4);
       Some ((k, v) :: ms, rest)
   | None =>
       rest ← after_char "}" (skip_ws r3);
       Some ([(k, v)], rest)
   end).
Proof. reflexivity. Qed.

(** What a successful parse used up bounds the fuel it needs. *)
Definition value_ok (n : nat) : Prop :=
  forall s v rest,
    parse_value n s = Some (v, rest) ->
    String.length rest < String.length s
    /\ forall m, 2 * (String.length s - String.length rest) <= m + 1 ->
                 parse_value m s = Some (v, rest).

Definition elements_ok (n : nat) : Prop :=
  forall s vs rest,
    parse_elements n s = Some (vs, rest) ->
    String.length rest + 2 <= String.length s
    /\ forall m, 2 * (String.length s - String.length rest) <= m + 2 ->
                 parse_elements m s = Some (vs, rest).

Definition members_ok (n : nat) : Prop :=
  forall s ms rest,
    parse_members n s = Some (ms, rest) ->
    String.length rest + 2 <= String.length s
    /\ forall m, 2 * (String.length s - String.length rest) <= m + 2 ->
                 parse_members m s = Some (ms, rest).

Lemma parse_fuel_bound (n : nat) : value_ok n /\ elements_ok n /\ members_ok n.
Proof.
  induction n as [|n (IHv & IHe & IHm)].
  { split; [|split]; intros s x rest H; discriminate. }
  split; [|split].
  - (* values *)
    intros s v rest. rewrite parse_value_S.
    destruct s as [|c r]; [discriminate |]. cbn [String.length].
    pose proof (skip_ws_le r) as Hws.
    destruct (Ascii.eqb c "[") eqn:Ea.
    { destruct (after_char "]" (skip_ws r)) as [t|] eqn:Ec.
      - intros H. injection H as <- <-.
        pose proof (after_char_len _ _ _ Ec) as Hc.
        split; [lia |]. intros m Hm. destruct m as [|m]; [lia |].
        rewrite parse_value_S, Ea, Ec. reflexivity.
      - destruct (parse_elements n (skip_ws r)) as [[es t]|] eqn:Ee; [|discriminate].
        cbn [mbind option_bind]. intros H. injection H as <- <-.
        destruct (IHe _ _ _ Ee) as [Hl Hf].
        split; [lia |]. intros m Hm. destruct m as [|m]; [lia |].
        rewrite parse_value_S, Ea, Ec, (Hf m) by lia. reflexivity. }
    destruct (Ascii.eqb c "{") eqn:Eo.
    { destruct (after_char "}" (skip_ws r)) as [t|] eqn:Ec.
      - intros H. injection H as <- <-.
        pose proof (after_char_len _ _ _ Ec) as Hc.
        split; [lia |]. intros m Hm. destruct m as [|m]; [lia |].
        rewrite parse_value_S, Ea, Eo, Ec. reflexivity.
      - destruct (parse_members n (skip_ws r)) as [[ms t]|] eqn:Ee; [|discriminate].
        cbn [mbind option_bind]. intros H. injection H as <- <-.
        destruct (IHm _ _ _ Ee) as [Hl Hf].
        split; [lia |]. intros m Hm. destruct m as [|m]; [lia |].
        rewrite parse_value_S, Ea, Eo, Ec, (Hf m) by lia. reflexivity. }
    intros H. pose proof (parse_atom_lt _ _ _ _ H) as Hl.
    split; [lia |]. intros m Hm. destruct m as [|m]; [lia |].
    rewrite parse_value_S, Ea, Eo. exact H.
  - (* elements *)
    intros s vs rest. rewrite parse_elements_S.
    destruct (parse_value n s) as [[v r]|] eqn:Ev; [|discriminate].
    cbn [mbind option_bind].
    destruct (IHv _ _ _ Ev) as [Hl Hf].
    pose proof (skip_ws_le r) as Hws.
    destruct (after_char "," (skip_ws r)) as [r1|] eqn:Ec.
    + pose proof (after_char_len _ _ _ Ec) as Hc.
      pose proof (skip_ws_le r1) as Hws1.
      destruct (parse_elements n (skip_ws r1)) as [[ws t]|] eqn:Ee; [|discriminate].
      cbn [mbind option_bind]. intros H. injection H as <- <-.
      destruct (IHe _ _ _ Ee) as [Hl' Hf'].
      split; [lia |]. intros m Hm. destruct m as [|m]; [lia |].
      rewrite parse_elements_S, (Hf m) by lia. cbn [mbind option_bind].
      rewrite Ec, (Hf' m) by lia. reflexivity.
    + destruct (after_char "]" (skip_ws r)) as [t|] eqn:Eb; [|discriminate].
      pose proof (after_char_len _ _ _ Eb) as Hc.
      cbn [mbind option_bind]. intros H. injection H as <- <-.
      split; [lia |]. intros m Hm. destruct m as [|m]; [lia |].
      rewrite parse_elements_S, (Hf m) by lia. cbn [mbind option_bind].
      rewrite Ec, Eb. reflexivity.
  - (* members *)
    intros s ms rest. rewrite parse_members_S.
    destruct (after_char DQUOTE s) as [r|] eqn:Eq; [|discriminate].
    pose proof (after_char_len _ _ _ Eq) as Hq. cbn [mbind option_bind].
    destruct (parse_string_lit r) as [[k r1]|] eqn:Ek; [|discriminate].
    pose proof (parse_string_lit_lt _ _ _ Ek) as Hk. cbn [mbind option_bind].
    pose proof (skip_ws_le r1) as Hws1.
    destruct (after_char ":" (skip_ws r1)) as [r2|] eqn:Ecol; [|discriminate].
    pose proof (after_char_len _ _ _ Ecol) as Hcol. cbn [mbind option_bind].
    pose proof (skip_ws_le r2) as Hws2.
    destruct (parse_value n (skip_ws r2)) as [[v r3]|] eqn:Ev; [|discriminate].
    cbn [mbind option_bind].
    destruct (IHv _ _ _ Ev) as [Hl Hf].
    pose proof (skip_ws_le r3) as Hws3.
    destruct (after_char "," (skip_ws r3)) as [r4|] eqn:Ec.
    + pose proof (after_char_len _ _ _ Ec) as Hc.
      pose proof (skip_ws_le r4) as Hws4.
      destruct (parse_members n (skip_ws r4)) as [[ws t]|] eqn:Ee; [|discriminate].
      cbn [mbind option_bind]. intros H. injection H as <- <-.
      destruct (IHm _ _ _ Ee) as [Hl' Hf'].
      split; [lia |]. intros m Hm. destruct m as [|m]; [lia |].
      rewrite parse_members_S, Eq. cbn [mbind option_bind].
      rewrite Ek. cbn [mbind option_bind]. rewrite Ecol. cbn [mbind option_bind].
      rewrite (Hf m) by lia. cbn [mbind option_bind].
      rewrite Ec, (Hf' m) by lia. reflexivity.
    + destruct (after_char "}" (skip_ws r3)) as [t|] eqn:Eb; [|discriminate].
      pose proof (after_char_len _ _ _ Eb) as Hc.
      cbn [mbind option_bind]. intros H. injection H as <- <-.
      split; [lia |]. intros m Hm. destruct m as [|m]; [lia |].
      rewrite parse_members_S, Eq. cbn [mbind option_bind].
      rewrite Ek. cbn [mbind option_bind]. rewrite Ecol. cbn [mbind option_bind].
      rewrite (Hf m) by lia. cbn [mbind option_bind].
      rewrite Ec, Eb. reflexivity.
Qed.

(** The fuel [JSON_parse] gives is enough: a parse that succeeds with some
    fuel succeeds with it, with the same result. *)
Theorem JSON_parse_fuel_enough (text : string) (n : nat) (v : Json) (rest : string) :
  parse_value n (skip_ws text) = Some (v, rest) ->
  parse_value (2 * String.length text + 2) (skip_ws text) = Some (v, rest).
Proof.
  intros H. destruct (parse_fuel_bound n) as [Hv _].
  destruct (Hv _ _ _ H) as [Hl Hf]. apply Hf.
  pose proof (skip_ws_le text). lia.
Qed.

Corollary JSON_parse_none_any_fuel (text : string) :
  JSON_parse text = None ->
  forall n v rest,
    parse_value n (skip_ws text) = Some (v, rest) -> skip_ws rest <> "".
Proof.
  unfold JSON_parse. intros H n v rest Hn.
  rewrite (JSON_parse_fuel_enough _ _ _ _ Hn) in H. cbn [mbind option_bind] in H.
  destruct (String.eqb_spec (skip_ws rest) ""); [discriminate | assumption].
Qed.

(** ** The auth stores *)

Lemma setGuestMode_value (s : Stores) :
  setGuestMode s =
  {| isAuthenticated := true; user := Some guestUser; isGuest := true;
     token := None |}.
Proof. reflexivity. Qed.

(** C10. [setGuestMode] sets [isAuthenticated] to [true], sets [user] to the
    canned guest identity and clears [token].  A logged-in session (reached
    through the sign-in page, or through the layout with a stored token)
    shows the same [isAuthenticated], so that store alone cannot tell a
    guest from a logged-in user; in these sessions [isGuest] differs, while
    [user] and [token] can coincide. *)
Theorem C10_guest_mode_looks_authenticated :
  forall s : Stores,
    isAuthenticated (setGuestMode s) = true
    /\ isGuest (setGuestMode s) = true
    /\ user (setGuestMode s) = Some guestUser
    /\ token (setGuestMode s) = None
    /\ (forall access_token u b,
          let l := stores (auth_handleSubmit_ok access_token u b) in
          isAuthenticated l = isAuthenticated (setGuestMode s)
          /\ isGuest l <> isGuest (setGuestMode s))
    /\ (forall u c t,
          let l := stores (layout_onMount (Some u)
                     {| stores := initial_stores;
                        localStorage_token := Some (String c t) |}) in
          isAuthenticated l = isAuthenticated (setGuestMode s)
          /\ isGuest l <> isGuest (setGuestMode s))
    /\ (let l := stores (layout_onMount (Some guestUser)
                   {| stores := initial_stores;
                      localStorage_token := Some "t" |}) in
        isAuthenticated l = isAuthenticated (setGuestMode s)
        /\ user l = user (setGuestMode s)
        /\ token l = token (setGuestMode s)
        /\ isGuest l <> isGuest (setGuestMode s)).
Proof.
  intros s. rewrite setGuestMode_value. cbn.
  repeat split; try reflexivity; try discriminate.
Qed.

(** ** Requests *)

Lemma apiFetch_no_accept (tok : option string) :
  header "Accept" (apiFetch_headers tok) = None.
Proof.
  unfold apiFetch_headers. destruct tok as [t|]; [destruct (truthy t)|]; reflexivity.
Qed.

Lemma guestChat_not_stream tok r : is_stream_request (guestChat_request tok r) = false.
Proof.
  unfold is_stream_request; cbn [guestChat_request req_headers].
  now rewrite apiFetch_no_accept.
Qed.

Lemma sendMessage_not_stream tok id text u k t :
  is_stream_request (sendMessage_request tok id text u k t) = false.
Proof.
  unfold is_stream_request; cbn [sendMessage_request req_headers].
  now rewrite apiFetch_no_accept.
Qed.

Lemma streamMessage_is_stream tok id text opts :
  is_stream_request (streamMessage_request tok id text opts) = true.
Proof. reflexivity. Qed.

Lemma guestChatStream_is_stream text h opts :
  is_stream_request (guestChatStream_request text h opts) = true.
Proof. reflexivity. Qed.

(** ** Effects *)

Lemma opens_stream_app (es1 es2 : list Effect) :
  opens_stream (es1 ++ es2) = opens_stream es1 || opens_stream es2.
Proof. unfold opens_stream, fetched. now rewrite omap_app, existsb_app. Qed.

Lemma opens_stream_fetch (r : Request) (es : list Effect) :
  opens_stream (Fetch r :: es) = is_stream_request r || opens_stream es.
Proof. reflexivity. Qed.

Lemma opens_stream_console (m : string) (es : list Effect) :
  opens_stream (ConsoleError m :: es) = opens_stream es.
Proof. reflexivity. Qed.

Lemma opens_stream_alert (m : string) (es : list Effect) :
  opens_stream (Alert m :: es) = opens_stream es.
Proof. reflexivity. Qed.

Lemma opens_stream_nil : opens_stream [] = false.
Proof. reflexivity. Qed.

Lemma opens_stream_catch text e :
  opens_stream (MessageInput.handleSend_catch text e).2 = false.
Proof. reflexivity. Qed.

Lemma fetched_fetch (r : Request) (es : list Effect) :
  fetched (Fetch r :: es) = r :: fetched es.
Proof. reflexivity. Qed.

Lemma fetched_console (m : string) (es : list Effect) :
  fetched (ConsoleError m :: es) = fetched es.
Proof. reflexivity. Qed.

Lemma fetched_app (es1 es2 : list Effect) :
  fetched (es1 ++ es2) = fetched es1 ++ fetched es2.
Proof. apply omap_app. Qed.

(** ** The retrieval flag *)

Lemma rag_reactive_off (p : Page) :
  useRag p = true -> streaming (rag_reactive p) = false.
Proof. intros H. unfold rag_reactive. now rewrite H. Qed.

Lemma refreshChats_useRag preferId sv p :
  useRag (refreshChats preferId sv p) = useRag p.
Proof. unfold refreshChats. destruct (sv_chats sv); reflexivity. Qed.

Lemma getOrCreateChat_useRag created sv p :
  useRag (getOrCreateChat created sv p).1 = useRag p.
Proof.
  unfold getOrCreateChat.
  destruct (id_truthy (selectedChatId p)); [reflexivity |].
  destruct (isGuestMode p); [reflexivity |].
  apply refreshChats_useRag.
Qed.

Lemma guest_send_rag_no_stream tok text nowSec sc p :
  useRag p = true ->
  opens_stream (handleGuestSent tok text nowSec sc p).1.2 = false.
Proof.
  intros Hrag. unfold handleGuestSent, handleGuestSent_start.
  destruct (truthy text); [|reflexivity].
  rewrite Hrag, andb_false_r. cbn [negb].
  unfold handleGuestSent_reply.
  destruct (gs_reply sc); cbn [fst snd];
    rewrite opens_stream_app, opens_stream_fetch, guestChat_not_stream;
    reflexivity.
Qed.

Lemma direct_send_no_stream tok text target reply p :
  opens_stream (MessageInput.handleSend_direct tok text target reply p).1.2 = false.
Proof.
  unfold MessageInput.handleSend_direct.
  destruct reply; cbn [fst snd MessageInput.handleSend_catch];
    rewrite opens_stream_fetch, sendMessage_not_stream; reflexivity.
Qed.

(** A send that passes the guard, with a chat selected. *)
Lemma auth_send_selected tok resolve nowSec fr reply st p target :
  truthy (trim (MessageInput.content st)) = true ->
  MessageInput.sending st = false ->
  selectedChatId p = Some target ->
  truthy target = true ->
  MessageInput.handleSend tok resolve nowSec fr reply st p
  = if streaming p && negb (useRag p)
    then MessageInput.handleSend_streaming tok (MessageInput.content st) target
           nowSec fr p
    else MessageInput.handleSend_direct tok (MessageInput.content st) target
           reply p.
Proof.
  intros Hc Hs Hsel Ht.
  unfold MessageInput.handleSend, MessageInput.handleSend_begin.
  rewrite Hc, Hs. cbn [negb orb].
  destruct resolve as [resolve|]; unfold MessageInput.handleSend_resolve;
    rewrite Hsel; cbn [id_truthy];
    rewrite ?Ht; cbn beta iota; rewrite ?Ht; reflexivity.
Qed.

Lemma resolving_useRag created sv q :
  useRag (resolving (getOrCreateChat created sv) q).1 = useRag q.
Proof.
  unfold resolving. rewrite <- (getOrCreateChat_useRag created sv q).
  now destruct (getOrCreateChat created sv q).
Qed.

Lemma auth_send_rag_no_stream tok resolve nowSec fr reply st p :
  useRag p = true ->
  (forall q, useRag (resolve q).1 = useRag q) ->
  opens_stream
    (MessageInput.handleSend tok (Some resolve) nowSec fr reply st p).1.2 = false.
Proof.
  intros Hrag Hres. unfold MessageInput.handleSend.
  destruct (MessageInput.handleSend_begin st) as [st1 [|text]]; [reflexivity |].
  assert (Hp1 : useRag (MessageInput.handleSend_resolve (Some resolve) p).1 = true).
  { unfold MessageInput.handleSend_resolve.
    destruct (id_truthy (selectedChatId p)); [exact Hrag |].
    now rewrite Hres. }
  destruct (MessageInput.handleSend_resolve (Some resolve) p) as [p1 target].
  cbn [fst] in Hp1.
  destruct target as [[t|]|e]; [|reflexivity|reflexivity].
  destruct (truthy t); [|reflexivity].
  rewrite Hp1, andb_false_r.
  apply direct_send_no_stream.
Qed.

(** With the retrieval flag set a guest send appends the user's message, and
    no placeholder, and asks [guestChat] for the answer. *)
Lemma guest_send_rag_start tok text nowSec p :
  useRag p = true -> truthy text = true ->
  let entry := user_entry text nowSec (Some (pretty (S (cidCounter p)))) in
  handleGuestSent_start tok text nowSec p
  = (with_messages (messages p ++ [entry]) (with_cidCounter (S (cidCounter p)) p),
     [Fetch (guestChat_request tok
               {| gr_content := text; gr_messages := messages p;
                  gr_use_rag := true; gr_rag_top_k := ragTopK p;
                  gr_rag_temperature := ragTemperature p |})],
     AwaitReply {| sc_content := text;
                   sc_currentMessages := messages p ++ [entry];
                   sc_acc := "" |}).
Proof.
  intros Hrag Ht entry. unfold handleGuestSent_start.
  rewrite Ht, Hrag, andb_false_r. cbn [negb].
  unfold guest_request.
  cbn [sc_content sc_currentMessages useRag ragTopK ragTemperature
       with_messages with_cidCounter].
  rewrite Hrag.
  now rewrite (slice_to_neg_app (messages p) [_]).
Qed.

Lemma guest_send_rag_fetched tok text nowSec sc p :
  useRag p = true -> truthy text = true ->
  fetched (handleGuestSent tok text nowSec sc p).1.2
  = [guestChat_request tok
       {| gr_content := text; gr_messages := messages p;
          gr_use_rag := true; gr_rag_top_k := ragTopK p;
          gr_rag_temperature := ragTemperature p |}].
Proof.
  intros Hrag Ht. unfold handleGuestSent.
  rewrite (guest_send_rag_start tok text nowSec p Hrag Ht).
  unfold handleGuestSent_reply.
  destruct (gs_reply sc); reflexivity.
Qed.

(** With the retrieval flag set an authenticated send that passes the
    guard is the [else] branch: one [sendMessage] request that carries the
    retrieval options. *)
Lemma auth_send_rag_direct tok resolveChat nowSec fr reply st p target :
  useRag p = true ->
  truthy (trim (MessageInput.content st)) = true ->
  MessageInput.sending st = false ->
  selectedChatId p = Some target ->
  truthy target = true ->
  let r := MessageInput.handleSend tok resolveChat nowSec fr reply st p in
  r = MessageInput.handleSend_direct tok (MessageInput.content st) target reply p
  /\ fetched r.1.2
     = [sendMessage_request tok target (MessageInput.content st) (Some true)
          (Some (inject_Z (Z.max 1 (Qfloor (ragTopK p)))))
          (Some (Qmin (inject_Z 2) (Qmax (inject_Z 0) (ragTemperature p))))].
Proof.
  intros Hrag Hc Hs Hsel Ht r. subst r.
  rewrite (auth_send_selected tok resolveChat nowSec fr reply st p target
             Hc Hs Hsel Ht).
  rewrite Hrag, andb_false_r. split; [reflexivity |].
  unfold MessageInput.handleSend_direct. rewrite Hrag.
  destruct reply; reflexivity.
Qed.

(** The page starts with the retrieval flag off, the reactive statement
    runs when that flag changes, and the streaming box is disabled while it
    is on. *)
Lemma toggle_useRag_excludes b p : rag_excludes_streaming (toggle_useRag b p).
Proof.
  unfold rag_excludes_streaming, toggle_useRag, rag_reactive.
  cbn [useRag with_useRag]. destruct b; [reflexivity | discriminate].
Qed.

Lemma toggle_streaming_excludes b p :
  rag_excludes_streaming p -> rag_excludes_streaming (toggle_streaming b p).
Proof.
  unfold rag_excludes_streaming, toggle_streaming.
  destruct (useRag p) eqn:E; [now rewrite E |].
  cbn [useRag with_streaming]. congruence.
Qed.

Lemma same_flags_refl p : same_flags p p.
Proof. now split. Qed.

Lemma same_flags_trans p q r : same_flags p q -> same_flags q r -> same_flags p r.
Proof. unfold same_flags. intros [-> ->] [-> ->]. now split. Qed.

Lemma loadChat_flags id sv p : same_flags p (loadChat id sv p).
Proof. now split. Qed.

Lemma refreshChats_flags preferId sv p : same_flags p (refreshChats preferId sv p).
Proof. unfold refreshChats. destruct (sv_chats sv); now split. Qed.

Lemma getOrCreateChat_flags created sv p :
  same_flags p (getOrCreateChat created sv p).1.
Proof.
  unfold getOrCreateChat.
  destruct (id_truthy (selectedChatId p)); [now split |].
  destruct (isGuestMode p); [now split |].
  apply refreshChats_flags.
Qed.

Lemma refresh_then_create_flags sv created sv' p :
  let p1 := refreshChats None sv p in
  same_flags p (if id_truthy (selectedChatId p1) then p1
                else (getOrCreateChat created sv' p1).1).
Proof.
  cbv zeta.
  destruct (id_truthy _); [apply refreshChats_flags |].
  eapply same_flags_trans; [apply refreshChats_flags | apply getOrCreateChat_flags].
Qed.

Lemma write_pending_flags text p : same_flags p (step_state (write_pending text p)).
Proof.
  unfold write_pending.
  destruct (pendingAssistantIndex p) as [i|]; [|now split].
  destruct (messages p !! i); now split.
Qed.

Lemma on_streamstart_flags text id nowSec p :
  same_flags p (on_streamstart text id nowSec p).
Proof.
  unfold on_streamstart.
  destruct (negb _); [now split |].
  destruct (bool_decide _).
  - destruct (id_truthy (selectedChatId p)); [|now split].
    destruct (truthy text); now split.
  - cbn [selectedChatId with_messages with_selectedChatId].
    destruct (id_truthy _); [|now split].
    destruct (truthy text); now split.
Qed.

Lemma page_step_flags (p q : Page) :
  page_step p q ->
  same_flags p q
  \/ (exists b, q = toggle_streaming b p)
  \/ (exists b, q = toggle_useRag b p).
Proof.
  intros Hstep. destruct Hstep.
  - right. left. now exists b.
  - right. right. now exists b.
  - left. unfold sync_guest_mode.
    destruct (bool_decide _); [now split |]. destruct b; now split.
  - left. unfold page_onMount. destruct b; [now split |].
    apply (refresh_then_create_flags sv created sv' (with_isGuestMode false p)).
  - left. apply loadChat_flags.
  - left. apply refreshChats_flags.
  - left. apply getOrCreateChat_flags.
  - left. unfold handleDeleteChat.
    destruct (negb (id_truthy id)); [now split |].
    destruct (negb confirmed); [now split |].
    destruct deleted as [e|]; [now split |].
    apply refresh_then_create_flags.
  - left. unfold handleGuestSent_start.
    destruct (negb (truthy text)); [now split |].
    destruct (streaming p && negb (useRag p)); now split.
  - left. apply write_pending_flags.
  - left. unfold guest_onMessages. destruct (ignoreFinalGuestSse p); now split.
  - left. unfold handleGuestSent_fallback. destruct r; now split.
  - left. unfold handleGuestSent_reply. destruct r; now split.
  - left. apply on_streamstart_flags.
  - left. unfold on_stream. destruct (negb _ || negb _); [now split |].
    apply write_pending_flags.
  - left. unfold on_streamend. destruct (negb _ || negb _); [now split |].
    pose proof (write_pending_flags text p) as H.
    destruct (write_pending text p); exact H.
Qed.

Lemma page_step_rag_excludes (p q : Page) :
  page_step p q -> rag_excludes_streaming p -> rag_excludes_streaming q.
Proof.
  intros Hstep Hp.
  destruct (page_step_flags p q Hstep) as [[Hu Hs]|[[b ->]|[b ->]]].
  - unfold rag_excludes_streaming in *. rewrite Hu, Hs. exact Hp.
  - now apply toggle_streaming_excludes.
  - apply toggle_useRag_excludes.
Qed.

Lemma reachable_rag_excludes (q : Page) :
  rtc page_step initial_page q -> rag_excludes_streaming q.
Proof.
  intros H.
  assert (G : forall p, rtc page_step p q ->
                        rag_excludes_streaming p -> rag_excludes_streaming q).
  { clear H. intros p H. induction H as [p|p p' q Hstep _ IH]; [easy |].
    intros Hp. apply IH. now apply (page_step_rag_excludes p p'). }
  apply (G initial_page H). intros Hrag. discriminate Hrag.
Qed.

Lemma refreshChats_settings preferId sv p :
  ragTopK (refreshChats preferId sv p) = ragTopK p
  /\ ragTemperature (refreshChats preferId sv p) = ragTemperature p.
Proof. unfold refreshChats. destruct (sv_chats sv); now split. Qed.

(** The same for the first message of a session: the chat is created, and
    the request goes to it. *)
Lemma auth_first_send_rag_direct tok created sv nowSec fr reply st p :
  useRag p = true ->
  truthy (trim (MessageInput.content st)) = true ->
  MessageInput.sending st = false ->
  selectedChatId p = None ->
  isGuestMode p = false ->
  truthy created = true ->
  fetched
    (MessageInput.handleSend tok (Some (resolving (getOrCreateChat created sv)))
       nowSec fr reply st p).1.2
  = [sendMessage_request tok created (MessageInput.content st) (Some true)
       (Some (inject_Z (Z.max 1 (Qfloor (ragTopK p)))))
       (Some (Qmin (inject_Z 2) (Qmax (inject_Z 0) (ragTemperature p))))].
Proof.
  intros Hrag Hc Hs Hsel Hguest Hcr.
  unfold MessageInput.handleSend, MessageInput.handleSend_begin.
  rewrite Hc, Hs. cbn [negb orb].
  unfold MessageInput.handleSend_resolve. rewrite Hsel. cbn [id_truthy].
  unfold resolving, getOrCreateChat. rewrite Hsel, Hguest. cbn [id_truthy].
  rewrite Hcr.
  destruct (refreshChats_flags (Some created) sv p) as [Hu _].
  destruct (refreshChats_settings (Some created) sv p) as [Hk Ht].
  rewrite Hu, Hrag, andb_false_r.
  unfold MessageInput.handleSend_direct. rewrite Hu, Hrag, Hk, Ht.
  destruct reply; reflexivity.
Qed.

(** C8. With the retrieval flag set, whatever the streaming flag says, a
    send opens no stream request and takes the non-streaming path: the
    guest handler appends the user's message, issues one [guestChat]
    request and takes the transcript of the answer, the authenticated one issues one [sendMessage] request with
    the retrieval options, to the selected chat or to the chat created for
    the first message.  Setting the retrieval flag turns the streaming
    flag off, the streaming box cannot turn it on again, and in every page
    reached from the initial one the streaming flag is off when the
    retrieval flag is on. *)
Theorem C8_rag_forces_non_streaming :
  forall (tok : option string) (text : string) (nowSec : Z) (sc : GuestScript)
         (created : string) (sv : ServerView) (fr : FetchResult)
         (reply : option string) (st : MessageInput.State) (p : Page),
    useRag p = true ->
    opens_stream (handleGuestSent tok text nowSec sc p).1.2 = false
    /\ (forall ctx, (handleGuestSent_start tok text nowSec p).2 <> AwaitStream ctx)
    /\ (truthy text = true ->
        let entry := user_entry text nowSec (Some (pretty (S (cidCounter p)))) in
        let request :=
          guestChat_request tok
            {| gr_content := text; gr_messages := messages p;
               gr_use_rag := true; gr_rag_top_k := ragTopK p;
               gr_rag_temperature := ragTemperature p |} in
        (exists ctx,
            handleGuestSent_start tok text nowSec p
            = (with_messages (messages p ++ [entry])
                 (with_cidCounter (S (cidCounter p)) p),
               [Fetch request], AwaitReply ctx))
        /\ fetched (handleGuestSent tok text nowSec sc p).1.2 = [request]
        /\ (forall response ms,
              gs_reply sc = ReplyOk response ms ->
              messages (handleGuestSent tok text nowSec sc p).1.1
              = map of_wire ms))
    /\ opens_stream
         (MessageInput.handleSend tok
            (Some (resolving (getOrCreateChat created sv))) nowSec
            fr reply st p).1.2 = false
    /\ (forall resolveChat target,
          truthy (trim (MessageInput.content st)) = true ->
          MessageInput.sending st = false ->
          selectedChatId p = Some target ->
          truthy target = true ->
          let r := MessageInput.handleSend tok resolveChat nowSec fr reply st p in
          r = MessageInput.handleSend_direct tok (MessageInput.content st)
                target reply p
          /\ fetched r.1.2
             = [sendMessage_request tok target (MessageInput.content st)
                  (Some true)
                  (Some (inject_Z (Z.max 1 (Qfloor (ragTopK p)))))
                  (Some (Qmin (inject_Z 2)
                           (Qmax (inject_Z 0) (ragTemperature p))))])
    /\ (truthy (trim (MessageInput.content st)) = true ->
        MessageInput.sending st = false ->
        selectedChatId p = None ->
        isGuestMode p = false ->
        truthy created = true ->
        fetched
          (MessageInput.handleSend tok
             (Some (resolving (getOrCreateChat created sv))) nowSec
             fr reply st p).1.2
        = [sendMessage_request tok created (MessageInput.content st)
             (Some true)
             (Some (inject_Z (Z.max 1 (Qfloor (ragTopK p)))))
             (Some (Qmin (inject_Z 2)
                      (Qmax (inject_Z 0) (ragTemperature p))))])
    /\ streaming (rag_reactive p) = false
    /\ (forall b, toggle_streaming b p = p)
    /\ (forall q, streaming (toggle_useRag true q) = false)
    /\ (forall q b, streaming (toggle_streaming b (toggle_useRag true q)) = false)
    /\ (forall q, rtc page_step initial_page q ->
                  useRag q = true -> streaming q = false).
Proof.
  intros tok text nowSec sc created sv fr reply st p Hrag.
  split; [now apply guest_send_rag_no_stream |].
  split.
  { intros ctx. unfold handleGuestSent_start.
    destruct (truthy text); [|discriminate].
    rewrite Hrag, andb_false_r. discriminate. }
  split.
  { intros Ht entry request. split; [|split].
    - eexists. apply (guest_send_rag_start tok text nowSec p Hrag Ht).
    - apply (guest_send_rag_fetched tok text nowSec sc p Hrag Ht).
    - intros response ms Hreply. unfold handleGuestSent.
      rewrite (guest_send_rag_start tok text nowSec p Hrag Ht).
      unfold handleGuestSent_reply. now rewrite Hreply. }
  split.
  { apply auth_send_rag_no_stream; [exact Hrag |].
    intros q. apply resolving_useRag. }
  split.
  { intros resolveChat target Hc Hs Hsel Ht.
    now apply auth_send_rag_direct. }
  split.
  { intros Hc Hs Hsel Hguest Hcr. now apply auth_first_send_rag_direct. }
  split; [now apply rag_reactive_off |].
  split.
  { intros b. unfold toggle_streaming. now rewrite Hrag. }
  split.
  { intros q. unfold toggle_useRag. now apply rag_reactive_off. }
  split.
  { intros q b. apply toggle_streaming_excludes.
    - apply toggle_useRag_excludes.
    - unfold toggle_useRag, rag_reactive. reflexivity. }
  intros q Hq. now apply reachable_rag_excludes.
Qed.

Lemma C8_rag_forces_non_streaming_witness :
  let p := toggle_streaming true (toggle_useRag true initial_page) in
  let chosen := with_selectedChatId (Some "7") p in
  let sc := {| gs_events := []; gs_stream := Returned;
               gs_reply := ReplyOk "ok" [] |} in
  let st := {| MessageInput.content := "q"; MessageInput.sending := false |} in
  (useRag p = true
   /\ opens_stream (handleGuestSent None "q" 0 sc p).1.2 = false
   /\ fetched (handleGuestSent None "q" 0 sc p).1.2
      = [guestChat_request None
           {| gr_content := "q"; gr_messages := [];
              gr_use_rag := true; gr_rag_top_k := inject_Z 4;
              gr_rag_temperature := (3 # 10)%Q |}])
  /\ (useRag chosen = true
      /\ fetched
           (MessageInput.handleSend None None 0 (FetchRejects "") None st
              chosen).1.2
         = [sendMessage_request None "7" "q" (Some true)
              (Some (inject_Z (Z.max 1 (Qfloor (ragTopK chosen)))))
              (Some (Qmin (inject_Z 2)
                       (Qmax (inject_Z 0) (ragTemperature chosen))))]).
Proof.
  cbv zeta. split.
  - destruct (C8_rag_forces_non_streaming None "q" 0%Z
                {| gs_events := []; gs_stream := Returned;
                   gs_reply := ReplyOk "ok" [] |}
                "c1" {| sv_chats := []; sv_chat := fun _ => [] |}
                (FetchRejects "") None
                {| MessageInput.content := "q"; MessageInput.sending := false |}
                (toggle_streaming true (toggle_useRag true initial_page)) eq_refl)
      as (H1 & _ & H3 & _).
    split; [reflexivity |].
    split; [exact H1 |].
    exact (proj1 (proj2 (H3 eq_refl))).
  - destruct (C8_rag_forces_non_streaming None "q" 0%Z
                {| gs_events := []; gs_stream := Returned;
                   gs_reply := ReplyOk "ok" [] |}
                "c1" {| sv_chats := []; sv_chat := fun _ => [] |}
                (FetchRejects "") None
                {| MessageInput.content := "q"; MessageInput.sending := false |}
                (with_selectedChatId (Some "7")
                   (toggle_streaming true (toggle_useRag true initial_page)))
                eq_refl)
      as (_ & _ & _ & _ & H5 & _).
    split; [reflexivity |].
    exact (proj2 (H5 None "7" eq_refl eq_refl eq_refl eq_refl)).
Defined.

(** ** Chunk delivery *)

Lemma with_messages_same (p : Page) : with_messages (messages p) p = p.
Proof. destruct p; reflexivity. Qed.

Lemma set_content_same (m : ChatMessage) : set_content (content m) m = m.
Proof. destruct m; reflexivity. Qed.

Lemma with_acc_same (ctx : SendCtx) : with_acc (sc_acc ctx) ctx = ctx.
Proof. destruct ctx; reflexivity. Qed.

Lemma write_pending_at (text : string) (p : Page) (i : nat) (m : ChatMessage) :
  pendingAssistantIndex p = Some i ->
  messages p !! i = Some m ->
  write_pending text p
  = Next (with_messages (<[i := set_content text m]> (messages p)) p).
Proof. intros Hi Hm. unfold write_pending. now rewrite Hi, Hm. Qed.

(** Each guest chunk extends the accumulator and rewrites the pending entry
    with the whole accumulator. *)
Lemma guest_chunks_deliver (chunks : list string) :
  forall (ctx : SendCtx) (p : Page) (i : nat) (m : ChatMessage),
    pendingAssistantIndex p = Some i ->
    messages p !! i = Some m ->
    content m = sc_acc ctx ->
    deliver guest_callback (map EvChunk chunks) (ctx, p)
    = Next (with_acc (sc_acc ctx +:+ join chunks) ctx,
            with_messages
              (<[i := set_content (sc_acc ctx +:+ join chunks) m]> (messages p)) p).
Proof.
  induction chunks as [|c cs IH]; intros ctx p i m Hi Hm Hc.
  - cbn [map deliver join foldr]. rewrite str_app_nil_r, with_acc_same.
    rewrite <- Hc, set_content_same, (list_insert_id _ _ _ Hm).
    now rewrite with_messages_same.
  - cbn [map deliver guest_callback]. unfold guest_onChunk. cbn [fst snd].
    change (sc_acc (with_acc (sc_acc ctx +:+ c) ctx)) with (sc_acc ctx +:+ c).
    rewrite (write_pending_at _ _ _ _ Hi Hm).
    rewrite (IH _ _ i (set_content (sc_acc ctx +:+ c) m)).
    + cbn [with_acc sc_acc sc_content sc_currentMessages with_messages messages].
      rewrite join_cons, str_app_assoc, list_insert_insert_eq. reflexivity.
    + exact Hi.
    + cbn [with_messages messages]. apply list_lookup_insert_eq.
      eapply lookup_lt_Some; exact Hm.
    + reflexivity.
Qed.

Lemma on_stream_selected (text target : string) (p : Page) :
  truthy target = true ->
  selectedChatId p = Some target ->
  on_stream text (Some target) p = write_pending text p.
Proof.
  intros Ht Hs. unfold on_stream. cbn [coalesce id_truthy]. rewrite Ht, Hs.
  now rewrite bool_decide_eq_true_2.
Qed.

(** The same for the authenticated component and the page's [on:stream]. *)
Lemma auth_chunks_deliver (target : string) (chunks : list string) :
  forall (acc : string) (p : Page) (i : nat) (m : ChatMessage),
    truthy target = true ->
    selectedChatId p = Some target ->
    pendingAssistantIndex p = Some i ->
    messages p !! i = Some m ->
    content m = acc ->
    deliver (MessageInput.stream_callback target) (map TextChunk chunks) (acc, p)
    = Next (acc +:+ join chunks,
            with_messages (<[i := set_content (acc +:+ join chunks) m]> (messages p)) p).
Proof.
  induction chunks as [|c cs IH]; intros acc p i m Ht Hs Hi Hm Hc.
  - cbn [map deliver join foldr]. rewrite str_app_nil_r.
    rewrite <- Hc, set_content_same, (list_insert_id _ _ _ Hm).
    now rewrite with_messages_same.
  - cbn [map deliver MessageInput.stream_callback fst snd].
    rewrite (on_stream_selected _ _ _ Ht Hs), (write_pending_at _ _ _ _ Hi Hm).
    rewrite (IH _ _ i (set_content (acc +:+ c) m)).
    + cbn [with_messages messages].
      rewrite join_cons, str_app_assoc, list_insert_insert_eq. reflexivity.
    + exact Ht.
    + exact Hs.
    + exact Hi.
    + cbn [with_messages messages]. apply list_lookup_insert_eq.
      eapply lookup_lt_Some; exact Hm.
    + reflexivity.
Qed.

Lemma insert_second_of_pair {A} (l : list A) (u a x : A) :
  <[length l + 1 := x]> (l ++ [u; a]) = l ++ [u; x].
Proof.
  rewrite insert_app_r_alt by lia.
  replace (length l + 1 - length l) with 1 by lia. reflexivity.
Qed.

Lemma lookup_second_of_pair {A} (l : list A) (u a : A) :
  (l ++ [u; a]) !! (length l + 1) = Some a.
Proof.
  rewrite lookup_app_r by lia.
  replace (length l + 1 - length l) with 1 by lia. reflexivity.
Qed.

(** The state in which [handleGuestSent] awaits its stream. *)
Lemma guest_start_streaming tok text nowSec p :
  truthy text = true -> streaming p = true -> useRag p = false ->
  let cur := messages p ++ [optimistic_user text nowSec p; optimistic_placeholder p] in
  handleGuestSent_start tok text nowSec p
  = (with_ignoreFinalGuestSse false
       (with_pendingAssistantIndex (Some (length (messages p) + 1))
          (with_messages cur (with_cidCounter (S (S (cidCounter p))) p))),
     [Fetch (guestChatStream_request text (slice_to_neg 1 cur) (page_options p))],
     AwaitStream {| sc_content := text; sc_currentMessages := cur; sc_acc := "" |}).
Proof.
  intros Ht Hs Hr cur. unfold handleGuestSent_start.
  rewrite Ht, Hs, Hr. cbn [negb andb].
  replace (length (messages p ++
             [user_entry text nowSec (Some (pretty (S (cidCounter p))))] ++
             [assistant_entry true (Some (pretty (S (S (cidCounter p)))))]) - 1)
    with (length (messages p) + 1)
    by (rewrite !length_app; cbn [length]; lia).
  reflexivity.
Qed.

(** ... and the state reached from there by [chunks]. *)
Lemma guest_after_chunks tok text nowSec p chunks :
  truthy text = true -> streaming p = true -> useRag p = false ->
  exists p1 es ctx,
    handleGuestSent_start tok text nowSec p = (p1, es, AwaitStream ctx)
    /\ es = [Fetch (guestChatStream_request text
                      (messages p ++ [optimistic_user text nowSec p])
                      (page_options p))]
    /\ sc_content ctx = text
    /\ sc_currentMessages ctx
       = messages p ++ [optimistic_user text nowSec p; optimistic_placeholder p]
    /\ deliver guest_callback (map EvChunk chunks) (ctx, p1)
       = Next (with_acc (join chunks) ctx,
               with_messages
                 (messages p ++ [optimistic_user text nowSec p;
                                 set_content (join chunks) (optimistic_placeholder p)])
                 p1)
    /\ pendingAssistantIndex p1 = Some (length (messages p) + 1)
    /\ ignoreFinalGuestSse p1 = false
    /\ useRag p1 = useRag p
    /\ ragTopK p1 = ragTopK p
    /\ ragTemperature p1 = ragTemperature p.
Proof.
  intros Ht Hs Hr.
  rewrite (guest_start_streaming tok text nowSec p Ht Hs Hr).
  do 3 eexists. split; [reflexivity |].
  split.
  { do 2 f_equal.
    change (messages p ++ [optimistic_user text nowSec p; optimistic_placeholder p])
      with (messages p ++ [optimistic_user text nowSec p] ++ [optimistic_placeholder p]).
    rewrite app_assoc.
    f_equal. apply (slice_to_neg_app _ [optimistic_placeholder p]). }
  split; [reflexivity |]. split; [reflexivity |].
  split; [|repeat split].
  erewrite guest_chunks_deliver with
    (i := length (messages p) + 1) (m := optimistic_placeholder p).
  - cbn [sc_acc with_messages messages with_ignoreFinalGuestSse
         with_pendingAssistantIndex].
    rewrite insert_second_of_pair. reflexivity.
  - reflexivity.
  - cbn [with_ignoreFinalGuestSse with_pendingAssistantIndex with_messages
         messages]. apply lookup_second_of_pair.
  - reflexivity.
Qed.

(** The state the page is in once [on:streamstart] has run. *)
Lemma on_streamstart_value text target nowSec p :
  truthy text = true -> truthy target = true ->
  let base := if bool_decide (selectedChatId p = Some target)
              then messages p else [] in
  on_streamstart text (Some target) nowSec p
  = with_messages (base ++ [user_entry text nowSec None; assistant_entry false None])
      (with_pendingAssistantIndex (Some (length base + 1))
         (with_selectedChatId (Some target) p)).
Proof.
  intros Ht Hg base. unfold on_streamstart. cbn [coalesce id_truthy].
  rewrite Hg. cbn [negb]. subst base.
  destruct (bool_decide (selectedChatId p = Some target)) eqn:E.
  - apply bool_decide_eq_true_1 in E.
    rewrite E. cbn [id_truthy]. rewrite Hg, Ht.
    cbn [with_messages messages]. rewrite length_app. cbn [length].
    rewrite <- app_assoc. cbn [app].
    destruct p; cbn in *; subst; reflexivity.
  - cbn [with_messages with_selectedChatId selectedChatId id_truthy].
    rewrite Hg, Ht. reflexivity.
Qed.

(** C1. During one streaming send, after the chunk events [c1 .. cN] have
    been processed in delivery order the placeholder assistant entry holds
    [c1 + c2 + ... + cN]: in the guest handler (accumulator and placeholder
    written by the chunk callback) and in the authenticated path (the
    component accumulates, the page's [on:stream] writes the partial text).
    No callback throws, and the rest of the transcript is untouched. *)
Theorem C1_placeholder_holds_concatenation :
  forall (tok : option string) (text target : string) (nowSec : Z) (p : Page)
         (chunks : list string),
    truthy text = true ->
    truthy target = true ->
    streaming p = true ->
    useRag p = false ->
    (exists ctx p1 es ctx' p',
        handleGuestSent_start tok text nowSec p = (p1, es, AwaitStream ctx)
        /\ deliver guest_callback (map EvChunk chunks) (ctx, p1) = Next (ctx', p')
        /\ sc_acc ctx' = join chunks
        /\ pendingAssistantIndex p' = Some (length (messages p) + 1)
        /\ messages p'
           = messages p
             ++ [optimistic_user text nowSec p;
                 set_content (join chunks) (optimistic_placeholder p)]
        /\ content (set_content (join chunks) (optimistic_placeholder p))
           = join chunks)
    /\ (let base := if bool_decide (selectedChatId p = Some target)
                    then messages p else [] in
        exists p',
          deliver (MessageInput.stream_callback target) (map TextChunk chunks)
            ("", on_streamstart text (Some target) nowSec p)
          = Next (join chunks, p')
          /\ pendingAssistantIndex p' = Some (length base + 1)
          /\ messages p'
             = base ++ [user_entry text nowSec None;
                        set_content (join chunks) (assistant_entry false None)]).
Proof.
  intros tok text target nowSec p chunks Ht Hg Hs Hr. split.
  - destruct (guest_after_chunks tok text nowSec p chunks Ht Hs Hr)
      as (p1 & es & ctx & Hstart & _ & _ & _ & Hd & Hi & _).
    exists ctx, p1, es. do 2 eexists.
    split; [exact Hstart |]. split; [exact Hd |].
    cbn [with_acc sc_acc with_messages messages pendingAssistantIndex].
    repeat split. exact Hi.
  - intros base.
    rewrite (on_streamstart_value text target nowSec p Ht Hg). fold base.
    eexists. split.
    { apply auth_chunks_deliver with
        (i := length base + 1) (m := assistant_entry false None).
      - exact Hg.
      - reflexivity.
      - reflexivity.
      - cbn [with_messages messages]. apply lookup_second_of_pair.
      - reflexivity. }
    cbn [with_messages messages pendingAssistantIndex with_pendingAssistantIndex].
    split; [reflexivity |]. apply insert_second_of_pair.
Qed.

Lemma C1_placeholder_holds_concatenation_witness :
  truthy "hello" = true
  /\ exists p',
       deliver (MessageInput.stream_callback "7") (map TextChunk ["He"; "llo"; "!"])
         ("", on_streamstart "hello" (Some "7") 0 initial_page)
       = Next ("Hello!", p')
       /\ messages p'
          = [user_entry "hello" 0 None;
             set_content "Hello!" (assistant_entry false None)].
Proof.
  split; [reflexivity |].
  destruct (proj2 (C1_placeholder_holds_concatenation None "hello" "7" 0%Z
                     initial_page ["He"; "llo"; "!"]
                     eq_refl eq_refl eq_refl eq_refl))
    as [p' [Hd [_ Hm]]].
  exists p'. split; [exact Hd | exact Hm].
Defined.

(** ** Reconciliation with a snapshot *)

Lemma guest_onMessages_value (updatedMessages : list WireMessage) (p : Page) :
  ignoreFinalGuestSse p = false ->
  guest_onMessages updatedMessages p
  = with_ignoreFinalGuestSse false
      (with_pendingAssistantIndex None
         (with_messages (dedup_tail (reconcile_replace updatedMessages p)) p)).
Proof. intros H. unfold guest_onMessages. now rewrite H. Qed.

Lemma dedup_tail_keep (l : list ChatMessage) :
  tail_duplicated l = false -> dedup_tail l = l.
Proof. intros H. unfold dedup_tail. now rewrite H. Qed.

Lemma dedup_tail_drop (l : list ChatMessage) :
  tail_duplicated l = true -> dedup_tail l = slice_to_neg 1 l.
Proof. intros H. unfold dedup_tail. now rewrite H. Qed.

Lemma deliver_app {E S} (cb : E -> S -> Step S) (evs1 evs2 : list E) (st st1 : S) :
  deliver cb evs1 st = Next st1 ->
  deliver cb (evs1 ++ evs2) st = deliver cb evs2 st1.
Proof.
  revert st. induction evs1 as [|ev evs IH]; intros st Hd.
  - cbn in Hd. injection Hd as ->. reflexivity.
  - cbn [app deliver] in *. destruct (cb ev st); [|discriminate].
    now apply IH.
Qed.

(** C2. With the optimistic placeholder still in place, the snapshot
    callback replaces the last two entries of the transcript by the last two
    entries of the snapshot: the transcript it assigns is
    [old[0 .. n-2] ++ lastTwo]; the entries before position [n-2] are kept;
    the callback then only applies its tail de-duplication to that list and
    clears the pending index. *)
Theorem C2_snapshot_replaces_last_two :
  forall (p : Page) (updatedMessages : list WireMessage),
    ignoreFinalGuestSse p = false ->
    placeholder_pending p = true ->
    2 <= length (messages p) ->
    let n := length (messages p) in
    let lastTwo :=
      map of_wire (drop (length updatedMessages - 2) updatedMessages) in
    reconcile_replace updatedMessages p = take (n - 2) (messages p) ++ lastTwo
    /\ (forall i, i < n - 2 ->
          reconcile_replace updatedMessages p !! i = messages p !! i)
    /\ length (reconcile_replace updatedMessages p)
       = n - 2 + Nat.min 2 (length updatedMessages)
    /\ messages (guest_onMessages updatedMessages p)
       = dedup_tail (take (n - 2) (messages p) ++ lastTwo)
    /\ (tail_duplicated (take (n - 2) (messages p) ++ lastTwo) = false ->
        messages (guest_onMessages updatedMessages p)
        = take (n - 2) (messages p) ++ lastTwo)
    /\ pendingAssistantIndex (guest_onMessages updatedMessages p) = None.
Proof.
  intros p upd Hig Hph Hn n lastTwo.
  assert (Hrep : reconcile_replace upd p = take (n - 2) (messages p) ++ lastTwo).
  { unfold reconcile_replace. now rewrite Hph. }
  rewrite (guest_onMessages_value upd p Hig), Hrep.
  cbn [messages with_ignoreFinalGuestSse with_pendingAssistantIndex
       with_messages pendingAssistantIndex].
  split; [reflexivity |]. split.
  { intros i Hi. rewrite lookup_app_l by (rewrite length_take; lia).
    apply lookup_take_lt. exact Hi. }
  split.
  { subst lastTwo. rewrite length_app, length_take, length_map, length_drop.
    subst n. lia. }
  split; [reflexivity |]. split; [|reflexivity].
  intros Hd. now apply dedup_tail_keep.
Qed.

Lemma C2_snapshot_replaces_last_two_witness :
  let p := (handleGuestSent_start None "hi" 0 initial_page).1.1 in
  let snapshot :=
    [ {| w_role := "user"; w_content := "hi"; w_timestamp := None; w_data := None |};
      {| w_role := "assistant"; w_content := "Hi there."; w_timestamp := None;
         w_data := None |} ] in
  2 <= length (messages p)
  /\ reconcile_replace snapshot p = map of_wire snapshot.
Proof.
  split; [cbn; lia |].
  exact (proj1 (C2_snapshot_replaces_last_two
                  (handleGuestSent_start None "hi" 0 initial_page).1.1
                  [ {| w_role := "user"; w_content := "hi"; w_timestamp := None;
                       w_data := None |};
                    {| w_role := "assistant"; w_content := "Hi there.";
                       w_timestamp := None; w_data := None |} ]
                  eq_refl eq_refl (le_n 2))).
Defined.

(** The same seen from the whole send: a snapshot that arrives after any
    number of chunks puts its last two entries right behind the transcript
    the send started from. *)
Lemma guest_snapshot_after_chunks tok text nowSec p chunks upd :
  truthy text = true -> streaming p = true -> useRag p = false ->
  exists p1 es ctx st,
    handleGuestSent_start tok text nowSec p = (p1, es, AwaitStream ctx)
    /\ deliver guest_callback (map EvChunk chunks ++ [EvMessages upd]) (ctx, p1)
       = Next st
    /\ messages st.2 = dedup_tail (messages p ++ map of_wire (slice_neg 2 upd))
    /\ pendingAssistantIndex st.2 = None.
Proof.
  intros Ht Hs Hr.
  destruct (guest_after_chunks tok text nowSec p chunks Ht Hs Hr)
    as (p1 & es & ctx & Hstart & _ & _ & _ & Hd & Hi & Hig & _).
  exists p1, es, ctx. eexists. split; [exact Hstart |].
  split; [rewrite (deliver_app _ _ _ _ _ Hd); reflexivity |].
  cbn [snd]. rewrite guest_onMessages_value by exact Hig.
  cbn [messages with_ignoreFinalGuestSse with_pendingAssistantIndex
       with_messages pendingAssistantIndex].
  split; [|reflexivity].
  f_equal. unfold reconcile_replace, placeholder_pending.
  cbn [with_messages messages pendingAssistantIndex].
  rewrite Hi, lookup_second_of_pair. cbn [placeholder set_content].
  f_equal. apply (slice_to_neg_app (messages p) [_; _]).
Qed.

(** ** Fallback *)

(** Whatever was delivered, a stream call that throws leads to the [catch]
    block, which asks [guestChat] and continues with its answer. *)
Lemma guest_stream_throws tok events err reply ctx p :
  exists st e,
    handleGuestSent_stream tok
      {| gs_events := events; gs_stream := Threw err; gs_reply := reply |} ctx p
    = (let '(p', es', c) := handleGuestSent_fallback reply st.2 in
       (p', handleGuestSent_catch tok e st.1 st.2 ++ es', c)).
Proof.
  unfold handleGuestSent_stream. cbn [gs_events gs_stream gs_reply].
  destruct (deliver guest_callback events (ctx, p)) as [st|e st].
  - exists st, err. reflexivity.
  - exists st, e. reflexivity.
Qed.

(** C3. When the stream call throws and the fallback request succeeds, the
    transcript becomes exactly the message list of the fallback response:
    the optimistic user message and the placeholder are gone, nothing is
    appended to them, no entry carries the placeholder marker, and the
    pending index is cleared.  With a response that holds the pre-send
    transcript plus the user/assistant pair the length grows by two. *)
Theorem C3_fallback_replaces_optimistic_pair :
  forall (tok : option string) (text : string) (nowSec : Z) (p : Page)
         (events : list PageEvent) (err response : string)
         (ms : list WireMessage),
    truthy text = true ->
    streaming p = true ->
    useRag p = false ->
    exists p' es,
      handleGuestSent tok text nowSec
        {| gs_events := events; gs_stream := Threw err;
           gs_reply := ReplyOk response ms |} p
      = (p', es, Returned)
      /\ messages p' = map of_wire ms
      /\ Forall (fun m => placeholder m = false) (messages p')
      /\ pendingAssistantIndex p' = None
      /\ length (messages p') = length ms
      /\ (length ms = length (messages p) + 2 ->
          length (messages p') = length (messages p) + 2).
Proof.
  intros tok text nowSec p events err response ms Ht Hs Hr.
  unfold handleGuestSent.
  rewrite (guest_start_streaming tok text nowSec p Ht Hs Hr).
  match goal with
  | |- context [handleGuestSent_stream tok ?sc ?ctx ?q] =>
      destruct (guest_stream_throws tok events err (ReplyOk response ms) ctx q)
        as (st & e & ->)
  end.
  cbn [handleGuestSent_fallback].
  do 2 eexists. split; [reflexivity |].
  cbn [messages with_ignoreFinalGuestSse with_pendingAssistantIndex
       with_messages pendingAssistantIndex].
  split; [reflexivity |]. split.
  { apply Forall_forall. intros m Hm.
    apply list_elem_of_fmap in Hm. destruct Hm as (w & -> & _). reflexivity. }
  split; [reflexivity |]. rewrite length_map.
  split; [reflexivity | intros H; exact H].
Qed.

Lemma C3_fallback_replaces_optimistic_pair_witness :
  let reply :=
    [ {| w_role := "user"; w_content := "hi"; w_timestamp := None; w_data := None |};
      {| w_role := "assistant"; w_content := "Hi there."; w_timestamp := None;
         w_data := None |} ] in
  truthy "hi" = true
  /\ exists p' es,
       handleGuestSent None "hi" 0
         {| gs_events := []; gs_stream := Threw "network";
            gs_reply := ReplyOk "Hi there." reply |} initial_page
       = (p', es, Returned)
       /\ messages p' = map of_wire reply.
Proof.
  split; [reflexivity |].
  destruct (C3_fallback_replaces_optimistic_pair None "hi" 0%Z initial_page []
              "network" "Hi there."
              [ {| w_role := "user"; w_content := "hi"; w_timestamp := None;
                   w_data := None |};
                {| w_role := "assistant"; w_content := "Hi there.";
                   w_timestamp := None; w_data := None |} ]
              eq_refl eq_refl eq_refl)
    as (p' & es & Hrun & Hm & _).
  exists p', es. split; [exact Hrun | exact Hm].
Defined.

(** ** The tail de-duplication *)

(** C4, as stated, fails: a settled transcript can end in two entries with
    the same role and content.  A fallback response is installed as it is, so a response
    that ends in two equal entries leaves them both in place; and after a
    snapshot only one entry is dropped, so three equal entries leave two. *)
Lemma C4_counterexample_duplicate_tail_survives :
  let ok := {| w_role := "assistant"; w_content := "ok"; w_timestamp := None;
               w_data := None |} in
  (exists p' es,
      handleGuestSent None "hi" 0
        {| gs_events := []; gs_stream := Threw "network";
           gs_reply := ReplyOk "ok" [ok; ok] |} initial_page
      = (p', es, Returned)
      /\ messages p' = [of_wire ok; of_wire ok]
      /\ tail_duplicated (messages p') = true)
  /\ (exists p' es,
        handleGuestSent None "hi" 0
          {| gs_events := [EvMessages [ok; ok]]; gs_stream := Returned;
             gs_reply := ReplyFails "" |}
          (with_messages [of_wire ok] initial_page)
        = (p', es, Returned)
        /\ messages p' = [of_wire ok; of_wire ok]
        /\ tail_duplicated (messages p') = true).
Proof.
  split; do 2 eexists; (split; [reflexivity |]); split; reflexivity.
Qed.

(** C4 (amended). After a snapshot has been reconciled, the transcript that
    the replacement produced loses its very last entry when its last two
    entries have the same role and content, and is kept as it is otherwise,
    in which case its last two entries differ.  The entry is dropped once.
    A successful fallback installs the response list without any
    de-duplication. *)
Theorem C4_snapshot_tail_deduplicated_once :
  forall (p : Page) (updatedMessages : list WireMessage),
    ignoreFinalGuestSse p = false ->
    let replaced := reconcile_replace updatedMessages p in
    let settled := messages (guest_onMessages updatedMessages p) in
    (tail_duplicated replaced = true ->
       settled = slice_to_neg 1 replaced
       /\ length settled = length replaced - 1)
    /\ (tail_duplicated replaced = false ->
          settled = replaced /\ tail_duplicated settled = false)
    /\ (forall response ms,
          messages (handleGuestSent_fallback (ReplyOk response ms) p).1.1
          = map of_wire ms).
Proof.
  intros p upd Hig replaced settled. subst settled.
  rewrite (guest_onMessages_value upd p Hig).
  cbn [messages with_ignoreFinalGuestSse with_pendingAssistantIndex with_messages].
  fold replaced. split; [|split].
  - intros Hd. rewrite (dedup_tail_drop _ Hd). split; [reflexivity |].
    unfold slice_to_neg. rewrite length_take. lia.
  - intros Hd. rewrite (dedup_tail_keep _ Hd). split; [reflexivity | exact Hd].
  - reflexivity.
Qed.

Lemma C4_snapshot_tail_deduplicated_once_witness :
  let p := (handleGuestSent_start None "hi" 0 initial_page).1.1 in
  let hi := {| w_role := "assistant"; w_content := "hi"; w_timestamp := None;
               w_data := None |} in
  ignoreFinalGuestSse p = false
  /\ (tail_duplicated (reconcile_replace [hi; hi] p) = true ->
      messages (guest_onMessages [hi; hi] p)
      = slice_to_neg 1 (reconcile_replace [hi; hi] p)
      /\ length (messages (guest_onMessages [hi; hi] p))
         = length (reconcile_replace [hi; hi] p) - 1).
Proof.
  split; [reflexivity |].
  exact (proj1 (C4_snapshot_tail_deduplicated_once
                  (handleGuestSent_start None "hi" 0 initial_page).1.1
                  [ {| w_role := "assistant"; w_content := "hi";
                       w_timestamp := None; w_data := None |};
                    {| w_role := "assistant"; w_content := "hi";
                       w_timestamp := None; w_data := None |} ]
                  eq_refl)).
Defined.

(** ** A failing fallback *)





(** ** Frame decoding *)

Lemma decode_data_line {on_payload : string -> list StreamEvent} (payload : string) :
  decode_line on_payload ("data: " +:+ payload)
  = if String.eqb payload "[DONE]" then None else Some (on_payload payload).
Proof.
  unfold decode_line.
  assert (H : startsWith ("data: " +:+ payload) "data: " = true)
    by (destruct payload; reflexivity).
  rewrite H. reflexivity.
Qed.

Lemma decode_other_line (on_payload : string -> list StreamEvent) (line : string) :
  startsWith line "data: " = false -> decode_line on_payload line = Some [].
Proof. intros H. unfold decode_line. now rewrite H. Qed.

(** [streamMessage] never produces a control event. *)
Lemma stream_payload_chunks_only (b : bool) (payload : string) (ev : StreamEvent) :
  ev ∈ stream_payload b payload -> ev = TextChunk payload.
Proof.
  unfold stream_payload, emit_chunk. destruct b; intros H.
  - apply list_elem_of_singleton in H. exact H.
  - apply elem_of_nil in H. contradiction.
Qed.

(** C5, as stated, fails twice.  In [guestChatStream] a payload that parses
    as JSON without being a transcript snapshot (here the number [42])
    reaches neither callback.  In [streamMessage] nothing is ever parsed, so
    a snapshot object is handed over as a text chunk. *)
Lemma C5_counterexample_dropped_and_unparsed :
  let snapshot := empty_snapshot_text in
  JSON_parse "42" = Some (JNum "42")
  /\ decode_line (guest_payload JSON_parse true true never_throws) "data: 42"
     = Some []
  /\ spec_classify JSON_parse "42" = [TextChunk "42"]
  /\ decode_line (guest_payload JSON_parse true true never_throws) "data: 42"
     <> Some (spec_classify JSON_parse "42")
  /\ decode_line (stream_payload true) ("data: " +:+ snapshot)
     = Some [TextChunk snapshot]
  /\ spec_classify JSON_parse snapshot = [Control (Some (JArr []))]
  /\ decode_line (stream_payload true) ("data: " +:+ snapshot)
     <> Some (spec_classify JSON_parse snapshot).
Proof. repeat split; vm_compute; (reflexivity || discriminate). Qed.

(** C5 (amended). For a complete line [data: <payload>] whose payload is not
    the terminal marker: [guestChatStream] emits a control event carrying
    [parsed.data] when the payload parses as a JSON object whose [type] is
    ["messages"], followed by a text chunk carrying the payload when the
    [onMessages] callback throws on that data, and a text chunk carrying
    the payload verbatim when the payload does not parse as JSON;
    [streamMessage] emits every payload verbatim as a text chunk and has no
    control events. *)
Theorem C5_line_classification :
  forall (parse : string -> option Json) (throws : option Json -> bool)
         (payload : string),
    String.eqb payload "[DONE]" = false ->
    (forall ms,
        parse payload = Some (JObj ms) ->
        get_member "type" ms = Some (JStr "messages") ->
        decode_line (guest_payload parse true true throws) ("data: " +:+ payload)
        = Some (Control (get_member "data" ms)
                :: (if throws (get_member "data" ms) then [TextChunk payload]
                    else [])))
    /\ (parse payload = None ->
        decode_line (guest_payload parse true true throws) ("data: " +:+ payload)
        = Some [TextChunk payload])
    /\ decode_line (stream_payload true) ("data: " +:+ payload)
       = Some [TextChunk payload].
Proof.
  intros parse throws payload Hdone. rewrite !decode_data_line, Hdone.
  split; [|split].
  - intros ms Hp Ht. unfold guest_payload. rewrite Hp, Ht. reflexivity.
  - intros Hp. unfold guest_payload. rewrite Hp. reflexivity.
  - reflexivity.
Qed.

Lemma C5_line_classification_witness :
  (String.eqb "Hello" "[DONE]" = false
   /\ decode_line (guest_payload JSON_parse true true never_throws) "data: Hello"
      = Some [TextChunk "Hello"]
   /\ decode_line (stream_payload true) "data: Hello" = Some [TextChunk "Hello"])
  /\ (String.eqb bare_snapshot_text "[DONE]" = false
      /\ decode_line (guest_payload JSON_parse true true throws_on_undefined)
           ("data: " +:+ bare_snapshot_text)
         = Some [Control None; TextChunk bare_snapshot_text]).
Proof.
  split.
  - split; [reflexivity |].
    destruct (C5_line_classification JSON_parse never_throws "Hello" eq_refl)
      as (_ & Hg & Hs).
    split; [exact (Hg eq_refl) | exact Hs].
  - split; [reflexivity |].
    destruct (C5_line_classification JSON_parse throws_on_undefined
                bare_snapshot_text eq_refl) as (Hm & _ & _).
    exact (Hm [("type", JStr "messages")] eq_refl eq_refl).
Defined.

(** A snapshot on which the callback returns is a control event alone. *)
Example guest_payload_snapshot :
  guest_payload JSON_parse true true never_throws empty_snapshot_text
  = [Control (Some (JArr []))].
Proof. reflexivity. Qed.

(** The payload [null] parses, but reading its [type] throws inside the
    [try], so it is a text chunk after all. *)
Example guest_payload_null :
  guest_payload JSON_parse true true never_throws "null" = [TextChunk "null"].
Proof. reflexivity. Qed.

(** A whole guest stream: two chunks split over three reads, a keep-alive
    comment, a snapshot and the terminal marker; what follows the marker is
    not read. *)
Example guest_stream_example :
  let nl := String LF "" in
  guestChatStream JSON_parse true true never_throws
    (FetchResolves
       {| res_ok := true; res_status := 200; res_statusText := "OK";
          res_text := None;
          res_body :=
            Some (["data: He" +:+ nl +:+ nl +:+ "data: l";
                   "lo" +:+ String CR nl +:+ ": ping" +:+ nl;
                   "data: " +:+ empty_snapshot_text +:+ nl
                     +:+ "data: [DONE]" +:+ nl +:+ "data: late" +:+ nl],
                  EndOfBody) |})
  = ([TextChunk "He"; TextChunk "llo"; Control (Some (JArr []))], Returned).
Proof. vm_compute. reflexivity. Qed.

(** A response that is not ok makes the stream call throw with the body
    text, or with the status text when the body is empty. *)
Example guest_stream_not_ok :
  guestChatStream JSON_parse true true never_throws
    (FetchResolves {| res_ok := false; res_status := 502;
                      res_statusText := "Bad Gateway";
                      res_text := Some ""; res_body := None |})
  = ([], Threw "Bad Gateway").
Proof. reflexivity. Qed.

(** ** The send guard *)

Example trim_blank : trim ("  " +:+ String "009" (String LF "")) = "".
Proof. reflexivity. Qed.

Example trim_text : trim (" hi there " +:+ String LF "") = "hi there".
Proof. reflexivity. Qed.

(** Blank input, or a set [sending] flag, makes [handleSend] return at once:
    nothing changes and nothing is requested. *)
Lemma auth_guard_rejects tok resolve nowSec fr reply st p :
  negb (truthy (trim (MessageInput.content st))) || MessageInput.sending st = true ->
  MessageInput.handleSend tok resolve nowSec fr reply st p = (st, p, [], None).
Proof.
  intros H. unfold MessageInput.handleSend, MessageInput.handleSend_begin.
  now rewrite H.
Qed.

Lemma guest_guard_rejects tok nowSec st p :
  negb (truthy (trim (GuestMessageInput.content st)))
  || GuestMessageInput.sending st = true ->
  GuestMessageInput.handleSend tok nowSec st p = (st, p, [], NotStarted).
Proof.
  intros H. unfold GuestMessageInput.handleSend, GuestMessageInput.handleSend_begin.
  now rewrite H.
Qed.

(** In the authenticated component the flag is set before the first
    suspension and reset only in the [finally] block, so in the instance
    that runs the send it covers the whole request. *)
Lemma auth_sending_while_in_flight st st1 text :
  MessageInput.handleSend_begin st = (st1, Begin text) ->
  MessageInput.sending st1 = true
  /\ forall typed,
       MessageInput.handleSend_begin
         {| MessageInput.content := typed;
            MessageInput.sending := MessageInput.sending st1 |}
       = ({| MessageInput.content := typed;
             MessageInput.sending := MessageInput.sending st1 |}, Ignored).
Proof.
  unfold MessageInput.handleSend_begin.
  destruct (_ || _); [discriminate |].
  intros H. injection H as <- _. cbn. split; [reflexivity |].
  intros typed. now rewrite orb_true_r.
Qed.

(** The flag belongs to the instance.  When the page replaces the input
    during a send, as it does at [on:streamstart] for a send into an empty
    transcript, the instance on screen starts idle and passes the guard
    while the first send is still in flight. *)
Lemma auth_new_instance_passes_guard typed :
  truthy (trim typed) = true ->
  MessageInput.handleSend_begin
    {| MessageInput.content := typed;
       MessageInput.sending := MessageInput.sending MessageInput.initial |}
  = ({| MessageInput.content := typed; MessageInput.sending := true |},
     Begin typed).
Proof.
  intros H. unfold MessageInput.handleSend_begin.
  cbn [MessageInput.content MessageInput.sending MessageInput.initial].
  now rewrite H.
Qed.

(** C7. In guest mode a send made while another send is in flight is not
    rejected.  [GuestMessageInput] resets [sending] as soon as
    [dispatch('sent')] returns, that is while [handleGuestSent] still awaits
    its stream, and [handleGuestSent] has no guard of its own: the second
    send appends another user message and another placeholder and opens a
    second stream. *)
Theorem C7_guest_second_send_while_streaming :
  let st0 := {| GuestMessageInput.content := "first";
                GuestMessageInput.sending := false |} in
  let r1 := GuestMessageInput.handleSend None 0 st0 guest_page in
  let st1 := r1.1.1.1 in
  let p1 := r1.1.1.2 in
  let r2 := GuestMessageInput.handleSend None 1
              (GuestMessageInput.type_text "second" st1) p1 in
  let p2 := r2.1.1.2 in
  (exists ctx, r1.2 = AwaitStream ctx)
  /\ opens_stream r1.1.2 = true
  /\ pendingAssistantIndex p1 = Some 1
  /\ placeholder_pending p1 = true
  /\ GuestMessageInput.sending st1 = false
  /\ (exists ctx, r2.2 = AwaitStream ctx)
  /\ opens_stream r2.1.2 = true
  /\ length (messages p1) = 2
  /\ length (messages p2) = 4
  /\ pendingAssistantIndex p2 = Some 3.
Proof.
  cbv zeta. split; [eexists; reflexivity |].
  do 4 (split; [reflexivity |]).
  split; [eexists; reflexivity |].
  repeat split.
Qed.

(** In [guestChatStream] a payload that parses to anything but [null] or an
    object tagged ["messages"] reaches no callback, whatever the parser. *)
Lemma guest_payload_silent (parse : string -> option Json)
    (throws : option Json -> bool) (payload : string) (v : Json) :
  parse payload = Some v ->
  v <> JNull ->
  (forall ms, v = JObj ms -> get_member "type" ms <> Some (JStr "messages")) ->
  guest_payload parse true true throws payload = [].
Proof.
  intros Hp Hnull Hobj. unfold guest_payload. rewrite Hp.
  destruct v as [| | | | |ms]; try reflexivity; [congruence |].
  specialize (Hobj ms eq_refl).
  destruct (get_member "type" ms) as [[| | |t| |]|]; try reflexivity.
  destruct (String.eqb_spec t "messages") as [->|Hne]; [congruence | reflexivity].
Qed.

(** Where the code and the worded classification agree: on a snapshot the
    callback must return. *)
Lemma guest_payload_meets_spec (parse : string -> option Json)
    (throws : option Json -> bool) (payload : string) :
  (parse payload = None
   \/ parse payload = Some JNull
   \/ exists ms, parse payload = Some (JObj ms)
                 /\ get_member "type" ms = Some (JStr "messages")
                 /\ throws (get_member "data" ms) = false) ->
  guest_payload parse true true throws payload = spec_classify parse payload.
Proof.
  unfold guest_payload, spec_classify.
  intros [-> | [-> | (ms & -> & -> & Hth)]]; try reflexivity.
  cbn [String.eqb Ascii.eqb andb]. cbv zeta. now rewrite Hth.
Qed.

(** ** Requests issued by the handlers *)

Lemma streams_uncached_cons (r : Request) (rs : list Request) :
  streams_uncached (r :: rs)
  = implb (is_stream_request r) (bool_decide (req_cache r = Some "no-store"))
    && streams_uncached rs.
Proof. reflexivity. Qed.

Lemma streams_uncached_app (rs1 rs2 : list Request) :
  streams_uncached (rs1 ++ rs2) = streams_uncached rs1 && streams_uncached rs2.
Proof. apply forallb_app. Qed.

Lemma guest_fallback_uncached tok e ctx p reply :
  streams_uncached
    (fetched (handleGuestSent_catch tok e ctx p
              ++ (handleGuestSent_fallback reply p).1.2)) = true.
Proof.
  rewrite fetched_app, streams_uncached_app.
  unfold handleGuestSent_catch.
  rewrite fetched_console, fetched_fetch.
  rewrite streams_uncached_cons, guestChat_not_stream.
  destruct reply; reflexivity.
Qed.

Lemma guest_send_streams_uncached tok text nowSec sc p :
  streams_uncached (fetched (handleGuestSent tok text nowSec sc p).1.2) = true.
Proof.
  unfold handleGuestSent, handleGuestSent_start.
  destruct (truthy text); [|reflexivity]. cbn [negb].
  destruct (streaming p && negb (useRag p)).
  - unfold handleGuestSent_stream.
    destruct (deliver guest_callback (gs_events sc) _) as [st|e st].
    + destruct (gs_stream sc) as [|e]; [reflexivity |].
      pose proof (guest_fallback_uncached tok e st.1 st.2 (gs_reply sc)) as H.
      destruct (handleGuestSent_fallback (gs_reply sc) st.2) as [[p' es'] c].
      cbn [fst snd] in *. rewrite fetched_app, fetched_fetch.
      cbn [app]. rewrite streams_uncached_cons. exact H.
    + pose proof (guest_fallback_uncached tok e st.1 st.2 (gs_reply sc)) as H.
      destruct (handleGuestSent_fallback (gs_reply sc) st.2) as [[p' es'] c].
      cbn [fst snd] in *. rewrite fetched_app, fetched_fetch.
      cbn [app]. rewrite streams_uncached_cons. exact H.
  - unfold handleGuestSent_reply.
    destruct (gs_reply sc); cbn [fst snd];
      rewrite fetched_app, fetched_fetch; cbn [app];
      rewrite streams_uncached_cons, guestChat_not_stream; reflexivity.
Qed.

Lemma auth_send_streams_uncached tok resolve nowSec fr reply st p :
  streams_uncached
    (fetched (MessageInput.handleSend tok resolve nowSec fr reply st p).1.2) = true.
Proof.
  unfold MessageInput.handleSend.
  destruct (MessageInput.handleSend_begin st) as [st1 [|text]]; [reflexivity |].
  destruct (MessageInput.handleSend_resolve resolve p) as [p1 [[t|]|e]];
    [|reflexivity|reflexivity].
  destruct (truthy t); [|reflexivity].
  destruct (streaming p1 && negb (useRag p1)).
  - unfold MessageInput.handleSend_streaming.
    destruct (streamMessage true fr) as [evs c].
    destruct (deliver _ evs _) as [s|e s].
    + destruct c as [|e].
      * destruct (on_streamend _ _ _) as [r refresh]. reflexivity.
      * reflexivity.
    + reflexivity.
  - unfold MessageInput.handleSend_direct.
    destruct reply; cbn [fst snd MessageInput.handleSend_catch];
      rewrite fetched_fetch, streams_uncached_cons, sendMessage_not_stream;
      reflexivity.
Qed.

(** C9. Both stream requests are issued with [cache: 'no-store'], and every
    stream request that a send handler issues is one of them.
    [streamMessage] carries [Authorization: Bearer <token>] exactly when
    [getToken()] gives a (non-empty) token, [guestChatStream] never carries an
    [Authorization] header. *)
Theorem C9_stream_request_cache_and_credentials :
  forall (tok : option string) (id text : string) (history : list ChatMessage)
         (opts : StreamMessageOptions),
    req_cache (streamMessage_request tok id text opts) = Some "no-store"
    /\ header "Authorization" (req_headers (streamMessage_request tok id text opts))
       = (if token_truthy tok then (fun t => "Bearer " +:+ t) <$> tok else None)
    /\ req_cache (guestChatStream_request text history opts) = Some "no-store"
    /\ header "Authorization" (req_headers (guestChatStream_request text history opts))
       = None
    /\ (forall nowSec sc p,
          streams_uncached (fetched (handleGuestSent tok text nowSec sc p).1.2)
          = true)
    /\ (forall resolve nowSec fr reply st p,
          streams_uncached
            (fetched (MessageInput.handleSend tok resolve nowSec fr reply st p).1.2)
          = true).
Proof.
  intros tok id text history opts.
  split; [reflexivity |]. split.
  { destruct tok as [t|]; [|reflexivity].
    cbn [streamMessage_request req_headers token_truthy].
    destruct (truthy t); reflexivity. }
  split; [reflexivity |]. split; [reflexivity |]. split.
  - intros nowSec sc p. apply guest_send_streams_uncached.
  - intros resolve nowSec fr reply st p. apply auth_send_streams_uncached.
Qed.

(** ** The history sent along with a guest message *)

(** In the streaming branch [currentMessages] and [messages] name one array
    when the placeholder is pushed, so [currentMessages.slice(0, -1)] drops
    the placeholder and keeps the new user message: the stream request and
    the fallback request carry the old transcript followed by that message.
    The non-streaming branch pushes nothing and carries the old transcript
    alone. *)
Lemma guest_streaming_history tok text nowSec p :
  truthy text = true -> streaming p = true -> useRag p = false ->
  exists p1 ctx,
    handleGuestSent_start tok text nowSec p
    = (p1,
       [Fetch (guestChatStream_request text
                 (messages p ++ [optimistic_user text nowSec p]) (page_options p))],
       AwaitStream ctx)
    /\ forall q, gr_messages (guest_request ctx q)
                 = messages p ++ [optimistic_user text nowSec p].
Proof.
  intros Ht Hs Hr.
  destruct (guest_after_chunks tok text nowSec p [] Ht Hs Hr)
    as (p1 & es & ctx & Hstart & -> & _ & Hcur & _).
  exists p1, ctx. split; [exact Hstart |].
  intros q. cbn [guest_request gr_messages]. rewrite Hcur.
  change (messages p ++ [optimistic_user text nowSec p; optimistic_placeholder p])
    with (messages p ++ [optimistic_user text nowSec p] ++ [optimistic_placeholder p]).
  rewrite app_assoc. apply (slice_to_neg_app _ [optimistic_placeholder p]).
Qed.

Lemma guest_direct_history tok text nowSec p :
  truthy text = true -> streaming p && negb (useRag p) = false ->
  exists p1 es ctx,
    handleGuestSent_start tok text nowSec p = (p1, es, AwaitReply ctx)
    /\ messages p1
       = messages p ++ [user_entry text nowSec (Some (pretty (S (cidCounter p))))]
    /\ pendingAssistantIndex p1 = pendingAssistantIndex p
    /\ forall q, gr_messages (guest_request ctx q) = messages p.
Proof.
  intros Ht Hb. unfold handleGuestSent_start. rewrite Ht, Hb. cbn [negb].
  do 3 eexists. split; [reflexivity |].
  split; [reflexivity |]. split; [reflexivity |].
  intros q. cbn [guest_request gr_messages sc_currentMessages].
  apply (slice_to_neg_app (messages p) [_]).
Qed.

(** ** Worked runs *)

(** Guest, input "hello", chunks "He", "llo", "!", then the terminal marker
    and no snapshot: the transcript ends with the user message and the
    assistant text "Hello!"; that entry still carries the placeholder marker
    and the pending index still points at it. *)
Example guest_run_hello :
  let r := handleGuestSent None "hello" 0
             {| gs_events := [EvChunk "He"; EvChunk "llo"; EvChunk "!"];
                gs_stream := Returned; gs_reply := ReplyFails "" |}
             guest_page in
  r.2 = Returned
  /\ map (fun m => (role m, content m)) (messages r.1.1)
     = [("user", "hello"); ("assistant", "Hello!")]
  /\ placeholder_pending r.1.1 = true
  /\ pendingAssistantIndex r.1.1 = Some 1.
Proof. repeat split. Qed.

(** Guest, input "hi", the stream fails at once, the fallback answers. *)
Example guest_run_fallback :
  let reply :=
    [ {| w_role := "user"; w_content := "hi"; w_timestamp := None; w_data := None |};
      {| w_role := "assistant"; w_content := "Hi there."; w_timestamp := None;
         w_data := None |} ] in
  let r := handleGuestSent None "hi" 0
             {| gs_events := []; gs_stream := Threw "Failed to fetch";
                gs_reply := ReplyOk "Hi there." reply |}
             guest_page in
  r.2 = Returned
  /\ messages r.1.1 = map of_wire reply
  /\ pendingAssistantIndex r.1.1 = None
  /\ ignoreFinalGuestSse r.1.1 = true
  /\ length (fetched r.1.2) = 2.
Proof. repeat split. Qed.

(** Authenticated, chat "7", the body delivers "He", "llo", "!" and the
    terminal marker: the placeholder ends as "Hello!", the pending index is
    cleared, the component is idle and the page goes on to refresh chat
    "7". *)
Example auth_run_hello :
  let nl := String LF "" in
  let fr := FetchResolves
              {| res_ok := true; res_status := 200; res_statusText := "OK";
                 res_text := None;
                 res_body := Some (["data: He" +:+ nl +:+ nl +:+ "data: llo" +:+ nl;
                                    nl +:+ "data: !" +:+ nl +:+ nl
                                       +:+ "data: [DONE]" +:+ nl +:+ nl],
                                   EndOfBody) |} in
  let p := with_selectedChatId (Some "7") initial_page in
  let r := MessageInput.handleSend (Some "jwt") None 0 fr None
             {| MessageInput.content := "hello"; MessageInput.sending := false |} p in
  map (fun m => (role m, content m)) (messages r.1.1.2)
  = [("user", "hello"); ("assistant", "Hello!")]
  /\ pendingAssistantIndex r.1.1.2 = None
  /\ r.1.1.1 = {| MessageInput.content := ""; MessageInput.sending := false |}
  /\ r.2 = Some "7"
  /\ map (fun q => header "Authorization" (req_headers q)) (fetched r.1.2)
     = [Some "Bearer jwt"].
Proof. vm_compute. repeat split. Qed.

(** Authenticated, the response is not ok: the input text is restored, the
    error is shown in an alert, and the optimistic entries stay. *)
Example auth_run_failure :
  let fr := FetchResolves
              {| res_ok := false; res_status := 502; res_statusText := "Bad Gateway";
                 res_text := Some ""; res_body := None |} in
  let p := with_selectedChatId (Some "7") initial_page in
  let r := MessageInput.handleSend None None 0 fr None
             {| MessageInput.content := "hello"; MessageInput.sending := false |} p in
  r.1.1.1 = {| MessageInput.content := "hello"; MessageInput.sending := false |}
  /\ alerts r.1.2 = ["Bad Gateway"]
  /\ length (messages r.1.1.2) = 2
  /\ pendingAssistantIndex r.1.1.2 = Some 1.
Proof. vm_compute. repeat split. Qed.

(** ** Sends that overlap in guest mode *)

(** Whatever send is pending on the page, a guest send with non-blank text
    is accepted once the component's flag is down: two more entries, a new
    pending index, one more stream. *)
Lemma guest_send_accepted_while_pending tok nowSec st p :
  truthy (trim (GuestMessageInput.content st)) = true ->
  GuestMessageInput.sending st = false ->
  streaming p = true -> useRag p = false ->
  let r := GuestMessageInput.handleSend tok nowSec st p in
  GuestMessageInput.sending r.1.1.1 = false
  /\ length (messages r.1.1.2) = length (messages p) + 2
  /\ pendingAssistantIndex r.1.1.2 = Some (length (messages p) + 1)
  /\ opens_stream r.1.2 = true.
Proof.
  intros Hc Hs Hst Hr r. subst r.
  unfold GuestMessageInput.handleSend, GuestMessageInput.handleSend_begin.
  rewrite Hc, Hs. cbn [negb orb].
  unfold GuestMessageInput.handleSend_resume.
  assert (Ht : truthy (GuestMessageInput.content st) = true).
  { apply truthy_nonempty. intros E. rewrite E in Hc. discriminate. }
  rewrite (guest_start_streaming tok _ nowSec p Ht Hst Hr).
  cbn [fst snd messages with_ignoreFinalGuestSse with_pendingAssistantIndex
       with_messages pendingAssistantIndex GuestMessageInput.sending].
  rewrite length_app. cbn [length].
  repeat split.
Qed.

(** ** Guest sends driven by the HTTP body *)

(** Chunks, then a snapshot of two messages, then the terminal marker: the
    snapshot's pair takes the place of the optimistic pair. *)
Example guest_http_snapshot :
  let nl := String LF "" in
  let msg (r c : string) :=
    "{" +:+ quoted "role" +:+ ":" +:+ quoted r +:+ ","
        +:+ quoted "content" +:+ ":" +:+ quoted c +:+ ","
        +:+ quoted "timestamp" +:+ ":1700000000}" in
  let snapshot :=
    "{" +:+ quoted "type" +:+ ":" +:+ quoted "messages" +:+ ","
        +:+ quoted "data" +:+ ":[" +:+ msg "user" "hello" +:+ ","
        +:+ msg "assistant" "Hello!" +:+ "]}" in
  let fr := FetchResolves
              {| res_ok := true; res_status := 200; res_statusText := "OK";
                 res_text := None;
                 res_body :=
                   Some (["data: He" +:+ nl +:+ nl; "data: llo" +:+ nl +:+ nl;
                          "data: !" +:+ nl +:+ nl +:+ "data: " +:+ snapshot +:+ nl +:+ nl;
                          "data: [DONE]" +:+ nl +:+ nl], EndOfBody) |} in
  exists r,
    handleGuestSent_http JSON_parse None "hello" 0 fr (ReplyFails "") guest_page
    = Some r
    /\ r.2 = Returned
    /\ map (fun m => (role m, content m, placeholder m)) (messages r.1.1)
       = [("user", "hello", false); ("assistant", "Hello!", false)]
    /\ pendingAssistantIndex r.1.1 = None.
Proof. eexists. split; [vm_compute; reflexivity |]. repeat split. Qed.

(** A streamed answer whose middle token is the text [3]: that payload is
    valid JSON, reaches no callback, and is missing from the placeholder. *)
Example guest_http_number_token_lost :
  let nl := String LF "" in
  let fr := FetchResolves
              {| res_ok := true; res_status := 200; res_statusText := "OK";
                 res_text := None;
                 res_body :=
                   Some (["data: I have " +:+ nl +:+ nl; "data: 3" +:+ nl +:+ nl;
                          "data:  apples" +:+ nl +:+ nl;
                          "data: [DONE]" +:+ nl +:+ nl], EndOfBody) |} in
  exists r,
    handleGuestSent_http JSON_parse None "how many?" 0 fr (ReplyFails "") guest_page
    = Some r
    /\ map (fun m => (role m, content m)) (messages r.1.1)
       = [("user", "how many?"); ("assistant", "I have  apples")].
Proof. eexists. split; [vm_compute; reflexivity |]. reflexivity. Qed.

(** *** The snapshot callback and the [catch] clause

    [handleGuestSent_http] decodes the stream with a callback that returns.
    This loses nothing: for any callback that returns on arrays of messages,
    the events the page receives and the way the stream ends are the same,
    and a stream with a snapshot of another shape is outside
    [handleGuestSent_http] for every callback. *)

Lemma page_events_app (A B : list StreamEvent) :
  mapM page_event (A ++ B)
  = a ← mapM page_event A; b ← mapM page_event B; Some (a ++ b).
Proof.
  induction A as [|x A IH]; cbn [app mapM].
  - cbn. now destruct (mapM page_event B).
  - rewrite IH. destruct (page_event x); cbn; [|reflexivity].
    destruct (mapM page_event A); cbn; [|reflexivity].
    now destruct (mapM page_event B).
Qed.

Section Oracle.

Variable parse : string -> option Json.
Variable throws : option Json -> bool.
Hypothesis typed_returns :
  forall js upd, mapM wire_of_json js = Some upd -> throws (Some (JArr js)) = false.

Lemma guest_payload_oracle (payload : string) :
  mapM page_event (guest_payload parse true true throws payload)
  = mapM page_event (guest_payload parse true true never_throws payload).
Proof.
  unfold guest_payload.
  destruct (parse payload) as [[| | | | |ms]|]; try reflexivity.
  destruct (get_member "type" ms) as [[| | |t| |]|]; try reflexivity.
  destruct (String.eqb t "messages" && true); [|reflexivity].
  cbv zeta. unfold never_throws.
  destruct (throws (get_member "data" ms)) eqn:E; [|reflexivity].
  cbn [mapM].
  destruct (get_member "data" ms) as [[| | | |js|]|]; try reflexivity.
  cbn [page_event].
  destruct (mapM wire_of_json js) as [upd|] eqn:Eu; [|reflexivity].
  rewrite (typed_returns js upd Eu) in E. discriminate.
Qed.

Lemma decode_lines_oracle (lines : list string) :
  let r := decode_lines (guest_payload parse true true throws) lines in
  let r' := decode_lines (guest_payload parse true true never_throws) lines in
  mapM page_event r.1 = mapM page_event r'.1 /\ r.2 = r'.2.
Proof.
  induction lines as [|line rest IH]; [now split |].
  cbn [decode_lines]. unfold decode_line.
  destruct (startsWith line "data: ").
  - destruct (String.eqb (slice_from 6 line) "[DONE]"); [now split |].
    cbv zeta in IH.
    destruct (decode_lines (guest_payload parse true true throws) rest)
      as [evs stop].
    destruct (decode_lines (guest_payload parse true true never_throws) rest)
      as [evs' stop'].
    cbn [fst snd] in *. destruct IH as [IH1 IH2]. split; [|exact IH2].
    now rewrite !page_events_app, guest_payload_oracle, IH1.
  - cbv zeta in IH.
    destruct (decode_lines (guest_payload parse true true throws) rest)
      as [evs stop].
    destruct (decode_lines (guest_payload parse true true never_throws) rest)
      as [evs' stop'].
    exact IH.
Qed.

Lemma read_loop_oracle (reads : list string) (ending : BodyEnd) :
  forall buf,
    let r := read_loop (guest_payload parse true true throws) buf reads ending in
    let r' := read_loop (guest_payload parse true true never_throws) buf reads
                ending in
    mapM page_event r.1 = mapM page_event r'.1 /\ r.2 = r'.2.
Proof.
  induction reads as [|value rest IH]; intros buf.
  - cbn [read_loop]. now destruct ending.
  - cbn [read_loop]. cbv zeta.
    pose proof (decode_lines_oracle
                  (removelast (split_lines (buf +:+ value)))) as H.
    cbv zeta in H.
    destruct (decode_lines (guest_payload parse true true throws) _)
      as [evs stop].
    destruct (decode_lines (guest_payload parse true true never_throws) _)
      as [evs' stop'].
    cbn [fst snd] in H. destruct H as [H1 <-].
    destruct stop; [now split |].
    specialize (IH (or_empty (last (split_lines (buf +:+ value))))).
    cbv zeta in IH.
    destruct (read_loop (guest_payload parse true true throws) _ rest ending)
      as [evs1 c1].
    destruct (read_loop (guest_payload parse true true never_throws) _ rest ending)
      as [evs1' c1'].
    cbn [fst snd] in *. destruct IH as [IH1 IH2]. split; [|exact IH2].
    now rewrite !page_events_app, H1, IH1.
Qed.

(** Whatever the callback does on values that are not arrays of messages,
    the stream hands the page the same events and ends the same way. *)
Lemma guestChatStream_oracle (fr : FetchResult) :
  let r := guestChatStream parse true true throws fr in
  let r' := guestChatStream parse true true never_throws fr in
  mapM page_event r.1 = mapM page_event r'.1 /\ r.2 = r'.2.
Proof.
  unfold guestChatStream, consume.
  destruct fr as [e|res]; [now split |].
  destruct (res_ok res); [|now split].
  destruct (res_body res) as [[reads ending]|]; [|now split].
  apply read_loop_oracle.
Qed.

End Oracle.

(** A response that is not ok: [guestChatStream] logs the status and the
    body text and throws, the handler logs the error and falls back to
    [guestChat]. *)
Example guest_http_not_ok :
  let fr := FetchResolves
              {| res_ok := false; res_status := 502;
                 res_statusText := "Bad Gateway";
                 res_text := Some "upstream down"; res_body := None |} in
  exists r,
    handleGuestSent_http JSON_parse None "hello" 0 fr
      (ReplyOk "ok" [{| w_role := "user"; w_content := "hello";
                        w_timestamp := None; w_data := None |};
                     {| w_role := "assistant"; w_content := "Hello!";
                        w_timestamp := None; w_data := None |}])
      guest_page
    = Some r
    /\ r.2 = Returned
    /\ map (fun e => match e with
                     | Fetch q => req_path q
                     | Alert m => m
                     | ConsoleError m => m
                     end) r.1.2
       = ["/api/chats/guest/stream";
          "Guest streaming API error: 502 upstream down";
          "Guest streaming error: upstream down";
          "/api/chats/guest/chat"]
    /\ map (fun m => (role m, content m)) (messages r.1.1)
       = [("user", "hello"); ("assistant", "Hello!")].
Proof. eexists. split; [vm_compute; reflexivity |]. repeat split. Qed.

(* ================================================================== *)
(** * Part III. Further properties of the code *)
(* ================================================================== *)

(** ** Splitting a text into lines *)

Lemma startsWith_LF (r : string) :
  startsWith r (String LF "") = true <-> exists r', r = String LF r'.
Proof.
  unfold startsWith. destruct r as [|c r']; cbn [String.prefix].
  - split; [discriminate | intros [? ?]; discriminate].
  - destruct (ascii_dec LF c) as [<-|Hne].
    + split; [eauto | intros _; destruct r'; reflexivity].
    + split; [discriminate | intros [r'' [= -> ->]]; contradiction].
Qed.

Lemma startsWith_app_cons (d : ascii) (r y : string) :
  startsWith (String d r +:+ y) (String LF "")
  = startsWith (String d r) (String LF "").
Proof.
  unfold startsWith. rewrite str_app_cons. cbn [String.prefix].
  destruct (ascii_dec LF d); [|reflexivity].
  destruct r, y; reflexivity.
Qed.

Lemma split_lines_cons (c : ascii) (r : string) :
  split_lines (String c r)
  = if Ascii.eqb c LF then EmptyString :: split_lines r
    else if Ascii.eqb c CR && startsWith r (String LF EmptyString)
         then split_lines r
         else match split_lines r with
              | l :: ls => String c l :: ls
              | [] => [String c EmptyString]
              end.
Proof. reflexivity. Qed.

Lemma split_lines_nonempty (s : string) : split_lines s <> [].
Proof.
  induction s as [|c r IH]; [discriminate |].
  rewrite split_lines_cons.
  destruct (Ascii.eqb c LF); [discriminate |].
  destruct (_ && _); [exact IH |].
  destruct (split_lines r); discriminate.
Qed.

Lemma split_lines_LF (r : string) :
  split_lines (String LF r) = "" :: split_lines r.
Proof. reflexivity. Qed.

(** A text that gives a single piece is that piece. *)
Lemma split_lines_single (s l : string) : split_lines s = [l] -> l = s.
Proof.
  revert l. induction s as [|c r IH]; intros l.
  - intros [= <-]. reflexivity.
  - rewrite split_lines_cons.
    destruct (Ascii.eqb c LF).
    { intros H. injection H as _ H. now apply split_lines_nonempty in H. }
    destruct (Ascii.eqb c CR && startsWith r (String LF "")) eqn:E.
    { apply andb_true_iff in E. destruct E as [_ E].
      apply startsWith_LF in E. destruct E as [r' ->].
      rewrite split_lines_LF. intros H. injection H as _ H.
      now apply split_lines_nonempty in H. }
    destruct (split_lines r) as [|l' ls] eqn:Er.
    { now apply split_lines_nonempty in Er. }
    intros H. injection H as <- ->. f_equal. now apply IH.
Qed.

(** Splitting [x + y]: the pieces of [x] but the last, then the pieces of
    the last piece of [x] followed by [y].  This is the step of the read
    loops: [buf += value; lines = buf.split(...); buf = lines.pop()]. *)
Lemma split_lines_app (x y : string) :
  split_lines (x +:+ y)
  = removelast (split_lines x)
    ++ split_lines (or_empty (last (split_lines x)) +:+ y).
Proof.
  induction x as [|c r IH]; [reflexivity |].
  destruct r as [|d r'].
  { change (String c "" +:+ y) with (String c y).
    rewrite (split_lines_cons c "").
    destruct (Ascii.eqb c LF) eqn:Elf.
    - apply Ascii.eqb_eq in Elf. subst c. reflexivity.
    - replace (Ascii.eqb c CR && startsWith "" (String LF "")) with false
        by (destruct (Ascii.eqb c CR); reflexivity).
      reflexivity. }
  set (r := String d r') in *.
  change (String c r +:+ y) with (String c (r +:+ y)).
  rewrite (split_lines_cons c r), (split_lines_cons c (r +:+ y)).
  destruct (Ascii.eqb c LF) eqn:Elf.
  { rewrite IH. destruct (split_lines r) as [|l ls] eqn:Er.
    - now apply split_lines_nonempty in Er.
    - reflexivity. }
  replace (startsWith (r +:+ y) (String LF ""))
    with (startsWith r (String LF ""))
    by (symmetry; apply (startsWith_app_cons d r' y)).
  destruct (Ascii.eqb c CR && startsWith r (String LF "")) eqn:E.
  { exact IH. }
  destruct (split_lines r) as [|l ls] eqn:Er.
  { now apply split_lines_nonempty in Er. }
  destruct ls as [|l2 ls'].
  - pose proof (split_lines_single _ _ Er) as ->.
    cbn [removelast last or_empty default app].
    change (id (String c r) +:+ y) with (String c (r +:+ y)).
    rewrite (split_lines_cons c (r +:+ y)), Elf.
    replace (startsWith (r +:+ y) (String LF ""))
      with (startsWith r (String LF ""))
      by (symmetry; apply (startsWith_app_cons d r' y)).
    rewrite E. reflexivity.
  - rewrite IH. reflexivity.
Qed.

(** A piece holds no separator. *)
Lemma split_lines_pieces (s l : string) :
  l ∈ split_lines s -> split_lines l = [l].
Proof.
  revert l. induction s as [|c r IH]; intros l.
  - intros H. apply list_elem_of_singleton in H. subst. reflexivity.
  - rewrite split_lines_cons.
    destruct (Ascii.eqb c LF) eqn:Elf.
    { intros H. apply elem_of_cons in H.
      destruct H as [->|H]; [reflexivity | auto]. }
    destruct (Ascii.eqb c CR && startsWith r (String LF "")) eqn:E; [auto |].
    destruct (split_lines r) as [|l1 ls] eqn:Er.
    { now apply split_lines_nonempty in Er. }
    intros H. apply elem_of_cons in H. destruct H as [->|H].
    + rewrite split_lines_cons, Elf.
      assert (H1 : split_lines l1 = [l1]) by (apply IH; left).
      rewrite H1.
      destruct (Ascii.eqb c CR && startsWith l1 (String LF "")) eqn:E1;
        [|reflexivity].
      apply andb_true_iff in E1. destruct E1 as [_ E1].
      apply startsWith_LF in E1. destruct E1 as [r' ->].
      rewrite split_lines_LF in H1. injection H1 as _ H1.
      now apply split_lines_nonempty in H1.
    + apply IH. right. exact H.
Qed.

Lemma split_lines_no_LF (s : string) :
  includes_LF s = false -> split_lines s = [s].
Proof.
  induction s as [|c r IH]; [reflexivity |].
  cbn [includes_LF]. intros H. apply orb_false_iff in H. destruct H as [Hc Hr].
  rewrite split_lines_cons, Hc, (IH Hr).
  destruct (Ascii.eqb c CR && startsWith r (String LF "")) eqn:E; [|reflexivity].
  apply andb_true_iff in E. destruct E as [_ E].
  apply startsWith_LF in E. destruct E as [r' ->].
  cbn [includes_LF] in Hr. rewrite Ascii.eqb_refl in Hr. discriminate.
Qed.

Lemma split_lines_no_break (l y : string) :
  includes_break l = false ->
  split_lines (l +:+ String LF y) = l :: split_lines y.
Proof.
  induction l as [|c r IH]; [reflexivity |].
  cbn [includes_break]. intros H.
  apply orb_false_iff in H. destruct H as [H Hr].
  apply orb_false_iff in H. destruct H as [Hlf Hcr].
  rewrite str_app_cons, split_lines_cons, Hlf, Hcr, (IH Hr). reflexivity.
Qed.

(** After a line feed the buffer of the read loop is empty. *)
Lemma last_split_LF (x : string) :
  last (split_lines (x +:+ String LF "")) = Some "".
Proof.
  induction x as [|c r IH]; [reflexivity |].
  rewrite str_app_cons, split_lines_cons.
  destruct (Ascii.eqb c LF).
  { destruct (split_lines (r +:+ String LF "")) eqn:E; [|exact IH].
    now apply split_lines_nonempty in E. }
  destruct (_ && _); [exact IH |].
  destruct (split_lines (r +:+ String LF "")) as [|l ls] eqn:E.
  { now apply split_lines_nonempty in E. }
  destruct ls as [|l2 ls']; [|exact IH].
  apply split_lines_single in E. injection IH as ->.
  destruct r; discriminate.
Qed.

Lemma split_lines_after_LF (p y : string) :
  split_lines ((p +:+ String LF "") +:+ y)
  = removelast (split_lines (p +:+ String LF "")) ++ split_lines y.
Proof. now rewrite split_lines_app, last_split_LF. Qed.

Lemma str_app_LF (p y : string) :
  p +:+ String LF y = (p +:+ String LF "") +:+ y.
Proof. now rewrite str_app_assoc. Qed.

Lemma split_lines_marker (y : string) :
  split_lines ("data: [DONE]" +:+ String LF y) = "data: [DONE]" :: split_lines y.
Proof. now apply split_lines_no_break. Qed.

Lemma removelast_cons_pieces (l : string) (s : string) :
  removelast (l :: split_lines s) = l :: removelast (split_lines s).
Proof.
  destruct (split_lines s) eqn:E; [|reflexivity].
  now apply split_lines_nonempty in E.
Qed.

(** ** The read loop and the cutting of the body into reads *)

Section Decoder.
Variable f : string -> list StreamEvent.

Lemma decode_lines_app (a b : list string) :
  decode_lines f (a ++ b)
  = let '(e1, s1) := decode_lines f a in
    if s1 then (e1, true)
    else let '(e2, s2) := decode_lines f b in (e1 ++ e2, s2).
Proof.
  induction a as [|l a IH]; cbn [app decode_lines].
  - destruct (decode_lines f b) as [e2 s2]. reflexivity.
  - destruct (decode_line f l) as [evs|]; [|reflexivity].
    rewrite IH. destruct (decode_lines f a) as [e1 s1].
    destruct s1; [reflexivity |].
    destruct (decode_lines f b) as [e2 s2].
    now rewrite app_assoc.
Qed.

Lemma decode_lines_marker (rest : list string) :
  decode_lines f ("data: [DONE]" :: rest) = ([], true).
Proof. reflexivity. Qed.

Lemma decode_lines_other (l : string) (rest : list string) :
  startsWith l "data: " = false ->
  decode_lines f (l :: rest) = decode_lines f rest.
Proof.
  intros H. cbn [decode_lines]. rewrite (decode_other_line f l H).
  now destruct (decode_lines f rest).
Qed.

(** What stays in [buf] is a single piece. *)
Lemma last_piece_whole (s : string) :
  split_lines (or_empty (last (split_lines s)))
  = [or_empty (last (split_lines s))].
Proof.
  destruct (last (split_lines s)) as [l|] eqn:E; [|reflexivity].
  apply (split_lines_pieces s). apply last_Some_elem_of, E.
Qed.

Lemma removelast_app_pieces (a : list string) (s : string) :
  removelast (a ++ split_lines s) = a ++ removelast (split_lines s).
Proof. apply removelast_app, split_lines_nonempty. Qed.

(** One read of the text [v], with [buf] left by the reads before. *)
Lemma read_loop_one (buf v : string) (ending : BodyEnd) :
  read_loop f buf [v] ending
  = let '(evs, stop) :=
      decode_lines f (removelast (split_lines (buf +:+ v))) in
    if stop then (evs, Returned) else (evs, end_completion ending).
Proof.
  cbn [read_loop].
  destruct (decode_lines f _) as [evs stop].
  destruct stop; [reflexivity |].
  destruct ending; now rewrite app_nil_r.
Qed.

Lemma read_loop_join_from (reads : list string) :
  forall (buf : string) (ending : BodyEnd),
    split_lines buf = [buf] ->
    read_loop f buf reads ending = read_loop f buf [join reads] ending.
Proof.
  induction reads as [|v rest IH]; intros buf ending Hbuf.
  - rewrite read_loop_one. change (join []) with "".
    rewrite str_app_nil_r, Hbuf. destruct ending; reflexivity.
  - rewrite read_loop_one, join_cons, <- str_app_assoc.
    rewrite (split_lines_app (buf +:+ v) (join rest)).
    rewrite removelast_app_pieces, decode_lines_app.
    cbn [read_loop].
    destruct (decode_lines f (removelast (split_lines (buf +:+ v))))
      as [e1 s1].
    destruct s1; [reflexivity |].
    rewrite IH by apply last_piece_whole.
    rewrite read_loop_one.
    destruct (decode_lines f _) as [e2 s2].
    destruct s2; reflexivity.
Qed.

Lemma read_loop_join (reads : list string) (ending : BodyEnd) :
  read_loop f "" reads ending = read_loop f "" [join reads] ending.
Proof. now apply read_loop_join_from. Qed.
End Decoder.

(** X1. The read loop of [streamMessage] and of [guestChatStream] does not
    depend on how the network cuts the body into reads: any sequence of reads
    gives the events and the completion of the single read of their
    concatenation (lines cut in the middle, a CR and its LF in different
    reads, empty reads and no read at all included). *)
Theorem X1_read_chunking_irrelevant
    (f : string -> list StreamEvent) (reads : list string) (ending : BodyEnd) :
  read_loop f "" reads ending = read_loop f "" [join reads] ending.
Proof. apply read_loop_join. Qed.

(** X2. A last line that is not closed by a line feed is never decoded: a
    body [p + LF + tail] whose [tail] holds no line feed gives exactly what
    the body [p + LF] gives, however it is cut into reads.  The text left in
    [buf] when the reader reports [done] is dropped. *)
Theorem X2_unterminated_line_never_decoded
    (f : string -> list StreamEvent) (p tail : string) (reads : list string)
    (ending : BodyEnd) :
  includes_LF tail = false ->
  join reads = p +:+ String LF tail ->
  read_loop f "" reads ending = read_loop f "" [p +:+ String LF ""] ending.
Proof.
  intros Htail Hbody.
  rewrite read_loop_join, Hbody, !read_loop_one.
  change ("" +:+ ?s) with s.
  rewrite str_app_LF, split_lines_after_LF, (split_lines_no_LF _ Htail).
  rewrite removelast_app by discriminate.
  cbn [removelast]. now rewrite app_nil_r.
Qed.

Lemma X2_unterminated_line_never_decoded_witness :
  read_loop (stream_payload true) ""
    ["data: a" +:+ String LF "da"; "ta: b"] EndOfBody
  = read_loop (stream_payload true) "" ["data: a" +:+ String LF ""] EndOfBody
  /\ read_loop (stream_payload true) ""
       ["data: a" +:+ String LF "da"; "ta: b"] EndOfBody
     = ([TextChunk "a"], Returned).
Proof.
  split; [|reflexivity].
  exact (X2_unterminated_line_never_decoded (stream_payload true)
           "data: a" "data: b" ["data: a" +:+ String LF "da"; "ta: b"]
           EndOfBody eq_refl eq_refl).
Defined.

(** X3. Nothing is delivered after the terminal marker: when the body holds
    the line [data: [DONE]] after [p + LF], the stream function delivers the
    events of [p + LF] and returns normally, whatever follows the marker and
    however the body ends (a later read failure is never seen). *)
Theorem X3_nothing_after_terminal_marker
    (f : string -> list StreamEvent) (p y : string) (reads : list string)
    (ending : BodyEnd) :
  join reads = p +:+ String LF ("data: [DONE]" +:+ String LF y) ->
  read_loop f "" reads ending
  = (fst (read_loop f "" [p +:+ String LF ""] EndOfBody), Returned).
Proof.
  intros Hbody.
  rewrite read_loop_join, Hbody, !read_loop_one.
  change ("" +:+ ?s) with s.
  rewrite str_app_LF, split_lines_after_LF, split_lines_marker.
  rewrite removelast_app by discriminate.
  rewrite removelast_cons_pieces, decode_lines_app, decode_lines_marker.
  destruct (decode_lines f _) as [e1 s1].
  destruct s1; cbn [fst]; now rewrite ?app_nil_r.
Qed.

Lemma X3_nothing_after_terminal_marker_witness :
  read_loop (stream_payload true) ""
    ["data: a" +:+ String LF "data: [DO";
     "NE]" +:+ String LF ("data: late" +:+ String LF "")]
    (ReadFails "reset")
  = ([TextChunk "a"], Returned).
Proof.
  exact (X3_nothing_after_terminal_marker (stream_payload true)
           "data: a" ("data: late" +:+ String LF "")
           ["data: a" +:+ String LF "data: [DO";
            "NE]" +:+ String LF ("data: late" +:+ String LF "")]
           (ReadFails "reset") eq_refl).
Defined.

(** X4. A complete line that does not start with [data: ] (a blank line, a
    comment, an [event:] or [id:] field) changes nothing: a body with such a
    line gives what the body without it gives, however each of them is cut
    into reads. *)
Theorem X4_other_lines_ignored
    (f : string -> list StreamEvent) (p l y : string)
    (reads reads' : list string) (ending : BodyEnd) :
  includes_break l = false ->
  startsWith l "data: " = false ->
  join reads = p +:+ String LF (l +:+ String LF y) ->
  join reads' = p +:+ String LF y ->
  read_loop f "" reads ending = read_loop f "" reads' ending.
Proof.
  intros Hl Hdata Hbody Hbody'.
  rewrite (read_loop_join f reads), (read_loop_join f reads'), Hbody, Hbody'.
  rewrite !read_loop_one.
  change ("" +:+ ?s) with s.
  rewrite (str_app_LF p y), str_app_LF, !split_lines_after_LF.
  rewrite (split_lines_no_break _ _ Hl).
  rewrite removelast_app by discriminate.
  rewrite removelast_cons_pieces, removelast_app_pieces, !decode_lines_app.
  rewrite (decode_lines_other f l _ Hdata). reflexivity.
Qed.

Lemma X4_other_lines_ignored_witness :
  read_loop (stream_payload true) ""
    ["data: a" +:+ String LF ": keep"; "-alive" +:+ String LF "data: b";
     String LF ""] EndOfBody
  = read_loop (stream_payload true) ""
      ["data: a" +:+ String LF ("data: b" +:+ String LF "")] EndOfBody.
Proof.
  exact (X4_other_lines_ignored (stream_payload true) "data: a" ": keep-alive"
           ("data: b" +:+ String LF "")
           ["data: a" +:+ String LF ": keep"; "-alive" +:+ String LF "data: b";
            String LF ""]
           ["data: a" +:+ String LF ("data: b" +:+ String LF "")]
           EndOfBody eq_refl eq_refl eq_refl eq_refl).
Defined.

Lemma split_lines_CRLF (l y : string) :
  includes_break l = false ->
  split_lines (l +:+ String CR (String LF y)) = l :: split_lines y.
Proof.
  induction l as [|c r IH].
  - intros _. change ("" +:+ ?s) with s.
    rewrite split_lines_cons.
    replace (startsWith (String LF y) (String LF "")) with true
      by (symmetry; apply startsWith_LF; eauto).
    reflexivity.
  - cbn [includes_break]. intros H.
    apply orb_false_iff in H. destruct H as [H Hr].
    apply orb_false_iff in H. destruct H as [Hlf Hcr].
    rewrite str_app_cons, split_lines_cons, Hlf, Hcr, (IH Hr). reflexivity.
Qed.

(** X5. A CR right before the LF belongs to the line end: a body in which
    a line is closed by CR LF gives what the body with that line closed by
    LF gives, however each of them is cut into reads (the CR and the LF may
    come in different reads). *)
Theorem X5_crlf_line_ends
    (f : string -> list StreamEvent) (p l y : string)
    (reads reads' : list string) (ending : BodyEnd) :
  includes_break l = false ->
  join reads = p +:+ String LF (l +:+ String CR (String LF y)) ->
  join reads' = p +:+ String LF (l +:+ String LF y) ->
  read_loop f "" reads ending = read_loop f "" reads' ending.
Proof.
  intros Hl Hbody Hbody'.
  rewrite (read_loop_join f reads), (read_loop_join f reads'), Hbody, Hbody'.
  rewrite !read_loop_one.
  change ("" +:+ ?s) with s.
  rewrite (str_app_LF p (l +:+ String LF y)), str_app_LF.
  rewrite !split_lines_after_LF.
  now rewrite (split_lines_CRLF _ _ Hl), (split_lines_no_break _ _ Hl).
Qed.

Lemma X5_crlf_line_ends_witness :
  read_loop (stream_payload true) ""
    ["data: a" +:+ String LF ("data: b" +:+ String CR "");
     String LF ("data: c" +:+ String LF "")] EndOfBody
  = read_loop (stream_payload true) ""
      ["data: a" +:+ String LF ("data: b" +:+ String LF
         ("data: c" +:+ String LF ""))] EndOfBody.
Proof.
  exact (X5_crlf_line_ends (stream_payload true) "data: a" "data: b"
           ("data: c" +:+ String LF "")
           ["data: a" +:+ String LF ("data: b" +:+ String CR "");
            String LF ("data: c" +:+ String LF "")]
           ["data: a" +:+ String LF ("data: b" +:+ String LF
              ("data: c" +:+ String LF ""))]
           EndOfBody eq_refl eq_refl eq_refl).
Defined.

(** ** Bodies made of well-formed events *)

Lemma includes_break_data (payload : string) :
  includes_break ("data: " +:+ payload) = includes_break payload.
Proof. reflexivity. Qed.

Lemma sse_event_app (payload rest : string) :
  sse_event payload +:+ rest
  = ("data: " +:+ payload) +:+ String LF (String LF rest).
Proof. unfold sse_event. now rewrite !str_app_assoc. Qed.

Lemma payload_ok_inv (payload : string) :
  payload_ok payload = true ->
  includes_break payload = false /\ String.eqb payload "[DONE]" = false.
Proof.
  unfold payload_ok. intros H. apply andb_true_iff in H.
  destruct H as [H1 H2]. split; now apply negb_true_iff.
Qed.

(** The lines of a body of events followed by [rest]. *)
Lemma split_lines_sse_body (payloads : list string) (rest : string) :
  forallb payload_ok payloads = true ->
  split_lines (sse_body payloads +:+ rest)
  = flat_map (fun payload => ["data: " +:+ payload; ""]) payloads
    ++ split_lines rest.
Proof.
  induction payloads as [|x xs IH]; [reflexivity |].
  cbn [forallb]. intros H. apply andb_true_iff in H. destruct H as [Hx Hxs].
  apply payload_ok_inv in Hx. destruct Hx as [Hb _].
  unfold sse_body. cbn [map]. rewrite join_cons. fold (sse_body xs).
  rewrite str_app_assoc, sse_event_app.
  rewrite split_lines_no_break by (now rewrite includes_break_data).
  rewrite split_lines_LF, (IH Hxs). reflexivity.
Qed.

Lemma decode_lines_sse (f : string -> list StreamEvent) (payloads : list string)
    (rest : list string) :
  forallb payload_ok payloads = true ->
  decode_lines f
    (flat_map (fun payload => ["data: " +:+ payload; ""]) payloads ++ rest)
  = let '(evs, stop) := decode_lines f rest in
    (flat_map f payloads ++ evs, stop).
Proof.
  induction payloads as [|x xs IH].
  - intros _. cbn [flat_map app]. now destruct (decode_lines f rest).
  - cbn [forallb]. intros H. apply andb_true_iff in H. destruct H as [Hx Hxs].
    apply payload_ok_inv in Hx. destruct Hx as [_ Hm].
    cbn [flat_map app decode_lines].
    rewrite decode_data_line, Hm.
    change (decode_line f "") with (Some (@nil StreamEvent)).
    rewrite (IH Hxs). destruct (decode_lines f rest) as [evs stop].
    cbn [app]. now rewrite app_assoc.
Qed.

Lemma read_loop_sse_body
    (f : string -> list StreamEvent) (payloads reads : list string)
    (ending : BodyEnd) :
  forallb payload_ok payloads = true ->
  (join reads = sse_body payloads ->
   read_loop f "" reads ending = (flat_map f payloads, end_completion ending))
  /\ (forall rest,
        join reads = sse_body payloads +:+ sse_event "[DONE]" +:+ rest ->
        read_loop f "" reads ending = (flat_map f payloads, Returned)).
Proof.
  intros Hok. split.
  - intros Hbody. rewrite read_loop_join, Hbody, read_loop_one.
    change ("" +:+ ?s) with s.
    rewrite <- (str_app_nil_r (sse_body payloads)).
    rewrite (split_lines_sse_body _ _ Hok).
    change (split_lines "") with [""].
    rewrite removelast_app by discriminate. cbn [removelast].
    rewrite (decode_lines_sse f _ _ Hok). cbn [decode_lines].
    now rewrite app_nil_r.
  - intros rest Hbody. rewrite read_loop_join, Hbody, read_loop_one.
    change ("" +:+ ?s) with s.
    rewrite (split_lines_sse_body _ _ Hok), sse_event_app.
    rewrite split_lines_marker.
    rewrite removelast_app by discriminate.
    rewrite removelast_cons_pieces.
    rewrite (decode_lines_sse f _ _ Hok), decode_lines_marker.
    now rewrite app_nil_r.
Qed.

Lemma guest_payload_chunks parse throws (chunks : list string) :
  forallb (unparsed parse) chunks = true ->
  flat_map (guest_payload parse true true throws) chunks = map TextChunk chunks.
Proof.
  induction chunks as [|c cs IH]; [reflexivity |].
  cbn [forallb]. intros H. apply andb_true_iff in H. destruct H as [Hc Hcs].
  cbn [flat_map map]. rewrite (IH Hcs).
  unfold guest_payload, unparsed in *.
  destruct (parse c); [discriminate | reflexivity].
Qed.

Lemma stream_payload_chunks (payloads : list string) :
  flat_map (stream_payload true) payloads = map TextChunk payloads.
Proof. induction payloads as [|x xs IH]; [reflexivity |]. cbn. now rewrite IH. Qed.

(** X6. A response that is ok and whose body is made of one event
    [data: <payload>], blank line, for each payload (none of them holding a
    line break or being the marker), whatever the reads.  [streamMessage]
    hands every payload to [onChunk], once and in order.
    [guestChatStream] classifies every payload, once and in order: the
    payloads on which [JSON.parse] throws go to [onChunk], and a payload
    that parses to anything but [null] or an object tagged ["messages"]
    reaches no callback.  Without the terminal marker both functions finish
    as the body ends (they return at [done], they throw when a read fails);
    with the event [data: [DONE]] after the payloads they return, whatever
    comes after. *)
Theorem X6_well_formed_body_delivered
    (parse : string -> option Json) (throws : option Json -> bool)
    (payloads reads : list string) (ending : BodyEnd)
    (status : N) (statusText : string) (body_text : option string) :
  forallb payload_ok payloads = true ->
  let fr :=
    FetchResolves {| res_ok := true; res_status := status;
                     res_statusText := statusText; res_text := body_text;
                     res_body := Some (reads, ending) |} in
  let classified := flat_map (guest_payload parse true true throws) payloads in
  (join reads = sse_body payloads ->
   streamMessage true fr = (map TextChunk payloads, end_completion ending)
   /\ guestChatStream parse true true throws fr
      = (classified, end_completion ending))
  /\ (forall rest,
        join reads = sse_body payloads +:+ sse_event "[DONE]" +:+ rest ->
        streamMessage true fr = (map TextChunk payloads, Returned)
        /\ guestChatStream parse true true throws fr = (classified, Returned))
  /\ (forallb (unparsed parse) payloads = true ->
      classified = map TextChunk payloads)
  /\ (forall payload v,
        parse payload = Some v ->
        v <> JNull ->
        (forall ms, v = JObj ms ->
                    get_member "type" ms <> Some (JStr "messages")) ->
        guest_payload parse true true throws payload = []).
Proof.
  intros Hok fr classified.
  unfold streamMessage, guestChatStream, consume, fr.
  cbn [res_ok res_body].
  destruct (read_loop_sse_body (stream_payload true) payloads reads ending Hok)
    as [Hs1 Hs2].
  destruct (read_loop_sse_body (guest_payload parse true true throws)
              payloads reads ending Hok) as [Hg1 Hg2].
  rewrite stream_payload_chunks in Hs1, Hs2.
  split; [intros Hbody; split; [now apply Hs1 | now apply Hg1] |].
  split; [intros rest Hbody; split; [now apply (Hs2 rest) | now apply (Hg2 rest)] |].
  split; [apply guest_payload_chunks |].
  intros payload v. apply guest_payload_silent.
Qed.

Lemma X6_well_formed_body_delivered_witness :
  let cut := ["data: He" +:+ String LF ""; String LF "data: l";
              "lo" +:+ String LF (String LF "")] in
  let counted := [sse_event "I have "; sse_event "3"; sse_event " apples"] in
  let response body :=
    FetchResolves {| res_ok := true; res_status := 200; res_statusText := "OK";
                     res_text := None; res_body := Some body |} in
  streamMessage true (response (cut, ReadFails "reset"))
  = ([TextChunk "He"; TextChunk "llo"], Threw "reset")
  /\ guestChatStream JSON_parse true true never_throws
       (response (cut, ReadFails "reset"))
     = ([TextChunk "He"; TextChunk "llo"], Threw "reset")
  /\ streamMessage true (response (counted, EndOfBody))
     = ([TextChunk "I have "; TextChunk "3"; TextChunk " apples"], Returned)
  /\ guestChatStream JSON_parse true true never_throws
       (response (counted, EndOfBody))
     = ([TextChunk "I have "; TextChunk " apples"], Returned).
Proof.
  destruct (proj1 (X6_well_formed_body_delivered JSON_parse never_throws
                     ["He"; "llo"]
                     ["data: He" +:+ String LF ""; String LF "data: l";
                      "lo" +:+ String LF (String LF "")]
                     (ReadFails "reset") 200 "OK" None eq_refl) eq_refl)
    as [H1 H2].
  destruct (proj1 (X6_well_formed_body_delivered JSON_parse never_throws
                     ["I have "; "3"; " apples"]
                     [sse_event "I have "; sse_event "3"; sse_event " apples"]
                     EndOfBody 200 "OK" None eq_refl) eq_refl)
    as [H3 H4].
  split; [exact H1 |]. split; [exact H2 |]. split; [exact H3 | exact H4].
Defined.

(** ** Authenticated sends, from the click to the refresh *)

Lemma trim_truthy (s : string) : truthy (trim s) = true -> truthy s = true.
Proof.
  intros H. apply truthy_nonempty. intros E. rewrite E in H. discriminate.
Qed.

Lemma with_selectedChatId_same (p : Page) :
  with_selectedChatId (selectedChatId p) p = p.
Proof. now destruct p. Qed.

(** The page after [on:streamstart] and the [on:stream] events of the
    chunks. *)
Lemma auth_stream_delivered text target nowSec p chunks :
  truthy text = true ->
  truthy target = true ->
  selectedChatId p = Some target ->
  let p1 := on_streamstart text (Some target) nowSec p in
  deliver (MessageInput.stream_callback target) (map TextChunk chunks) ("", p1)
  = Next (join chunks,
          with_messages
            (messages p ++ [user_entry text nowSec None;
                            set_content (join chunks) (assistant_entry false None)])
            p1).
Proof.
  intros Ht Hg Hsel p1. subst p1.
  rewrite (on_streamstart_value text target nowSec p Ht Hg).
  rewrite bool_decide_eq_true_2 by exact Hsel.
  rewrite (auth_chunks_deliver target chunks "" _ (length (messages p) + 1)
             (assistant_entry false None) Hg).
  - cbn [with_messages messages]. now rewrite insert_second_of_pair.
  - reflexivity.
  - reflexivity.
  - cbn [with_messages messages]. apply lookup_second_of_pair.
  - reflexivity.
Qed.

Lemma streaming_run_succeeds tok text target nowSec fr p chunks :
  truthy text = true ->
  truthy target = true ->
  selectedChatId p = Some target ->
  streamMessage true fr = (map TextChunk chunks, Returned) ->
  MessageInput.handleSend_streaming tok text target nowSec fr p
  = ({| MessageInput.content := ""; MessageInput.sending := false |},
     with_pendingAssistantIndex None
       (with_messages
          (messages p ++ [user_entry text nowSec None;
                          set_content (join chunks) (assistant_entry false None)])
          p),
     [Fetch (streamMessage_request tok target text no_options)],
     Some target).
Proof.
  intros Ht Hg Hsel Hfr.
  unfold MessageInput.handleSend_streaming.
  rewrite Hfr.
  rewrite (auth_stream_delivered _ _ nowSec p chunks Ht Hg Hsel).
  cbn [fst snd].
  rewrite (on_streamstart_value _ target nowSec p Ht Hg).
  rewrite bool_decide_eq_true_2 by exact Hsel.
  assert (Hp : with_selectedChatId (Some target) p = p)
    by (rewrite <- Hsel; apply with_selectedChatId_same).
  rewrite Hp.
  unfold on_streamend. cbn [coalesce id_truthy with_messages selectedChatId
    with_pendingAssistantIndex with_selectedChatId].
  rewrite Hg, bool_decide_eq_true_2 by (now rewrite Hsel). cbn [negb orb].
  erewrite write_pending_at;
    [| reflexivity | cbn [messages]; apply lookup_second_of_pair].
  cbn [fst snd step_state messages pendingAssistantIndex selectedChatId
       with_pendingAssistantIndex with_messages].
  rewrite insert_second_of_pair.
  reflexivity.
Qed.

(** X7. A streaming send of the authenticated component that goes well,
    from the click to the end of [handleSend]: with a chat selected, text in
    the box and a stream that delivers the chunks [c1 .. cN] and returns, the
    component ends cleared and idle, the page is the page before the send
    with the user's message and the assistant entry [c1 + ... + cN] appended
    and no entry pending, the only request is the stream request for that
    chat, and the page goes on to refresh that chat. *)
Theorem X7_auth_streaming_send_succeeds
    tok resolve nowSec fr reply st p target chunks :
  truthy (trim (MessageInput.content st)) = true ->
  MessageInput.sending st = false ->
  selectedChatId p = Some target ->
  truthy target = true ->
  streaming p = true ->
  useRag p = false ->
  streamMessage true fr = (map TextChunk chunks, Returned) ->
  let text := MessageInput.content st in
  MessageInput.handleSend tok resolve nowSec fr reply st p
  = ({| MessageInput.content := ""; MessageInput.sending := false |},
     with_pendingAssistantIndex None
       (with_messages
          (messages p ++ [user_entry text nowSec None;
                          set_content (join chunks) (assistant_entry false None)])
          p),
     [Fetch (streamMessage_request tok target text no_options)],
     Some target).
Proof.
  intros Hc Hs Hsel Hg Hst Hr Hfr text. subst text.
  rewrite (auth_send_selected _ _ _ _ _ _ _ _ Hc Hs Hsel Hg), Hst, Hr.
  cbn [negb andb].
  now apply streaming_run_succeeds; [apply trim_truthy | | |].
Qed.

Lemma X7_auth_streaming_send_succeeds_witness :
  let fr := FetchResolves
              {| res_ok := true; res_status := 200; res_statusText := "OK";
                 res_text := None;
                 res_body :=
                   Some (["data: He" +:+ String LF (String LF "data: l");
                          "lo" +:+ String LF (String LF "data: [DONE]")
                            +:+ String LF ""], EndOfBody) |} in
  let st := {| MessageInput.content := "hello"; MessageInput.sending := false |} in
  let r := MessageInput.handleSend (Some "t0") None 0 fr None st
             (with_selectedChatId (Some "7") initial_page) in
  r.1.1.1 = {| MessageInput.content := ""; MessageInput.sending := false |}
  /\ messages r.1.1.2
     = [user_entry "hello" 0 None;
        set_content "Hello" (assistant_entry false None)]
  /\ r.2 = Some "7".
Proof.
  cbv zeta.
  rewrite (X7_auth_streaming_send_succeeds (Some "t0") None 0%Z
             (FetchResolves
                {| res_ok := true; res_status := 200; res_statusText := "OK";
                   res_text := None;
                   res_body :=
                     Some (["data: He" +:+ String LF (String LF "data: l");
                            "lo" +:+ String LF (String LF "data: [DONE]")
                              +:+ String LF ""], EndOfBody) |})
             None
             {| MessageInput.content := "hello"; MessageInput.sending := false |}
             (with_selectedChatId (Some "7") initial_page) "7" ["He"; "llo"]
             eq_refl eq_refl eq_refl eq_refl eq_refl eq_refl eq_refl).
  repeat split.
Defined.

(** *** The input on screen *)

Lemma same_input_refl (p : Page) : same_input p p = true.
Proof.
  unfold same_input.
  now destruct (transcript_empty p), (isGuestMode p).
Qed.

Lemma transcript_empty_app (l : list ChatMessage) (m : ChatMessage)
    (k : list ChatMessage) (p : Page) :
  transcript_empty (with_messages (l ++ m :: k) p) = false.
Proof. unfold transcript_empty. cbn [messages with_messages]. now destruct l. Qed.

(** [on:streamstart] leaves a transcript that is not empty. *)
Lemma on_streamstart_layout text target nowSec p :
  truthy target = true ->
  let p' := on_streamstart text (Some target) nowSec p in
  transcript_empty p' = false /\ isGuestMode p' = isGuestMode p.
Proof.
  intros Hg p'. subst p'. unfold on_streamstart. cbn [coalesce id_truthy].
  rewrite Hg. cbn [negb].
  destruct (bool_decide (selectedChatId p = Some target)) eqn:E.
  - apply bool_decide_eq_true_1 in E. rewrite E. cbn [id_truthy]. rewrite Hg.
    split; [apply transcript_empty_app | now destruct (truthy text)].
  - cbn [with_messages with_selectedChatId selectedChatId id_truthy].
    rewrite Hg.
    split; [apply transcript_empty_app | now destruct (truthy text)].
Qed.

(** The events that follow [on:streamstart] do not change the layout. *)
Lemma write_pending_same_input text p :
  same_input p (step_state (write_pending text p)) = true.
Proof.
  unfold write_pending.
  destruct (pendingAssistantIndex p) as [i|]; [|apply same_input_refl].
  destruct (messages p !! i) as [m|] eqn:E; [|apply same_input_refl].
  unfold same_input, transcript_empty. cbn [step_state messages with_messages
    isGuestMode].
  destruct (messages p) as [|x l]; [discriminate |].
  destruct i; cbn; now destruct (isGuestMode p).
Qed.

Lemma on_stream_same_input partial id p :
  same_input p (step_state (on_stream partial id p)) = true.
Proof.
  unfold on_stream.
  destruct (negb _ || negb _); [apply same_input_refl |].
  apply write_pending_same_input.
Qed.

Lemma on_streamend_same_input text id p :
  same_input p (step_state (on_streamend text id p).1) = true.
Proof.
  unfold on_streamend.
  destruct (negb _ || negb _); [apply same_input_refl |].
  pose proof (write_pending_same_input text p) as H.
  destruct (write_pending text p) as [p'|e p']; exact H.
Qed.

(** The updates of a streaming send with a chat selected, and what they do
    to the input: the instance stays when the transcript was not empty. *)
Lemma streaming_send_updates resolve nowSec st p target :
  truthy (trim (MessageInput.content st)) = true ->
  MessageInput.sending st = false ->
  selectedChatId p = Some target ->
  truthy target = true ->
  streaming p = true ->
  useRag p = false ->
  MessageInput.handleSend_updates resolve nowSec st p
  = [p; on_streamstart (MessageInput.content st) (Some target) nowSec p]
  /\ input_kept p (MessageInput.handleSend_updates resolve nowSec st p)
     = negb (transcript_empty p).
Proof.
  intros Hc Hs Hsel Hg Hst Hr.
  assert (Hu : MessageInput.handleSend_updates resolve nowSec st p
               = [p; on_streamstart (MessageInput.content st) (Some target)
                       nowSec p]).
  { unfold MessageInput.handleSend_updates, MessageInput.handleSend_begin.
    rewrite Hc, Hs. cbn [negb orb].
    destruct resolve as [resolve|]; unfold MessageInput.handleSend_resolve;
      rewrite Hsel; cbn [id_truthy];
      rewrite ?Hg; cbn beta iota; rewrite ?Hg, Hst, Hr; reflexivity. }
  split; [exact Hu |].
  rewrite Hu. cbn [input_kept]. rewrite same_input_refl.
  destruct (on_streamstart_layout (MessageInput.content st) target nowSec p Hg)
    as [He Hm].
  unfold same_input. rewrite He, Hm.
  now destruct (transcript_empty p), (isGuestMode p).
Qed.

Lemma streaming_send_fails tok resolve nowSec fr reply st p target chunks e :
  truthy (trim (MessageInput.content st)) = true ->
  MessageInput.sending st = false ->
  selectedChatId p = Some target ->
  truthy target = true ->
  streaming p = true ->
  useRag p = false ->
  streamMessage true fr = (map TextChunk chunks, Threw e) ->
  let text := MessageInput.content st in
  let r := MessageInput.handleSend tok resolve nowSec fr reply st p in
  r.1.1.1 = {| MessageInput.content := text; MessageInput.sending := false |}
  /\ messages r.1.1.2
     = messages p ++ [user_entry text nowSec None;
                      set_content (join chunks) (assistant_entry false None)]
  /\ pendingAssistantIndex r.1.1.2 = Some (length (messages p) + 1)
  /\ r.1.2 = [Fetch (streamMessage_request tok target text no_options);
              ConsoleError e; Alert (message_or e "Failed to send")]
  /\ r.2 = None.
Proof.
  intros Hc Hs Hsel Hg Hst Hr Hfr text r. subst r text.
  rewrite (auth_send_selected _ _ _ _ _ _ _ _ Hc Hs Hsel Hg), Hst, Hr.
  cbn [negb andb]. unfold MessageInput.handleSend_streaming.
  rewrite Hfr.
  rewrite (auth_stream_delivered _ _ nowSec p chunks (trim_truthy _ Hc) Hg Hsel).
  cbn [fst snd MessageInput.handleSend_catch].
  rewrite (on_streamstart_value _ target nowSec p (trim_truthy _ Hc) Hg).
  rewrite bool_decide_eq_true_2 by exact Hsel.
  cbn [messages pendingAssistantIndex with_messages with_pendingAssistantIndex
       with_selectedChatId].
  repeat split.
Qed.

(** X8. A streaming send of the authenticated component that fails: when
    the stream call throws [e] after the chunks [c1 .. cN] (a rejected fetch,
    a response that is not ok, a failing read), the instance that ran the
    send gets the typed text back and is idle, [e] is logged and shown in one
    alert ([Failed to send] when [e] is empty), and no refresh is asked.
    That instance is still on screen when the transcript was not empty
    before the send, and the box then holds the typed text again.  When the
    transcript was empty, the page has replaced the input at
    [on:streamstart]: the box on screen is that of a new instance, empty and
    idle, and the typed text is not put back into it.  The page keeps the
    optimistic pair: the user's message and the assistant entry with the
    partial text, which the pending index still designates. *)
Theorem X8_auth_streaming_send_fails
    tok resolve nowSec fr reply st p target chunks e :
  truthy (trim (MessageInput.content st)) = true ->
  MessageInput.sending st = false ->
  selectedChatId p = Some target ->
  truthy target = true ->
  streaming p = true ->
  useRag p = false ->
  streamMessage true fr = (map TextChunk chunks, Threw e) ->
  let text := MessageInput.content st in
  let r := MessageInput.handleSend tok resolve nowSec fr reply st p in
  let shown := MessageInput.shown_after tok resolve nowSec fr reply st p in
  r.1.1.1 = {| MessageInput.content := text; MessageInput.sending := false |}
  /\ shown
     = (if transcript_empty p then MessageInput.initial
        else {| MessageInput.content := text; MessageInput.sending := false |})
  /\ messages r.1.1.2
     = messages p ++ [user_entry text nowSec None;
                      set_content (join chunks) (assistant_entry false None)]
  /\ pendingAssistantIndex r.1.1.2 = Some (length (messages p) + 1)
  /\ r.1.2 = [Fetch (streamMessage_request tok target text no_options);
              ConsoleError e; Alert (message_or e "Failed to send")]
  /\ r.2 = None.
Proof.
  intros Hc Hs Hsel Hg Hst Hr Hfr text r shown.
  destruct (streaming_send_fails tok resolve nowSec fr reply st p target chunks e
              Hc Hs Hsel Hg Hst Hr Hfr) as (H1 & H2 & H3 & H4 & H5).
  split; [exact H1 |].
  split; [|repeat split; assumption].
  subst shown. unfold MessageInput.shown_after.
  rewrite (proj2 (streaming_send_updates resolve nowSec st p target
                    Hc Hs Hsel Hg Hst Hr)).
  destruct (transcript_empty p); [reflexivity | exact H1].
Qed.

Lemma X8_auth_streaming_send_fails_witness :
  let fr := FetchResolves
              {| res_ok := true; res_status := 200; res_statusText := "OK";
                 res_text := None;
                 res_body :=
                   Some (["data: He" +:+ String LF (String LF "data: l")],
                         ReadFails "connection reset") |} in
  let st := {| MessageInput.content := "hello"; MessageInput.sending := false |} in
  let first := with_selectedChatId (Some "7") initial_page in
  let later := with_messages [user_entry "earlier" 0 None] first in
  let r := MessageInput.handleSend None None 0 fr None st first in
  (r.1.1.1 = st
   /\ MessageInput.shown_after None None 0 fr None st first
      = {| MessageInput.content := ""; MessageInput.sending := false |}
   /\ messages r.1.1.2
      = [user_entry "hello" 0 None; set_content "He" (assistant_entry false None)]
   /\ pendingAssistantIndex r.1.1.2 = Some 1
   /\ alerts r.1.2 = ["connection reset"])
  /\ MessageInput.shown_after None None 0 fr None st later = st.
Proof.
  cbv zeta. split.
  - destruct (X8_auth_streaming_send_fails None None 0%Z
                (FetchResolves
                   {| res_ok := true; res_status := 200; res_statusText := "OK";
                      res_text := None;
                      res_body :=
                        Some (["data: He" +:+ String LF (String LF "data: l")],
                              ReadFails "connection reset") |})
                None
                {| MessageInput.content := "hello"; MessageInput.sending := false |}
                (with_selectedChatId (Some "7") initial_page) "7" ["He"]
                "connection reset"
                eq_refl eq_refl eq_refl eq_refl eq_refl eq_refl eq_refl)
      as (H1 & Hshown & H2 & H3 & H4 & _).
    split; [exact H1 |]. split; [exact Hshown |].
    split; [exact H2 |]. split; [exact H3 |].
    rewrite H4. reflexivity.
  - exact (proj1 (proj2
      (X8_auth_streaming_send_fails None None 0%Z
         (FetchResolves
            {| res_ok := true; res_status := 200; res_statusText := "OK";
               res_text := None;
               res_body :=
                 Some (["data: He" +:+ String LF (String LF "data: l")],
                       ReadFails "connection reset") |})
         None
         {| MessageInput.content := "hello"; MessageInput.sending := false |}
         (with_messages [user_entry "earlier" 0 None]
            (with_selectedChatId (Some "7") initial_page)) "7" ["He"]
         "connection reset"
         eq_refl eq_refl eq_refl eq_refl eq_refl eq_refl eq_refl))).
Defined.

(** Once a chat has been loaded, no event of an earlier send changes the
    page. *)
Lemma stream_callback_after_load target id sv p (evs : list StreamEvent) :
  forall acc, exists acc',
    deliver (MessageInput.stream_callback target) evs (acc, loadChat id sv p)
    = Next (acc', loadChat id sv p).
Proof.
  induction evs as [|ev evs IH]; intros acc; [now exists acc |].
  cbn [deliver].
  destruct ev as [chunk|d]; cbn [MessageInput.stream_callback fst snd].
  - unfold on_stream.
    destruct (negb _ || negb _); [apply IH |].
    unfold write_pending, loadChat.
    cbn [pendingAssistantIndex with_pendingAssistantIndex].
    apply IH.
  - apply IH.
Qed.

(** X9. Selecting a chat while an answer streams detaches the stream from
    the page: once [loadChat] has finished (for the streaming chat or for
    another one), the remaining chunks and the end of the stream leave the
    page as [loadChat] made it, that is the server's transcript with no
    partial text in it; and when another chat was selected the end of the
    stream asks for no refresh. *)
Theorem X9_loaded_chat_detaches_stream
    target id sv p (evs : list StreamEvent) (acc final : string) :
  (exists acc',
      deliver (MessageInput.stream_callback target) evs (acc, loadChat id sv p)
      = Next (acc', loadChat id sv p))
  /\ step_state (on_streamend final (Some target) (loadChat id sv p)).1
     = loadChat id sv p
  /\ (id <> target ->
      (on_streamend final (Some target) (loadChat id sv p)).2 = None).
Proof.
  split; [apply stream_callback_after_load |].
  unfold on_streamend. cbn [coalesce].
  split.
  - destruct (negb _ || negb _); [reflexivity |].
    unfold write_pending, loadChat.
    cbn [pendingAssistantIndex with_pendingAssistantIndex fst step_state].
    reflexivity.
  - intros Hne. unfold loadChat at 1.
    cbn [selectedChatId with_pendingAssistantIndex with_messages
         with_selectedChatId].
    rewrite (bool_decide_eq_false_2 (Some target = Some id)) by congruence.
    cbn [negb]. now rewrite orb_true_r.
Qed.

Lemma streaming_send_outcome tok text target nowSec fr p :
  let r := MessageInput.handleSend_streaming tok text target nowSec fr p in
  MessageInput.sending r.1.1.1 = false
  /\ ((alerts r.1.2 = [] /\ MessageInput.content r.1.1.1 = "")
      \/ (exists e, alerts r.1.2 = [message_or e "Failed to send"]
                    /\ MessageInput.content r.1.1.1 = text /\ r.2 = None)).
Proof.
  unfold MessageInput.handleSend_streaming.
  destruct (streamMessage true fr) as [evs completion].
  destruct (deliver _ evs _) as [s|e s].
  - destruct completion as [|e].
    + destruct (on_streamend _ _ _) as [r refresh].
      cbn. split; [reflexivity |]. left. now split.
    + cbn. split; [reflexivity |]. right. exists e. repeat split.
  - cbn. split; [reflexivity |]. right. exists e. repeat split.
Qed.

Lemma direct_send_outcome tok text target reply p :
  let r := MessageInput.handleSend_direct tok text target reply p in
  MessageInput.sending r.1.1.1 = false
  /\ ((alerts r.1.2 = [] /\ MessageInput.content r.1.1.1 = "")
      \/ (exists e, alerts r.1.2 = [message_or e "Failed to send"]
                    /\ MessageInput.content r.1.1.1 = text /\ r.2 = None)).
Proof.
  unfold MessageInput.handleSend_direct.
  destruct reply as [e|]; cbn.
  - split; [reflexivity |]. right. exists e. repeat split.
  - split; [reflexivity |]. left. now split.
Qed.

(** What a call made while the instance is idle does to that instance. *)
Lemma auth_sender_outcome tok resolve nowSec fr reply st p :
  MessageInput.sending st = false ->
  let r := MessageInput.handleSend tok resolve nowSec fr reply st p in
  MessageInput.sending r.1.1.1 = false
  /\ ((alerts r.1.2 = []
       /\ (r.1.1.1 = st \/ MessageInput.content r.1.1.1 = ""))
      \/ (exists m, alerts r.1.2 = [m]
                    /\ MessageInput.content r.1.1.1 = MessageInput.content st
                    /\ r.2 = None)).
Proof.
  intros Hs r. subst r.
  unfold MessageInput.handleSend, MessageInput.handleSend_begin.
  rewrite Hs, orb_false_r.
  destruct (negb (truthy (trim (MessageInput.content st)))).
  { cbn. split; [exact Hs |]. left. split; [reflexivity | now left]. }
  set (text := MessageInput.content st).
  assert (Hfail : forall (q : Page) (e : string),
    let r := (let '(st', es) := MessageInput.handleSend_catch text e in
              (st', q, es, @None string)) in
    MessageInput.sending r.1.1.1 = false
    /\ ((alerts r.1.2 = []
         /\ (r.1.1.1 = st \/ MessageInput.content r.1.1.1 = ""))
        \/ (exists m, alerts r.1.2 = [m]
                      /\ MessageInput.content r.1.1.1 = text /\ r.2 = None))).
  { intros q e. cbn. split; [reflexivity |]. right. eexists. repeat split. }
  assert (Hgo : forall (t : string) (q : Page),
    let r := (if streaming q && negb (useRag q)
              then MessageInput.handleSend_streaming tok text t nowSec fr q
              else MessageInput.handleSend_direct tok text t reply q) in
    MessageInput.sending r.1.1.1 = false
    /\ ((alerts r.1.2 = []
         /\ (r.1.1.1 = st \/ MessageInput.content r.1.1.1 = ""))
        \/ (exists m, alerts r.1.2 = [m]
                      /\ MessageInput.content r.1.1.1 = text /\ r.2 = None))).
  { intros t q. destruct (streaming q && negb (useRag q)).
    - destruct (streaming_send_outcome tok text t nowSec fr q) as (H1 & H3).
      split; [exact H1 |].
      destruct H3 as [[Ha Hc]|(e & Ha & Hc & Hr)].
      + left. split; [exact Ha | now right].
      + right. eauto.
    - destruct (direct_send_outcome tok text t reply q) as (H1 & H3).
      split; [exact H1 |].
      destruct H3 as [[Ha Hc]|(e & Ha & Hc & Hr)].
      + left. split; [exact Ha | now right].
      + right. eauto. }
  destruct (MessageInput.handleSend_resolve resolve p) as [p1 [[t|]|e]].
  - destruct (truthy t); [apply Hgo | apply Hfail].
  - apply Hfail.
  - apply Hfail.
Qed.

(** X10. Every call of the authenticated [handleSend] made while the
    instance is idle leaves that instance idle again ([finally]), and the
    input on screen is idle as well, whatever the chat resolution (an id,
    [null] or a rejection), the network and the page do.  Either no alert
    is raised, and then the instance is unchanged (the guard returned) or
    its box is cleared, and so is the box on screen; or exactly one alert is
    raised and no refresh is asked, and then the instance holds the typed
    text again, while the box on screen holds it only if the page has kept
    the instance: when the page has replaced the input during the send, the
    box on screen is empty. *)
Theorem X10_auth_send_outcome tok resolve nowSec fr reply st p :
  MessageInput.sending st = false ->
  let r := MessageInput.handleSend tok resolve nowSec fr reply st p in
  let kept := input_kept p (MessageInput.handleSend_updates resolve nowSec st p) in
  let shown := MessageInput.shown_after tok resolve nowSec fr reply st p in
  MessageInput.sending r.1.1.1 = false
  /\ MessageInput.sending shown = false
  /\ ((alerts r.1.2 = []
       /\ (r.1.1.1 = st \/ MessageInput.content r.1.1.1 = "")
       /\ (shown = st \/ MessageInput.content shown = ""))
      \/ (exists m, alerts r.1.2 = [m]
                    /\ MessageInput.content r.1.1.1 = MessageInput.content st
                    /\ r.2 = None
                    /\ MessageInput.content shown
                       = if kept then MessageInput.content st else "")).
Proof.
  intros Hs r kept shown.
  destruct (auth_sender_outcome tok resolve nowSec fr reply st p Hs)
    as [H1 H2].
  fold r in H1, H2.
  assert (Hshown : shown = if kept then r.1.1.1 else MessageInput.initial)
    by reflexivity.
  split; [exact H1 |].
  split; [rewrite Hshown; now destruct kept |].
  destruct H2 as [(Ha & Hc)|(m & Ha & Hc & Hr)].
  - left. split; [exact Ha |]. split; [exact Hc |].
    rewrite Hshown. destruct kept; [exact Hc | now right].
  - right. exists m. split; [exact Ha |]. split; [exact Hc |].
    split; [exact Hr |].
    rewrite Hshown. now destruct kept.
Qed.

Lemma X10_auth_send_outcome_witness :
  let st := {| MessageInput.content := "hello"; MessageInput.sending := false |} in
  let rejecting : Page -> Page * Resolution :=
    fun p => (p, Rejected "create failed") in
  let first := with_selectedChatId (Some "7") initial_page in
  let r1 := MessageInput.handleSend None (Some rejecting) 0 (FetchRejects "offline")
              None st initial_page in
  let r2 := MessageInput.handleSend None None 0 (FetchRejects "offline")
              None st first in
  (MessageInput.sending r1.1.1.1 = false
   /\ alerts r1.1.2 = ["create failed"]
   /\ MessageInput.content r1.1.1.1 = "hello"
   /\ MessageInput.content
        (MessageInput.shown_after None (Some rejecting) 0 (FetchRejects "offline")
           None st initial_page) = "hello")
  /\ (MessageInput.sending r2.1.1.1 = false
      /\ alerts r2.1.2 = ["offline"]
      /\ MessageInput.content r2.1.1.1 = "hello"
      /\ MessageInput.content
           (MessageInput.shown_after None None 0 (FetchRejects "offline") None
              st first) = "").
Proof.
  cbv zeta. split.
  - destruct (X10_auth_send_outcome None
                (Some (fun p : Page => (p, Rejected "create failed")))
                0%Z (FetchRejects "offline") None
                {| MessageInput.content := "hello"; MessageInput.sending := false |}
                initial_page eq_refl) as (H1 & _ & [(Ha & _)|(m & _ & Hc & _ & Hsh)]).
    + discriminate Ha.
    + split; [exact H1 |]. split; [reflexivity |].
      split; [exact Hc | exact Hsh].
  - destruct (X10_auth_send_outcome None None
                0%Z (FetchRejects "offline") None
                {| MessageInput.content := "hello"; MessageInput.sending := false |}
                (with_selectedChatId (Some "7") initial_page) eq_refl)
      as (H1 & _ & [(Ha & _)|(m & _ & Hc & _ & Hsh)]).
    + discriminate Ha.
    + split; [exact H1 |]. split; [reflexivity |].
      split; [exact Hc | exact Hsh].
Defined.



(** ** The chat list and the first message *)

Lemma refreshChats_post preferId sv p :
  let p' := refreshChats preferId sv p in
  chats p' = sv_chats sv
  /\ pendingAssistantIndex p' = None
  /\ match selectedChatId p' with
     | Some i => i ∈ sv_chats sv /\ messages p' = map of_wire (sv_chat sv i)
     | None => sv_chats sv = [] /\ messages p' = []
     end
  /\ (listed sv preferId = true -> selectedChatId p' = preferId)
  /\ (listed sv preferId = false -> listed sv (selectedChatId p) = true ->
      selectedChatId p' = selectedChatId p)
  /\ (listed sv preferId = false -> listed sv (selectedChatId p) = false ->
      selectedChatId p' = head (sv_chats sv)).
Proof.
  unfold refreshChats.
  destruct (sv_chats sv) as [|first rest] eqn:Ech.
  { cbn. split; [reflexivity |]. split; [reflexivity |]. split; [now split |].
    split; [|split].
    - unfold listed. rewrite Ech. destruct preferId as [i|]; [|discriminate].
      rewrite bool_decide_eq_false_2 by apply not_elem_of_nil.
      now rewrite andb_false_r.
    - intros _. unfold listed. rewrite Ech.
      destruct (selectedChatId p) as [i|]; [|discriminate].
      rewrite bool_decide_eq_false_2 by apply not_elem_of_nil.
      now rewrite andb_false_r.
    - reflexivity. }
  cbn [with_chats selectedChatId].
  unfold loadChat.
  cbn [chats pendingAssistantIndex selectedChatId messages
       with_pendingAssistantIndex with_messages with_selectedChatId].
  split; [reflexivity |]. split; [reflexivity |].
  assert (Hin : forall o, listed sv o = true ->
                          exists i, o = Some i /\ i ∈ sv_chats sv).
  { intros [i|] H; [|discriminate]. exists i. split; [reflexivity |].
    unfold listed in H. apply andb_true_iff in H. destruct H as [_ H].
    now apply bool_decide_eq_true_1 in H. }
  split.
  - split; [|reflexivity].
    destruct (listed sv preferId) eqn:E1.
    { destruct (Hin _ E1) as (i & -> & Hi). cbn. now rewrite <- Ech. }
    destruct (listed sv (selectedChatId p)) eqn:E2.
    { destruct (Hin _ E2) as (i & -> & Hi). cbn. now rewrite <- Ech. }
    left.
  - split; [|split].
    + intros E1. rewrite E1. destruct (Hin _ E1) as (i & -> & _). reflexivity.
    + intros E1 E2. rewrite E1, E2.
      destruct (Hin _ E2) as (i & -> & _). reflexivity.
    + intros E1 E2. rewrite E1, E2. reflexivity.
Qed.

(** X12. After [refreshChats] the page shows the server's list, nothing is
    pending, and the selected chat is one of the listed chats with the
    server's transcript of that chat loaded, or [null] with an empty
    transcript when the list is empty.  A preferred id that is listed is
    selected; failing that, a current selection that is listed is kept;
    failing both, the first chat of the list is taken. *)
Theorem X12_refreshChats_selects_listed_chat preferId sv p :
  let p' := refreshChats preferId sv p in
  chats p' = sv_chats sv
  /\ pendingAssistantIndex p' = None
  /\ match selectedChatId p' with
     | Some i => i ∈ sv_chats sv /\ messages p' = map of_wire (sv_chat sv i)
     | None => sv_chats sv = [] /\ messages p' = []
     end
  /\ (listed sv preferId = true -> selectedChatId p' = preferId)
  /\ (listed sv preferId = false -> listed sv (selectedChatId p) = true ->
      selectedChatId p' = selectedChatId p)
  /\ (listed sv preferId = false -> listed sv (selectedChatId p) = false ->
      selectedChatId p' = head (sv_chats sv)).
Proof. apply refreshChats_post. Qed.

Lemma X12_refreshChats_selects_listed_chat_witness :
  let sv := {| sv_chats := ["3"; "7"]; sv_chat := fun _ => [] |} in
  selectedChatId (refreshChats (Some "7") sv initial_page) = Some "7"
  /\ selectedChatId
       (refreshChats (Some "9") sv (with_selectedChatId (Some "7") initial_page))
     = Some "7"
  /\ selectedChatId
       (refreshChats (Some "9") sv (with_selectedChatId (Some "5") initial_page))
     = Some "3".
Proof.
  cbv zeta. split; [|split].
  - exact (proj1 (proj2 (proj2 (proj2
      (X12_refreshChats_selects_listed_chat (Some "7")
         {| sv_chats := ["3"; "7"]; sv_chat := fun _ => [] |} initial_page))))
      eq_refl).
  - exact (proj1 (proj2 (proj2 (proj2 (proj2
      (X12_refreshChats_selects_listed_chat (Some "9")
         {| sv_chats := ["3"; "7"]; sv_chat := fun _ => [] |}
         (with_selectedChatId (Some "7") initial_page))))))
      eq_refl eq_refl).
  - exact (proj2 (proj2 (proj2 (proj2 (proj2
      (X12_refreshChats_selects_listed_chat (Some "9")
         {| sv_chats := ["3"; "7"]; sv_chat := fun _ => [] |}
         (with_selectedChatId (Some "5") initial_page))))))
      eq_refl eq_refl).
Defined.

Lemma refreshChats_streaming preferId sv p :
  streaming (refreshChats preferId sv p) = streaming p.
Proof. unfold refreshChats. now destruct (sv_chats sv). Qed.

(** X13. The first message of a session with no chat selected: the
    component asks the page for a chat, [getOrCreateChat] creates one and
    refreshes, and when the server lists the created chat the stream is
    opened for it.  After a stream that delivers [c1 .. cN] and returns, the
    created chat is selected, the list is the server's, and the transcript
    is the server's transcript of that chat followed by the user's message
    and the assistant entry [c1 + ... + cN]. *)
Theorem X13_first_send_creates_chat
    tok created sv nowSec fr reply st p chunks :
  truthy (trim (MessageInput.content st)) = true ->
  MessageInput.sending st = false ->
  selectedChatId p = None ->
  isGuestMode p = false ->
  listed sv (Some created) = true ->
  streaming p = true ->
  useRag p = false ->
  streamMessage true fr = (map TextChunk chunks, Returned) ->
  let text := MessageInput.content st in
  let r := MessageInput.handleSend tok
             (Some (resolving (getOrCreateChat created sv)))
             nowSec fr reply st p in
  r.1.1.1 = {| MessageInput.content := ""; MessageInput.sending := false |}
  /\ chats r.1.1.2 = sv_chats sv
  /\ selectedChatId r.1.1.2 = Some created
  /\ messages r.1.1.2
     = map of_wire (sv_chat sv created)
       ++ [user_entry text nowSec None;
           set_content (join chunks) (assistant_entry false None)]
  /\ r.1.2 = [Fetch (streamMessage_request tok created text no_options)]
  /\ r.2 = Some created.
Proof.
  intros Hc Hs Hsel Hguest Hl Hst Hr Hfr text r. subst r text.
  assert (Hcr : truthy created = true).
  { unfold listed in Hl. apply andb_true_iff in Hl. tauto. }
  unfold MessageInput.handleSend, MessageInput.handleSend_begin.
  rewrite Hc, Hs. cbn [negb orb].
  unfold MessageInput.handleSend_resolve. rewrite Hsel. cbn [id_truthy].
  unfold resolving, getOrCreateChat. rewrite Hsel, Hguest. cbn [id_truthy].
  rewrite Hcr, refreshChats_streaming, refreshChats_useRag, Hst, Hr.
  cbn [negb andb].
  destruct (refreshChats_post (Some created) sv p) as (Hch & _ & Hm & Hp & _).
  specialize (Hp Hl).
  rewrite Hp in Hm. destruct Hm as [_ Hm].
  rewrite (streaming_run_succeeds tok (MessageInput.content st) created nowSec fr
             (refreshChats (Some created) sv p) chunks
             (trim_truthy _ Hc) Hcr Hp Hfr).
  cbn [fst snd chats selectedChatId messages with_pendingAssistantIndex
       with_messages].
  rewrite Hch, Hp, Hm. repeat split.
Qed.

Lemma X13_first_send_creates_chat_witness :
  let sv := {| sv_chats := ["7"]; sv_chat := fun _ => [] |} in
  let fr := FetchResolves
              {| res_ok := true; res_status := 200; res_statusText := "OK";
                 res_text := None;
                 res_body :=
                   Some (["data: Hi" +:+ String LF (String LF "")], EndOfBody) |} in
  let st := {| MessageInput.content := "hello"; MessageInput.sending := false |} in
  let r := MessageInput.handleSend None
             (Some (resolving (getOrCreateChat "7" sv))) 0 fr
             None st initial_page in
  selectedChatId r.1.1.2 = Some "7"
  /\ messages r.1.1.2
     = [user_entry "hello" 0 None; set_content "Hi" (assistant_entry false None)]
  /\ r.2 = Some "7".
Proof.
  cbv zeta.
  destruct (X13_first_send_creates_chat None "7"
              {| sv_chats := ["7"]; sv_chat := fun _ => [] |} 0%Z
              (FetchResolves
                 {| res_ok := true; res_status := 200; res_statusText := "OK";
                    res_text := None;
                    res_body :=
                      Some (["data: Hi" +:+ String LF (String LF "")],
                            EndOfBody) |})
              None
              {| MessageInput.content := "hello"; MessageInput.sending := false |}
              initial_page ["Hi"]
              eq_refl eq_refl eq_refl eq_refl eq_refl eq_refl eq_refl eq_refl)
    as (_ & _ & H3 & H4 & _ & H6).
  split; [exact H3 |]. split; [exact H4 | exact H6].
Defined.

(** ** Mounting the page and deleting a chat *)

(** After [refreshChats()] and, with nothing selected, [getOrCreateChat()],
    the selected chat is one that the server listed. *)
Lemma refresh_then_create_selected sv created sv' p :
  let p1 := refreshChats None sv p in
  let p2 := if id_truthy (selectedChatId p1) then p1
            else (getOrCreateChat created sv' p1).1 in
  match selectedChatId p2 with
  | Some i => i ∈ sv_chats sv \/ i ∈ sv_chats sv'
  | None => True
  end.
Proof.
  cbv zeta.
  destruct (refreshChats_post None sv p) as (_ & _ & H1 & _).
  destruct (id_truthy (selectedChatId (refreshChats None sv p))) eqn:E.
  - destruct (selectedChatId (refreshChats None sv p)); [|exact I].
    left. tauto.
  - unfold getOrCreateChat. rewrite E.
    destruct (isGuestMode (refreshChats None sv p)); cbn [fst].
    + destruct (selectedChatId (refreshChats None sv p)); [|exact I].
      left. tauto.
    + destruct (refreshChats_post (Some created) sv' (refreshChats None sv p))
        as (_ & _ & H2 & _).
      destruct (selectedChatId (refreshChats (Some created) sv' _)); [|exact I].
      right. tauto.
Qed.

(** X14. Deleting a chat.  Without a confirmation nothing changes and no
    alert is raised; when [deleteChat] fails the page is unchanged and one
    alert shows the error ([Failed to delete] when it is empty).  After a
    successful deletion no alert is raised and the chat selected by the
    page, if any, is one the server listed afterwards: never the deleted
    chat once the server has dropped it from its lists. *)
Theorem X14_deleted_chat_not_selected
    id deleted sv created sv' p :
  truthy id = true ->
  handleDeleteChat (Some id) false deleted sv created sv' p = (p, None)
  /\ (forall e,
        handleDeleteChat (Some id) true (Some e) sv created sv' p
        = (p, Some (message_or e "Failed to delete")))
  /\ (let r := handleDeleteChat (Some id) true None sv created sv' p in
      r.2 = None
      /\ match selectedChatId r.1 with
         | Some i => i ∈ sv_chats sv \/ i ∈ sv_chats sv'
         | None => True
         end
      /\ (id ∉ sv_chats sv -> id ∉ sv_chats sv' ->
          selectedChatId r.1 <> Some id)).
Proof.
  intros Hid. unfold handleDeleteChat. cbn [id_truthy]. rewrite Hid.
  cbn [negb]. split; [reflexivity |]. split; [reflexivity |].
  cbn [fst snd]. split; [reflexivity |].
  pose proof (refresh_then_create_selected sv created sv' p) as H.
  cbv zeta in H. split; [exact H |].
  intros H1 H2 E. rewrite E in H. tauto.
Qed.

Lemma X14_deleted_chat_not_selected_witness :
  let sv := {| sv_chats := ["3"]; sv_chat := fun _ => [] |} in
  let p := with_selectedChatId (Some "7") initial_page in
  selectedChatId (handleDeleteChat (Some "7") true None sv "9" sv p).1 = Some "3"
  /\ handleDeleteChat (Some "7") true (Some "") sv "9" sv p
     = (p, Some "Failed to delete").
Proof.
  cbv zeta. split; [reflexivity |].
  exact (proj1 (proj2 (X14_deleted_chat_not_selected "7" None
                         {| sv_chats := ["3"]; sv_chat := fun _ => [] |} "9"
                         {| sv_chats := ["3"]; sv_chat := fun _ => [] |}
                         (with_selectedChatId (Some "7") initial_page) eq_refl))
           "").
Defined.

(** X15. Mounting the page.  In guest mode it starts with no chat list, no
    selection and an empty transcript.  Otherwise it shows the server's
    list; when the server lists no chat at all, a chat is created, and when
    the server then lists it, that chat is selected with its transcript
    loaded. *)
Theorem X15_page_mount sv created sv' p :
  (let g := page_onMount true sv created sv' p in
   isGuestMode g = true /\ chats g = [] /\ selectedChatId g = None
   /\ messages g = [])
  /\ (let r := page_onMount false sv created sv' p in
      isGuestMode r = false
      /\ match selectedChatId r with
         | Some i => i ∈ sv_chats sv \/ i ∈ sv_chats sv'
         | None => True
         end
      /\ (sv_chats sv = [] -> listed sv' (Some created) = true ->
          chats r = sv_chats sv'
          /\ selectedChatId r = Some created
          /\ messages r = map of_wire (sv_chat sv' created))).
Proof.
  split; [cbn; now repeat split |].
  cbv zeta. unfold page_onMount.
  set (p0 := with_isGuestMode false p).
  assert (Hg : forall q, isGuestMode q = false ->
                         forall o sv0, isGuestMode (refreshChats o sv0 q) = false).
  { intros q Hq o sv0. unfold refreshChats.
    destruct (sv_chats sv0); exact Hq. }
  assert (Hg1 : isGuestMode (refreshChats None sv p0) = false)
    by (apply Hg; reflexivity).
  split; [|split].
  - destruct (id_truthy (selectedChatId (refreshChats None sv p0)));
      [exact Hg1 |].
    unfold getOrCreateChat.
    destruct (id_truthy (selectedChatId (refreshChats None sv p0)));
      [exact Hg1 |].
    rewrite Hg1. cbn [fst]. now apply Hg.
  - exact (refresh_then_create_selected sv created sv' p0).
  - intros Hempty Hl.
    destruct (refreshChats_post None sv p0) as (_ & _ & H1 & _).
    destruct (selectedChatId (refreshChats None sv p0)) as [i|] eqn:Es.
    { destruct H1 as [H1 _]. rewrite Hempty in H1.
      now apply not_elem_of_nil in H1. }
    cbn [id_truthy]. unfold getOrCreateChat. rewrite Es, Hg1. cbn [id_truthy fst].
    destruct (refreshChats_post (Some created) sv' (refreshChats None sv p0))
      as (Hc & _ & H2 & H3 & _).
    specialize (H3 Hl). rewrite H3 in H2.
    split; [exact Hc |]. split; [exact H3 | tauto].
Qed.

Lemma X15_page_mount_witness :
  let none := {| sv_chats := []; sv_chat := fun _ => [] |} in
  let one := {| sv_chats := ["9"]; sv_chat := fun _ => [] |} in
  selectedChatId (page_onMount false none "9" one initial_page) = Some "9".
Proof.
  cbv zeta.
  exact (proj1 (proj2 (proj2 (proj2 (proj2
           (X15_page_mount {| sv_chats := []; sv_chat := fun _ => [] |} "9"
              {| sv_chats := ["9"]; sv_chat := fun _ => [] |} initial_page)))
           eq_refl eq_refl))).
Defined.

(** ** Guest sends: callbacks, alerts and histories *)

(** With the pending index in range and the ignore flag down, no sequence of
    events makes a callback throw, and both facts are kept. *)
Lemma guest_callbacks_total (evs : list PageEvent) :
  forall (ctx : SendCtx) (p : Page),
    pending_in_range p = true ->
    ignoreFinalGuestSse p = false ->
    exists st,
      deliver guest_callback evs (ctx, p) = Next st
      /\ pending_in_range st.2 = true
      /\ ignoreFinalGuestSse st.2 = false.
Proof.
  induction evs as [|ev evs IH]; intros ctx p Hp Hf.
  - exists (ctx, p). now repeat split.
  - cbn [deliver]. destruct ev as [c|upd]; cbn [guest_callback].
    + unfold guest_onChunk, write_pending. cbn [fst snd].
      unfold pending_in_range in Hp.
      destruct (pendingAssistantIndex p) as [i|] eqn:Ei.
      * apply Nat.ltb_lt in Hp.
        destruct (lookup_lt_is_Some_2 _ _ Hp) as [m Hm]. rewrite Hm.
        apply IH.
        -- unfold pending_in_range.
           cbn [pendingAssistantIndex with_messages messages].
           rewrite Ei, length_insert. now apply Nat.ltb_lt.
        -- exact Hf.
      * apply IH; [|exact Hf]. unfold pending_in_range. now rewrite Ei.
    + cbn [fst snd].
      apply IH; unfold guest_onMessages; now destruct (ignoreFinalGuestSse p).
Qed.

Lemma guest_start_in_range tok text nowSec p :
  truthy text = true -> streaming p = true -> useRag p = false ->
  exists p1 ctx,
    handleGuestSent_start tok text nowSec p
    = (p1,
       [Fetch (guestChatStream_request text
                 (messages p ++ [optimistic_user text nowSec p]) (page_options p))],
       AwaitStream ctx)
    /\ pending_in_range p1 = true
    /\ ignoreFinalGuestSse p1 = false.
Proof.
  intros Ht Hs Hr.
  destruct (guest_after_chunks tok text nowSec p [] Ht Hs Hr)
    as (p1 & es & ctx & Hstart & -> & _ & _ & _ & Hi & Hf & _).
  exists p1, ctx. split; [exact Hstart |]. split; [|exact Hf].
  unfold pending_in_range. rewrite Hi.
  rewrite (guest_start_streaming tok text nowSec p Ht Hs Hr) in Hstart.
  injection Hstart as <- _.
  cbn [messages with_ignoreFinalGuestSse with_pendingAssistantIndex with_messages].
  rewrite length_app. cbn [length]. apply Nat.ltb_lt. lia.
Qed.

(** X16. In one streaming guest send no sequence of chunks and snapshots
    makes a callback throw: the pending index always designates an entry of
    the transcript when it is written through.  So when the stream call
    returns, [handleGuestSent] resolves having issued the stream request and
    nothing else (no fallback request), with the pending index still in
    range and the ignore flag down. *)
Theorem X16_guest_stream_returned_no_fallback tok text nowSec sc p :
  truthy text = true ->
  streaming p = true ->
  useRag p = false ->
  gs_stream sc = Returned ->
  let r := handleGuestSent tok text nowSec sc p in
  r.2 = Returned
  /\ r.1.2 = [Fetch (guestChatStream_request text
                       (messages p ++ [optimistic_user text nowSec p])
                       (page_options p))]
  /\ pending_in_range r.1.1 = true
  /\ ignoreFinalGuestSse r.1.1 = false.
Proof.
  intros Ht Hs Hr Hret r. subst r.
  destruct (guest_start_in_range tok text nowSec p Ht Hs Hr)
    as (p1 & ctx & Hstart & Hp & Hf).
  unfold handleGuestSent. rewrite Hstart.
  unfold handleGuestSent_stream.
  destruct (guest_callbacks_total (gs_events sc) ctx p1 Hp Hf)
    as (st & Hd & Hp' & Hf').
  rewrite Hd, Hret. cbn [fst snd app].
  now repeat split.
Qed.

Lemma X16_guest_stream_returned_no_fallback_witness :
  let sc := {| gs_events := [EvChunk "a"; EvMessages []; EvChunk "b";
                             EvMessages []; EvChunk "c"];
               gs_stream := Returned; gs_reply := ReplyFails "unused" |} in
  let r := handleGuestSent None "hi" 0 sc guest_page in
  r.2 = Returned /\ length (fetched r.1.2) = 1.
Proof.
  cbv zeta.
  destruct (X16_guest_stream_returned_no_fallback None "hi" 0%Z
              {| gs_events := [EvChunk "a"; EvMessages []; EvChunk "b";
                               EvMessages []; EvChunk "c"];
                 gs_stream := Returned; gs_reply := ReplyFails "unused" |}
              guest_page eq_refl eq_refl eq_refl eq_refl)
    as (H1 & H2 & _).
  split; [exact H1 |]. rewrite H2. reflexivity.
Defined.

(** With no entry pending, chunks only grow the accumulator. *)
Lemma guest_chunks_without_pending (chunks : list string) :
  forall (ctx : SendCtx) (p : Page),
    pendingAssistantIndex p = None ->
    deliver guest_callback (map EvChunk chunks) (ctx, p)
    = Next (with_acc (sc_acc ctx +:+ join chunks) ctx, p).
Proof.
  induction chunks as [|c cs IH]; intros ctx p Hn.
  - cbn [map deliver]. change (join []) with "".
    now rewrite str_app_nil_r, with_acc_same.
  - cbn [map deliver guest_callback]. unfold guest_onChunk, write_pending.
    cbn [fst snd]. rewrite Hn, (IH _ _ Hn).
    cbn [with_acc sc_acc sc_content sc_currentMessages].
    now rewrite join_cons, str_app_assoc.
Qed.

(** X17. Text chunks that arrive after the snapshot never reach the
    transcript: after the chunks [c1 .. cN], a snapshot and further chunks,
    the transcript is the one the snapshot produced (the transcript before
    the send followed by the last two entries of the snapshot, tail
    de-duplicated) and nothing is pending; only the accumulator has grown. *)
Theorem X17_guest_chunks_after_snapshot_ignored
    tok text nowSec p chunks upd later :
  truthy text = true ->
  streaming p = true ->
  useRag p = false ->
  exists p1 es ctx st,
    handleGuestSent_start tok text nowSec p = (p1, es, AwaitStream ctx)
    /\ deliver guest_callback
         (map EvChunk chunks ++ [EvMessages upd] ++ map EvChunk later) (ctx, p1)
       = Next st
    /\ sc_acc st.1 = join chunks +:+ join later
    /\ messages st.2 = dedup_tail (messages p ++ map of_wire (slice_neg 2 upd))
    /\ pendingAssistantIndex st.2 = None.
Proof.
  intros Ht Hs Hr.
  destruct (guest_snapshot_after_chunks tok text nowSec p chunks upd Ht Hs Hr)
    as (p1 & es & ctx & st & Hstart & Hd & Hm & Hn).
  destruct (guest_after_chunks tok text nowSec p chunks Ht Hs Hr)
    as (p1' & es' & ctx' & Hstart' & _ & _ & _ & Hd' & _).
  rewrite Hstart in Hstart'. injection Hstart' as <- <- <-.
  assert (Hacc : sc_acc st.1 = join chunks).
  { rewrite (deliver_app _ _ _ _ _ Hd') in Hd. cbn [deliver guest_callback] in Hd.
    injection Hd as <-. reflexivity. }
  destruct st as [ctx1 q]. cbn [fst snd] in *.
  exists p1, es, ctx, (with_acc (sc_acc ctx1 +:+ join later) ctx1, q).
  split; [exact Hstart |].
  split.
  { rewrite app_assoc, (deliver_app _ _ _ _ _ Hd).
    apply guest_chunks_without_pending. exact Hn. }
  cbn [fst snd with_acc sc_acc]. rewrite Hacc.
  now repeat split.
Qed.

Lemma X17_guest_chunks_after_snapshot_ignored_witness :
  let upd := [{| w_role := "user"; w_content := "hi"; w_timestamp := None;
                 w_data := None |};
              {| w_role := "assistant"; w_content := "Hello"; w_timestamp := None;
                 w_data := None |}] in
  exists p1 es ctx st,
    handleGuestSent_start None "hi" 0 guest_page = (p1, es, AwaitStream ctx)
    /\ deliver guest_callback
         (map EvChunk ["Hel"; "lo"] ++ [EvMessages upd] ++ map EvChunk [" again"])
         (ctx, p1)
       = Next st
    /\ map content (messages st.2) = ["hi"; "Hello"].
Proof.
  cbv zeta.
  destruct (X17_guest_chunks_after_snapshot_ignored None "hi" 0%Z guest_page
              ["Hel"; "lo"]
              [{| w_role := "user"; w_content := "hi"; w_timestamp := None;
                  w_data := None |};
               {| w_role := "assistant"; w_content := "Hello";
                  w_timestamp := None; w_data := None |}]
              [" again"] eq_refl eq_refl eq_refl)
    as (p1 & es & ctx & st & Hstart & Hd & _ & Hm & _).
  exists p1, es, ctx, st. split; [exact Hstart |]. split; [exact Hd |].
  rewrite Hm. reflexivity.
Defined.

Lemma alerts_app (es1 es2 : list Effect) :
  alerts (es1 ++ es2) = alerts es1 ++ alerts es2.
Proof. unfold alerts. apply omap_app. Qed.

Lemma guest_start_no_alert tok text nowSec p :
  alerts (handleGuestSent_start tok text nowSec p).1.2 = [].
Proof.
  unfold handleGuestSent_start.
  destruct (negb (truthy text)); [reflexivity |].
  destruct (streaming p && negb (useRag p)); reflexivity.
Qed.

(** X18. A guest send never raises an alert, whatever the network does:
    the failures of [handleGuestSent] are logged to the console and reject a
    promise that nobody observes.  And the guest component never puts the
    typed text back: after [handleSend] it is unchanged (the guard returned)
    or cleared and idle. *)
Theorem X18_guest_send_never_alerts tok text nowSec sc st p :
  alerts (handleGuestSent tok text nowSec sc p).1.2 = []
  /\ alerts (GuestMessageInput.handleSend tok nowSec st p).1.2 = []
  /\ ((GuestMessageInput.handleSend tok nowSec st p).1.1.1 = st
      \/ (GuestMessageInput.handleSend tok nowSec st p).1.1.1
         = {| GuestMessageInput.content := "";
              GuestMessageInput.sending := false |}).
Proof.
  split; [|split].
  - unfold handleGuestSent.
    pose proof (guest_start_no_alert tok text nowSec p) as H0.
    destruct (handleGuestSent_start tok text nowSec p) as [[p1 es1] started].
    cbn [fst snd] in H0.
    destruct started as [|ctx|ctx]; [exact H0 | |].
    + unfold handleGuestSent_stream.
      destruct (match deliver guest_callback (gs_events sc) (ctx, p1) with
                | Next st0 => (st0, gs_stream sc)
                | Raised e st0 => (st0, Threw e)
                end) as [st0 [|e]].
      * cbn [fst snd]. now rewrite app_nil_r.
      * destruct (gs_reply sc); cbn [handleGuestSent_fallback fst snd];
          rewrite !alerts_app, H0; reflexivity.
    + destruct (gs_reply sc); cbn [handleGuestSent_reply fst snd];
        rewrite alerts_app, H0; reflexivity.
  - unfold GuestMessageInput.handleSend.
    destruct (GuestMessageInput.handleSend_begin st) as [st1 [|text']];
      [reflexivity |].
    unfold GuestMessageInput.handleSend_resume.
    pose proof (guest_start_no_alert tok text' nowSec p) as H0.
    destruct (handleGuestSent_start tok text' nowSec p) as [[p1 es1] started].
    exact H0.
  - unfold GuestMessageInput.handleSend, GuestMessageInput.handleSend_begin.
    destruct (negb _ || _); [now left |].
    unfold GuestMessageInput.handleSend_resume.
    destruct (handleGuestSent_start _ _ _ _) as [[p1 es1] started].
    now right.
Qed.

Lemma page_events_chunks (chunks : list string) (tail : list StreamEvent)
    (ptail : list PageEvent) :
  mapM page_event tail = Some ptail ->
  mapM page_event (map TextChunk chunks ++ tail)
  = Some (map EvChunk chunks ++ ptail).
Proof.
  intros Ht. induction chunks as [|c cs IH]; [exact Ht |].
  cbn [map app]. cbn [mapM]. cbn [page_event].
  rewrite IH. reflexivity.
Qed.

(** X19. A guest stream from the HTTP body to the transcript.  The body
    holds one event for each chunk (payloads on which [JSON.parse] throws),
    then one event whose payload parses to an object of type [messages] with
    an array of messages as [data], then the terminal marker.  Whatever the
    reads and whatever follows the marker, [handleGuestSent] resolves after
    the single stream request, and the transcript is the transcript before
    the send followed by the last two messages of the snapshot (tail
    de-duplicated), with nothing pending. *)
Theorem X19_guest_stream_end_to_end
    parse tok text nowSec p chunks snap ms js upd reads ending rest
    status statusText body_text reply :
  truthy text = true ->
  streaming p = true ->
  useRag p = false ->
  forallb payload_ok (chunks ++ [snap]) = true ->
  forallb (unparsed parse) chunks = true ->
  parse snap = Some (JObj ms) ->
  get_member "type" ms = Some (JStr "messages") ->
  get_member "data" ms = Some (JArr js) ->
  mapM wire_of_json js = Some upd ->
  join reads = sse_body (chunks ++ [snap]) +:+ sse_event "[DONE]" +:+ rest ->
  exists p',
    handleGuestSent_http parse tok text nowSec
      (FetchResolves {| res_ok := true; res_status := status;
                        res_statusText := statusText;
                        res_text := body_text;
                        res_body := Some (reads, ending) |})
      reply p
    = Some (p',
            [Fetch (guestChatStream_request text
                      (messages p ++ [optimistic_user text nowSec p])
                      (page_options p))],
            Returned)
    /\ messages p' = dedup_tail (messages p ++ map of_wire (slice_neg 2 upd))
    /\ pendingAssistantIndex p' = None.
Proof.
  intros Ht Hs Hr Hok Hch Hsnap Htype Hdata Hupd Hbody.
  destruct (guest_snapshot_after_chunks tok text nowSec p chunks upd Ht Hs Hr)
    as (p1 & es & ctx & st & Hstart & Hd & Hm & Hn).
  destruct (guest_after_chunks tok text nowSec p chunks Ht Hs Hr)
    as (p1' & es' & ctx' & Hstart' & Hes & _).
  rewrite Hstart in Hstart'. injection Hstart' as <- <- <-.
  exists st.2. split; [|now split].
  unfold handleGuestSent_http. rewrite Hstart.
  unfold guestChatStream, consume, guestChatStream_console.
  cbn [res_ok res_body].
  rewrite (proj2 (read_loop_sse_body _ _ reads ending Hok) rest Hbody).
  rewrite flat_map_app, (guest_payload_chunks parse never_throws chunks Hch).
  cbn [flat_map]. unfold guest_payload at 1.
  rewrite Hsnap, Htype, Hdata.
  cbn [String.eqb Ascii.eqb Bool.eqb andb app never_throws].
  rewrite (page_events_chunks chunks _ [EvMessages upd])
    by (cbn [mapM page_event]; rewrite Hupd; reflexivity).
  cbn [mbind option_bind].
  unfold handleGuestSent_stream. cbn [gs_events gs_stream].
  rewrite Hd. cbn [fst snd app]. rewrite Hes. reflexivity.
Qed.

Lemma X19_guest_stream_end_to_end_witness :
  let snap :=
    ("{" +:+ quoted "type" +:+ ":" +:+ quoted "messages" +:+ ","
         +:+ quoted "data" +:+ ":[{" +:+ quoted "role" +:+ ":" +:+ quoted "user"
         +:+ "," +:+ quoted "content" +:+ ":" +:+ quoted "hi" +:+ "},{"
         +:+ quoted "role" +:+ ":" +:+ quoted "assistant" +:+ ","
         +:+ quoted "content" +:+ ":" +:+ quoted "Hello" +:+ "}]}") in
  let fr := FetchResolves
              {| res_ok := true; res_status := 200; res_statusText := "OK";
                 res_text := None;
                 res_body :=
                   Some ([sse_event "Hel"; sse_event "lo" +:+ sse_event snap;
                          sse_event "[DONE]"], ReadFails "reset") |} in
  exists p' es,
    handleGuestSent_http JSON_parse None "hi" 0 fr (ReplyFails "") guest_page
    = Some (p', es, Returned)
    /\ map (fun m => (role m, content m)) (messages p')
       = [("user", "hi"); ("assistant", "Hello")].
Proof.
  cbv zeta.
  pose (snap :=
    ("{" +:+ quoted "type" +:+ ":" +:+ quoted "messages" +:+ ","
         +:+ quoted "data" +:+ ":[{" +:+ quoted "role" +:+ ":" +:+ quoted "user"
         +:+ "," +:+ quoted "content" +:+ ":" +:+ quoted "hi" +:+ "},{"
         +:+ quoted "role" +:+ ":" +:+ quoted "assistant" +:+ ","
         +:+ quoted "content" +:+ ":" +:+ quoted "Hello" +:+ "}]}")).
  destruct (X19_guest_stream_end_to_end JSON_parse None "hi" 0%Z guest_page
              ["Hel"; "lo"] snap
              [("type", JStr "messages");
               ("data",
                JArr [JObj [("role", JStr "user"); ("content", JStr "hi")];
                      JObj [("role", JStr "assistant");
                            ("content", JStr "Hello")]])]
              [JObj [("role", JStr "user"); ("content", JStr "hi")];
               JObj [("role", JStr "assistant"); ("content", JStr "Hello")]]
              [{| w_role := "user"; w_content := "hi"; w_timestamp := None;
                  w_data := None |};
               {| w_role := "assistant"; w_content := "Hello";
                  w_timestamp := None; w_data := None |}]
              [sse_event "Hel"; sse_event "lo" +:+ sse_event snap;
               sse_event "[DONE]"]
              (ReadFails "reset") "" 200 "OK" None (ReplyFails "")
              eq_refl eq_refl eq_refl
              ltac:(vm_compute; reflexivity) ltac:(vm_compute; reflexivity)
              ltac:(vm_compute; reflexivity) eq_refl eq_refl
              ltac:(vm_compute; reflexivity) ltac:(vm_compute; reflexivity))
    as (p' & Hrun & Hm & _).
  exists p'. eexists. split; [exact Hrun |].
  rewrite Hm. reflexivity.
Defined.

(** X20. The history a guest request carries depends on the branch.  In the
    streaming branch the stream request, and the fallback request after it,
    carry the transcript before the send followed by the new user message
    ([currentMessages] and [messages] are one array when the placeholder is
    pushed, so [slice(0, -1)] drops the placeholder).  In the non-streaming
    branch the request carries the transcript before the send alone, while
    the page already shows the new user message. *)
Theorem X20_guest_history_by_branch tok text nowSec p :
  truthy text = true ->
  (streaming p && negb (useRag p) = true ->
   exists p1 ctx,
     handleGuestSent_start tok text nowSec p
     = (p1,
        [Fetch (guestChatStream_request text
                  (messages p ++ [optimistic_user text nowSec p])
                  (page_options p))],
        AwaitStream ctx)
     /\ forall q, gr_messages (guest_request ctx q)
                  = messages p ++ [optimistic_user text nowSec p])
  /\ (streaming p && negb (useRag p) = false ->
      exists p1 ctx,
        handleGuestSent_start tok text nowSec p
        = (p1, [Fetch (guestChat_request tok (guest_request ctx p1))],
           AwaitReply ctx)
        /\ messages p1 = messages p ++ [optimistic_user text nowSec p]
        /\ forall q, gr_messages (guest_request ctx q) = messages p).
Proof.
  intros Ht. split; intros Hb.
  - apply andb_true_iff in Hb. destruct Hb as [Hs Hr].
    apply negb_true_iff in Hr.
    apply (guest_streaming_history tok text nowSec p Ht Hs Hr).
  - unfold handleGuestSent_start. rewrite Ht, Hb. cbn [negb].
    do 2 eexists. split; [reflexivity |]. split; [reflexivity |].
    intros q. cbn [guest_request gr_messages sc_currentMessages].
    apply (slice_to_neg_app (messages p) [_]).
Qed.

Lemma X20_guest_history_by_branch_witness :
  (exists p1 ctx,
      handleGuestSent_start None "hi" 0 guest_page
      = (p1,
         [Fetch (guestChatStream_request "hi"
                   [optimistic_user "hi" 0 guest_page] (page_options guest_page))],
         AwaitStream ctx))
  /\ (exists p1 ctx,
        handleGuestSent_start None "hi" 0 (toggle_streaming false guest_page)
        = (p1, [Fetch (guestChat_request None (guest_request ctx p1))],
           AwaitReply ctx)
        /\ gr_messages (guest_request ctx p1) = []).
Proof.
  split.
  - destruct (proj1 (X20_guest_history_by_branch None "hi" 0%Z guest_page eq_refl)
                eq_refl) as (p1 & ctx & H & _).
    exists p1, ctx. exact H.
  - destruct (proj2 (X20_guest_history_by_branch None "hi" 0%Z
                       (toggle_streaming false guest_page) eq_refl)
                eq_refl) as (p1 & ctx & H & _ & Hq).
    exists p1, ctx. split; [exact H | apply Hq].
Defined.



(** ** Sessions: layout, sign-in page and sidebar *)

(** X22. After the layout has mounted the session always counts as
    authenticated.  A later API request carries a bearer token only if a
    non-empty token was stored and [me()] accepted it, and then the user
    store holds the user that [me()] answered; in every other case the
    stores are those of guest mode, and a token that [me()] rejected has
    been removed from the storage. *)
Theorem X22_layout_bearer_only_if_accepted me b :
  let b' := layout_onMount me b in
  isAuthenticated (stores b') = true
  /\ (forall v,
        header "Authorization" (apiFetch_headers (getToken b')) = Some v ->
        exists tok u,
          localStorage_token b = Some tok /\ truthy tok = true
          /\ me = Some u /\ v = "Bearer " +:+ tok
          /\ user (stores b') = Some u)
  /\ (header "Authorization" (apiFetch_headers (getToken b')) = None ->
      stores b' = setGuestMode (stores b))
  /\ (token_truthy (localStorage_token b) = true -> me = None ->
      getToken b' = None).
Proof.
  unfold layout_onMount, getToken, token_truthy.
  destruct (localStorage_token b) as [tok|] eqn:Etok.
  - destruct (truthy tok) eqn:Ett; cbn [negb].
    + destruct me as [u|]; cbn [stores localStorage_token];
        unfold apiFetch_headers; rewrite ?Ett; cbn.
      * split; [reflexivity |]. split; [|split; [discriminate |]].
        -- intros v [= <-]. exists tok, u. now repeat split.
        -- intros _. discriminate.
      * split; [reflexivity |]. split; [discriminate |]. now split.
    + cbn [stores localStorage_token]. rewrite ?Etok.
      unfold apiFetch_headers. rewrite Ett. cbn.
      split; [reflexivity |]. split; [discriminate |].
      split; [reflexivity | discriminate].
  - cbn [negb stores localStorage_token]. rewrite ?Etok. cbn.
    split; [reflexivity |]. split; [discriminate |].
    split; [reflexivity | discriminate].
Qed.

Lemma X22_layout_bearer_only_if_accepted_witness :
  stores (layout_onMount None
            {| stores := initial_stores; localStorage_token := Some "stale" |})
  = setGuestMode initial_stores.
Proof.
  exact (proj1 (proj2 (proj2 (X22_layout_bearer_only_if_accepted None
                                {| stores := initial_stores;
                                   localStorage_token := Some "stale" |})))
           eq_refl).
Defined.

(** X23. Choosing guest mode on the sign-in page does not remove a stored
    token.  When the layout mounts next and [me()] accepts that token, the
    session is a guest session ([isGuest] set, token store empty) whose user
    store holds the real user, and the guest chat requests carry that
    user's bearer token. *)
Theorem X23_guest_mode_keeps_stored_token tok u b r :
  localStorage_token b = Some tok ->
  truthy tok = true ->
  let b' := layout_onMount (Some u) (auth_handleGuestMode b) in
  isGuest (stores b') = true
  /\ user (stores b') = Some u
  /\ token (stores b') = None
  /\ header "Authorization" (req_headers (guestChat_request (getToken b') r))
     = Some ("Bearer " +:+ tok).
Proof.
  intros Etok Ett.
  unfold layout_onMount, auth_handleGuestMode, getToken, token_truthy.
  cbn [localStorage_token stores]. rewrite Etok, Ett. cbn [negb].
  cbn [stores localStorage_token]. rewrite ?Etok.
  split; [reflexivity |]. split; [reflexivity |]. split; [reflexivity |].
  cbn [guestChat_request req_headers]. unfold apiFetch_headers. rewrite Ett.
  reflexivity.
Qed.

Lemma X23_guest_mode_keeps_stored_token_witness :
  let b := auth_handleSubmit_ok "abc" guestUser
             {| stores := initial_stores; localStorage_token := None |} in
  let b' := layout_onMount (Some guestUser) (auth_handleGuestMode b) in
  isGuest (stores b') = true
  /\ getToken b' = Some "abc".
Proof.
  cbv zeta.
  destruct (X23_guest_mode_keeps_stored_token "abc" guestUser
              (auth_handleSubmit_ok "abc" guestUser
                 {| stores := initial_stores; localStorage_token := None |})
              {| gr_content := "hi"; gr_messages := []; gr_use_rag := false;
                 gr_rag_top_k := inject_Z 4; gr_rag_temperature := (3 # 10)%Q |}
              eq_refl eq_refl) as (H1 & _).
  split; [exact H1 | reflexivity].
Defined.

(** X24. The sidebar's [logout] after a sign-in removes the stored token but
    leaves the token store holding the access token.  When the layout mounts
    after it, the session becomes a guest session whatever [me()] would
    answer, and API requests carry no bearer token. *)
Theorem X24_logout_then_mount me access_token u b :
  let b1 := logout (auth_handleSubmit_ok access_token u b) in
  let b2 := layout_onMount me b1 in
  getToken b1 = None
  /\ token (stores b1) = Some access_token
  /\ isGuest (stores b2) = true
  /\ user (stores b2) = Some guestUser
  /\ token (stores b2) = None
  /\ header "Authorization" (apiFetch_headers (getToken b2)) = None.
Proof. cbn. repeat split. Qed.

(** ** Settings and reference snippets *)

(** X25. Switching retrieval on and off again leaves streaming off: the
    reactive statement cleared the streaming flag and nothing sets it back.
    A guest send made then opens no stream request. *)
Theorem X25_retrieval_off_leaves_streaming_off tok text nowSec sc p :
  let q := toggle_useRag false (toggle_useRag true p) in
  useRag q = false
  /\ streaming q = false
  /\ opens_stream (handleGuestSent tok text nowSec sc q).1.2 = false.
Proof.
  cbn zeta.
  assert (Hq : useRag (toggle_useRag false (toggle_useRag true p)) = false
               /\ streaming (toggle_useRag false (toggle_useRag true p)) = false).
  { unfold toggle_useRag, rag_reactive. cbn. split; reflexivity. }
  destruct Hq as [Hu Hs]. split; [exact Hu |]. split; [exact Hs |].
  unfold handleGuestSent, handleGuestSent_start.
  destruct (truthy text); [|reflexivity].
  rewrite Hs. cbn [negb andb].
  unfold handleGuestSent_reply.
  destruct (gs_reply sc); cbn [fst snd];
    rewrite opens_stream_app, opens_stream_fetch, guestChat_not_stream;
    reflexivity.
Qed.

(** X26. [docSnippet] gives at most [DOC_SNIPPET_LEN + 1] code units: a
    content of at most 120 units (and an absent one, as the empty text) is
    shown as it is, a longer one as its first 120 units and the ellipsis;
    and a snippet is its own snippet. *)
Theorem X26_docSnippet_bounded {A} (ellipsis : A) (content : option (list A)) :
  length (docSnippet ellipsis content) <= DOC_SNIPPET_LEN + 1
  /\ (forall c, content = Some c -> length c <= DOC_SNIPPET_LEN ->
      docSnippet ellipsis content = c)
  /\ (forall c, content = Some c -> DOC_SNIPPET_LEN < length c ->
      docSnippet ellipsis content = take DOC_SNIPPET_LEN c ++ [ellipsis])
  /\ docSnippet ellipsis (Some (docSnippet ellipsis content))
     = docSnippet ellipsis content.
Proof.
  unfold docSnippet. destruct content as [c|].
  - destruct (Nat.ltb DOC_SNIPPET_LEN (length c)) eqn:E.
    + apply Nat.ltb_lt in E.
      split; [rewrite length_app, length_take; cbn [length]; lia |].
      split; [intros c' [= <-] H; lia |].
      split; [intros c' [= <-] _; reflexivity |].
      assert (Hl : length (take DOC_SNIPPET_LEN c ++ [ellipsis])
                   = DOC_SNIPPET_LEN + 1)
        by (rewrite length_app, length_take; cbn [length]; lia).
      rewrite (proj2 (Nat.ltb_lt _ _)) by (rewrite Hl; lia).
      rewrite take_app_le by (rewrite length_take; lia).
      rewrite take_take. now rewrite Nat.min_id.
    + apply Nat.ltb_ge in E.
      split; [lia |].
      split; [intros c' [= <-] _; reflexivity |].
      split; [intros c' [= <-] H; lia |].
      now rewrite (proj2 (Nat.ltb_ge _ _) E).
  - cbn. split; [lia |]. split; [discriminate |].
    split; [discriminate | reflexivity].
Qed.

Lemma X26_docSnippet_bounded_witness :
  docSnippet 8230%N (Some (replicate 200 97%N))
  = replicate 120 97%N ++ [8230%N].
Proof.
  exact (proj1 (proj2 (proj2 (X26_docSnippet_bounded 8230%N
                                (Some (replicate 200 97%N)))))
           (replicate 200 97%N) eq_refl ltac:(vm_compute; lia)).
Defined.

(** ** The keys of the optimistic entries *)

Lemma cids_app (l k : list ChatMessage) : cids (l ++ k) = cids l ++ cids k.
Proof. apply omap_app. Qed.

Lemma cids_of_wire (ms : list WireMessage) : cids (map of_wire ms) = [].
Proof. induction ms as [|m ms IH]; [reflexivity | exact IH]. Qed.

Lemma cids_insert_content (l : list ChatMessage) :
  forall (i : nat) (m : ChatMessage) (text : string),
    l !! i = Some m -> cids (<[i := set_content text m]> l) = cids l.
Proof.
  induction l as [|x l IH]; intros i m text Hm; [reflexivity |].
  destruct i as [|i].
  - injection Hm as ->. reflexivity.
  - cbn [lookup list_lookup] in Hm.
    change (<[S i := set_content text m]> (x :: l))
      with (x :: <[i := set_content text m]> l).
    unfold cids in *. cbn [omap list_omap]. now rewrite (IH i m text Hm).
Qed.

Lemma cids_take (k : nat) (l : list ChatMessage) :
  cids l = cids (take k l) ++ cids (drop k l).
Proof. now rewrite <- cids_app, take_drop. Qed.

Lemma cids_below_nil (n : nat) : cids_below n [].
Proof. split; constructor. Qed.

Lemma cids_below_prefix (n : nat) (cs ds : list string) :
  cids_below n (cs ++ ds) -> cids_below n cs.
Proof.
  intros [H1 H2]. split.
  - now apply NoDup_app in H1.
  - now apply Forall_app in H2.
Qed.

(** [nextCid()] gives a text that is not in use. *)
Lemma cids_below_next (n : nat) (cs : list string) :
  cids_below n cs -> cids_below (S n) (cs ++ [pretty (S n)]).
Proof.
  intros [H1 H2]. split.
  - apply NoDup_app. split; [exact H1 |]. split; [|apply NoDup_singleton].
    intros c Hc Hin. apply list_elem_of_singleton in Hin.
    rewrite Forall_forall in H2. destruct (H2 c Hc) as (k & -> & Hk).
    apply (inj pretty) in Hin. lia.
  - apply Forall_app. split.
    + eapply Forall_impl; [exact H2 |].
      intros c (k & -> & Hk). exists k. split; [reflexivity | lia].
    + constructor; [|constructor]. exists (S n). split; [reflexivity | lia].
Qed.

Lemma cids_below_take (n k : nat) (l : list ChatMessage) :
  cids_below n (cids l) -> cids_below n (cids (take k l)).
Proof. rewrite (cids_take k l). apply cids_below_prefix. Qed.

Lemma cids_below_dedup (n : nat) (l : list ChatMessage) :
  cids_below n (cids l) -> cids_below n (cids (dedup_tail l)).
Proof.
  unfold dedup_tail. destruct (tail_duplicated l); [|easy].
  apply cids_below_take.
Qed.

Lemma write_pending_keeps_cids (text : string) (p : Page) :
  cids_fresh p ->
  cids_fresh (step_state (write_pending text p))
  /\ cidCounter p <= cidCounter (step_state (write_pending text p)).
Proof.
  unfold cids_fresh, write_pending. intros Hp.
  destruct (pendingAssistantIndex p) as [i|]; [|now split].
  destruct (messages p !! i) as [m|] eqn:Hm; [|now split].
  cbn [step_state messages cidCounter with_messages].
  now rewrite (cids_insert_content _ _ _ _ Hm).
Qed.

Lemma loadChat_keeps_cids id sv p :
  cids_fresh (loadChat id sv p) /\ cidCounter p <= cidCounter (loadChat id sv p).
Proof.
  unfold cids_fresh, loadChat.
  cbn [messages cidCounter with_pendingAssistantIndex with_messages].
  rewrite cids_of_wire. split; [apply cids_below_nil | reflexivity].
Qed.

Lemma refreshChats_keeps_cids preferId sv p :
  cids_fresh (refreshChats preferId sv p)
  /\ cidCounter p <= cidCounter (refreshChats preferId sv p).
Proof.
  unfold refreshChats. destruct (sv_chats sv) as [|first rest].
  - split; [apply cids_below_nil | reflexivity].
  - apply (loadChat_keeps_cids _ sv
             (with_selectedChatId _ (with_chats (first :: rest) p))).
Qed.

Lemma getOrCreateChat_keeps_cids created sv p :
  cids_fresh p ->
  cids_fresh (getOrCreateChat created sv p).1
  /\ cidCounter p <= cidCounter (getOrCreateChat created sv p).1.
Proof.
  intros Hp. unfold getOrCreateChat.
  destruct (id_truthy (selectedChatId p)); [now split |].
  destruct (isGuestMode p); [now split |].
  apply refreshChats_keeps_cids.
Qed.

Lemma refresh_then_create_keeps_cids sv created sv' p :
  let p1 := refreshChats None sv p in
  let p2 := if id_truthy (selectedChatId p1) then p1
            else (getOrCreateChat created sv' p1).1 in
  cids_fresh p2 /\ cidCounter p <= cidCounter p2.
Proof.
  cbv zeta.
  destruct (refreshChats_keeps_cids None sv p) as [H1 H2].
  destruct (id_truthy (selectedChatId (refreshChats None sv p)));
    [now split |].
  destruct (getOrCreateChat_keeps_cids created sv' _ H1) as [H3 H4].
  split; [exact H3 | lia].
Qed.

Lemma page_step_keeps_cids (p p' : Page) :
  page_step p p' ->
  cids_fresh p -> cids_fresh p' /\ cidCounter p <= cidCounter p'.
Proof.
  intros Hstep Hp. destruct Hstep.
  - unfold toggle_streaming, rag_reactive. cbn [useRag with_streaming].
    destruct (useRag p); now split.
  - unfold toggle_useRag, rag_reactive. cbn [useRag with_useRag].
    destruct b; now split.
  - unfold sync_guest_mode.
    destruct (bool_decide (b = isGuestMode p)); [now split |].
    destruct b; [|now split].
    split; [apply cids_below_nil | reflexivity].
  - unfold page_onMount. destruct b.
    + split; [apply cids_below_nil | reflexivity].
    + apply (refresh_then_create_keeps_cids sv created sv'
               (with_isGuestMode false p)).
  - apply loadChat_keeps_cids.
  - apply refreshChats_keeps_cids.
  - now apply getOrCreateChat_keeps_cids.
  - unfold handleDeleteChat.
    destruct (negb (id_truthy id)); [now split |].
    destruct (negb confirmed); [now split |].
    destruct deleted as [e|]; [now split |].
    apply refresh_then_create_keeps_cids.
  - unfold cids_fresh in *. unfold handleGuestSent_start.
    destruct (negb (truthy text)); [now split |].
    destruct (streaming p && negb (useRag p));
      cbn [fst messages cidCounter with_ignoreFinalGuestSse
           with_pendingAssistantIndex with_messages with_cidCounter].
    + split; [|lia]. rewrite app_assoc, !cids_app.
      change (cids [assistant_entry true (Some (pretty (S (S (cidCounter p)))))])
        with [pretty (S (S (cidCounter p)))].
      apply cids_below_next.
      change (cids [user_entry text nowSec (Some (pretty (S (cidCounter p))))])
        with [pretty (S (cidCounter p))].
      now apply cids_below_next.
    + split; [|lia]. rewrite cids_app.
      change (cids [user_entry text nowSec (Some (pretty (S (cidCounter p))))])
        with [pretty (S (cidCounter p))].
      now apply cids_below_next.
  - now apply write_pending_keeps_cids.
  - unfold cids_fresh in *. unfold guest_onMessages.
    destruct (ignoreFinalGuestSse p); [now split |].
    cbn [messages cidCounter with_ignoreFinalGuestSse
         with_pendingAssistantIndex with_messages].
    split; [|reflexivity]. apply cids_below_dedup.
    unfold reconcile_replace.
    destruct (placeholder_pending p).
    + rewrite cids_app, cids_of_wire, app_nil_r.
      now apply cids_below_take.
    + rewrite cids_of_wire. apply cids_below_nil.
  - unfold cids_fresh in *. destruct r as [resp ms|e]; [|now split].
    cbn [handleGuestSent_fallback fst messages cidCounter
         with_ignoreFinalGuestSse with_pendingAssistantIndex with_messages].
    rewrite cids_of_wire. split; [apply cids_below_nil | reflexivity].
  - unfold cids_fresh in *. destruct r as [resp ms|e]; [|now split].
    cbn [handleGuestSent_reply fst messages cidCounter with_messages].
    rewrite cids_of_wire. split; [apply cids_below_nil | reflexivity].
  - unfold cids_fresh in *. unfold on_streamstart.
    destruct (negb (id_truthy (coalesce id (selectedChatId p)))); [now split |].
    set (p1 := if bool_decide (selectedChatId p = coalesce id (selectedChatId p))
               then p
               else with_messages [] (with_selectedChatId _ p)).
    assert (H1 : cids_below (cidCounter p) (cids (messages p1))
                 /\ cidCounter p1 = cidCounter p).
    { subst p1. destruct (bool_decide _); [now split |].
      split; [apply cids_below_nil | reflexivity]. }
    destruct H1 as [H1 Hc].
    destruct (id_truthy (selectedChatId p1)); [|rewrite Hc; now split].
    destruct (truthy text);
      cbn [messages cidCounter with_messages with_pendingAssistantIndex];
      rewrite ?cids_app, Hc;
      change (cids [assistant_entry false None]) with (@nil string);
      change (cids [user_entry text nowSec None]) with (@nil string);
      rewrite ?app_nil_r; now split.
  - unfold on_stream. destruct (_ || _); [now split |].
    now apply write_pending_keeps_cids.
  - unfold on_streamend. destruct (_ || _); [now split |].
    pose proof (write_pending_keeps_cids text p Hp) as H.
    destruct (write_pending text p) as [q|e q]; exact H.
Qed.

(** X27. The keys of the optimistic entries stay pairwise different.
    Whatever sequence of steps the page goes through (settings and mode
    changes, mounting, loading, refreshing, creating and deleting chats,
    guest sends with their chunks, snapshots, fallback and non-streaming
    answers, the events of the authenticated component, in any
    interleaving), the [cid]s present in the transcript are pairwise
    different texts of numbers that [nextCid] has given out, and
    [cidCounter] never decreases; entries received from the server carry no
    [cid]. *)
Theorem X27_optimistic_keys_stay_distinct (p p' : Page) :
  cids_fresh p ->
  rtc page_step p p' ->
  cids_fresh p' /\ cidCounter p <= cidCounter p'.
Proof.
  intros Hp Hrun. induction Hrun as [p|p q r Hstep _ IH].
  - now split.
  - destruct (page_step_keeps_cids p q Hstep Hp) as [Hq Hle].
    destruct (IH Hq) as [Hr Hle']. split; [exact Hr | lia].
Qed.

Lemma X27_optimistic_keys_stay_distinct_witness :
  cids_fresh
    (handleGuestSent_start None "again" 5
       (handleGuestSent_start None "hi" 0 initial_page).1.1).1.1.
Proof.
  exact (proj1 (X27_optimistic_keys_stay_distinct initial_page _
                  (cids_below_nil 0)
                  (rtc_l _ _ _ _ (step_send None "hi" 0%Z initial_page)
                     (rtc_once _ _ (step_send None "again" 5%Z _))))).
Defined.
